(** * WEBXR-AR: placement, gestures and room constraints

    A shallow embedding of the placement-and-manipulation logic of the
    repository: the room configurator (gizmo drag validated against the room
    limits and the almirah, with snap-back to the last valid transform) and
    the two WebXR deployments of [main.js] (reticle, select, touch gestures).

    JavaScript numbers are IEEE 754 binary64 values; they are modelled by
    Rocq's primitive floats, whose operations are the same correctly rounded
    ones.  Decimal literals denote the nearest binary64 value, as they do in
    JavaScript.  The elementary functions [Math.atan2], [Math.cos],
    [Math.sin] and [Math.asin] are parameters, and so is
    [Box3.setFromObject], which depends on the geometry of the assets. *)

From Stdlib Require Import Floats ZArith List String Ascii Bool Arith Lia.
Import ListNotations.

Set Warnings "-inexact-float,-register-all".

(** ** The [Math] functions the program calls *)

Module Math.

(** [Math.max(a, b)]: NaN if either argument is NaN; [+0] is larger than
    [-0]. *)
Definition max (a b : float) : float :=
  if is_nan a || is_nan b then nan
  else if (a <? b)%float then b
  else if (b <? a)%float then a
  else if get_sign a then b else a.

(** [Math.min(a, b)]: NaN if either argument is NaN; [-0] is smaller than
    [+0]. *)
Definition min (a b : float) : float :=
  if is_nan a || is_nan b then nan
  else if (a <? b)%float then a
  else if (b <? a)%float then b
  else if get_sign a then a else b.

Definition sqrt (a : float) : float := PrimFloat.sqrt a.

Definition abs (a : float) : float := PrimFloat.abs a.

End Math.

(** ** The part of three.js the program uses

    Objects of three.js are mutable; a method [a.m(b)] that updates [a] in
    place is a function from the old [a] (first argument, [this]) to the
    new one. *)

Module Matrix4.

(** The sixteen elements, column-major; the translation is at 12, 13, 14. *)
Record t : Set := mk { elements : list float }.

(** [new THREE.Matrix4()]: the identity. *)
Definition new : t :=
  mk [1; 0; 0; 0;  0; 1; 0; 0;  0; 0; 1; 0;  0; 0; 0; 1]%float.

(** [array[i]] read as a number: a missing element is [undefined], which
    every later arithmetic operation turns into NaN. *)
Definition at_index (array : list float) (i : nat) : float := nth i array nan.

Definition fromArray (this : t) (array : list float) : t :=
  mk (map (at_index array) (seq 0 16)).

End Matrix4.

Module Vector3.

Record t : Set := mk { x : float; y : float; z : float }.

(** [new THREE.Vector3()] *)
Definition new : t := mk 0 0 0.

Definition set (this : t) (x' y' z' : float) : t := mk x' y' z'.

Definition copy (this v : t) : t := mk (x v) (y v) (z v).

Definition set_y (this : t) (y' : float) : t := mk (x this) y' (z this).

Definition sub (this v : t) : t :=
  mk (x this - x v) (y this - y v) (z this - z v).

Definition addVectors (this a b : t) : t :=
  mk (x a + x b) (y a + y b) (z a + z b).

Definition multiplyScalar (this : t) (s : float) : t :=
  mk (x this * s) (y this * s) (z this * s).

Definition distanceToSquared (this v : t) : float :=
  let dx := (x this - x v)%float in
  let dy := (y this - y v)%float in
  let dz := (z this - z v)%float in
  (dx * dx + dy * dy + dz * dz)%float.

Definition distanceTo (this v : t) : float :=
  Math.sqrt (distanceToSquared this v).

(** [this.setFromMatrixPosition(m)] *)
Definition setFromMatrixPosition (this : t) (m : Matrix4.t) : t :=
  let e := Matrix4.elements m in
  mk (Matrix4.at_index e 12) (Matrix4.at_index e 13) (Matrix4.at_index e 14).

End Vector3.

Module Euler.

Record t : Set := mk { x : float; y : float; z : float; order : string }.

(** [new THREE.Euler()] *)
Definition new : t := mk 0 0 0 "XYZ".

Definition copy (this e : t) : t := mk (x e) (y e) (z e) (order e).

(** The assignment [rotation.y = v]. *)
Definition set_y (this : t) (y' : float) : t :=
  mk (x this) y' (z this) (order this).

End Euler.

(** *** Rotations through quaternions

    An [Object3D] keeps its rotation twice, as Euler angles and as a
    quaternion, and a write to either recomputes the other.  These are the
    methods of [Quaternion], [Matrix4] and [Euler] that do so; the
    elementary functions of [Math] they call are parameters. *)

Module MathUtils.

(** [MathUtils.clamp(value, min, max)] *)
Definition clamp (value lo hi : float) : float :=
  Math.max lo (Math.min hi value).

End MathUtils.

Module Quaternion.

Local Open Scope float_scope.

Record t : Set := mk { x : float; y : float; z : float; w : float }.

(** [new THREE.Quaternion()]: the identity. *)
Definition new : t := mk 0 0 0 1.

Definition copy (this quaternion : t) : t :=
  mk (x quaternion) (y quaternion) (z quaternion) (w quaternion).

Section Elementary.

(** [Math.cos] and [Math.sin]. *)
Variables cos sin : float -> float.

(** [this.setFromEuler(euler)]; for an order it does not know three.js
    warns and leaves the quaternion as it is. *)
Definition setFromEuler (this : t) (euler : Euler.t) : t :=
  let order := Euler.order euler in
  let c1 := cos (Euler.x euler / 2) in
  let c2 := cos (Euler.y euler / 2) in
  let c3 := cos (Euler.z euler / 2) in
  let s1 := sin (Euler.x euler / 2) in
  let s2 := sin (Euler.y euler / 2) in
  let s3 := sin (Euler.z euler / 2) in
  if String.eqb order "XYZ" then
    mk (s1 * c2 * c3 + c1 * s2 * s3) (c1 * s2 * c3 - s1 * c2 * s3)
       (c1 * c2 * s3 + s1 * s2 * c3) (c1 * c2 * c3 - s1 * s2 * s3)
  else if String.eqb order "YXZ" then
    mk (s1 * c2 * c3 + c1 * s2 * s3) (c1 * s2 * c3 - s1 * c2 * s3)
       (c1 * c2 * s3 - s1 * s2 * c3) (c1 * c2 * c3 + s1 * s2 * s3)
  else if String.eqb order "ZXY" then
    mk (s1 * c2 * c3 - c1 * s2 * s3) (c1 * s2 * c3 + s1 * c2 * s3)
       (c1 * c2 * s3 + s1 * s2 * c3) (c1 * c2 * c3 - s1 * s2 * s3)
  else if String.eqb order "ZYX" then
    mk (s1 * c2 * c3 - c1 * s2 * s3) (c1 * s2 * c3 + s1 * c2 * s3)
       (c1 * c2 * s3 - s1 * s2 * c3) (c1 * c2 * c3 + s1 * s2 * s3)
  else if String.eqb order "YZX" then
    mk (s1 * c2 * c3 + c1 * s2 * s3) (c1 * s2 * c3 + s1 * c2 * s3)
       (c1 * c2 * s3 - s1 * s2 * c3) (c1 * c2 * c3 - s1 * s2 * s3)
  else if String.eqb order "XZY" then
    mk (s1 * c2 * c3 - c1 * s2 * s3) (c1 * s2 * c3 - s1 * c2 * s3)
       (c1 * c2 * s3 + s1 * s2 * c3) (c1 * c2 * c3 + s1 * s2 * s3)
  else this.

End Elementary.

End Quaternion.

(** The methods of [Matrix4] that build a matrix from a quaternion. *)
Module Matrix4Compose.

Local Open Scope float_scope.

(** [this.compose(position, quaternion, scale)] *)
Definition compose (this : Matrix4.t) (position : Vector3.t)
  (quaternion : Quaternion.t) (scale : Vector3.t) : Matrix4.t :=
  let x := Quaternion.x quaternion in
  let y := Quaternion.y quaternion in
  let z := Quaternion.z quaternion in
  let w := Quaternion.w quaternion in
  let x2 := x + x in
  let y2 := y + y in
  let z2 := z + z in
  let xx := x * x2 in
  let xy := x * y2 in
  let xz := x * z2 in
  let yy := y * y2 in
  let yz := y * z2 in
  let zz := z * z2 in
  let wx := w * x2 in
  let wy := w * y2 in
  let wz := w * z2 in
  let sx := Vector3.x scale in
  let sy := Vector3.y scale in
  let sz := Vector3.z scale in
  Matrix4.mk
    [(1 - (yy + zz)) * sx; (xy + wz) * sx; (xz - wy) * sx; 0;
     (xy - wz) * sy; (1 - (xx + zz)) * sy; (yz + wx) * sy; 0;
     (xz + wy) * sz; (yz - wx) * sz; (1 - (xx + yy)) * sz; 0;
     Vector3.x position; Vector3.y position; Vector3.z position; 1].

(** [this.makeRotationFromQuaternion(q)] *)
Definition makeRotationFromQuaternion (this : Matrix4.t) (q : Quaternion.t)
  : Matrix4.t :=
  compose this (Vector3.mk 0 0 0) q (Vector3.mk 1 1 1).

End Matrix4Compose.

(** The methods of [Euler] that read the angles off a rotation. *)
Module EulerFrom.

Local Open Scope float_scope.

Section Elementary.

(** [Math.atan2] and [Math.asin]. *)
Variable atan2 : float -> float -> float.
Variable asin : float -> float.

(** [this.setFromRotationMatrix(m, order)]; for an order it does not know
    three.js warns and keeps the angles. *)
Definition setFromRotationMatrix (this : Euler.t) (m : Matrix4.t)
  (order : string) : Euler.t :=
  let te := Matrix4.elements m in
  let m11 := Matrix4.at_index te 0 in
  let m12 := Matrix4.at_index te 4 in
  let m13 := Matrix4.at_index te 8 in
  let m21 := Matrix4.at_index te 1 in
  let m22 := Matrix4.at_index te 5 in
  let m23 := Matrix4.at_index te 9 in
  let m31 := Matrix4.at_index te 2 in
  let m32 := Matrix4.at_index te 6 in
  let m33 := Matrix4.at_index te 10 in
  if String.eqb order "XYZ" then
    let y := asin (MathUtils.clamp m13 (-1) 1) in
    if Math.abs m13 <? 0.9999999
    then Euler.mk (atan2 (- m23) m33) y (atan2 (- m12) m11) order
    else Euler.mk (atan2 m32 m22) y 0 order
  else if String.eqb order "YXZ" then
    let x := asin (- MathUtils.clamp m23 (-1) 1) in
    if Math.abs m23 <? 0.9999999
    then Euler.mk x (atan2 m13 m33) (atan2 m21 m22) order
    else Euler.mk x (atan2 (- m31) m11) 0 order
  else if String.eqb order "ZXY" then
    let x := asin (MathUtils.clamp m32 (-1) 1) in
    if Math.abs m32 <? 0.9999999
    then Euler.mk x (atan2 (- m31) m33) (atan2 (- m12) m22) order
    else Euler.mk x 0 (atan2 m21 m11) order
  else if String.eqb order "ZYX" then
    let y := asin (- MathUtils.clamp m31 (-1) 1) in
    if Math.abs m31 <? 0.9999999
    then Euler.mk (atan2 m32 m33) y (atan2 m21 m11) order
    else Euler.mk 0 y (atan2 (- m12) m22) order
  else if String.eqb order "YZX" then
    let z := asin (MathUtils.clamp m21 (-1) 1) in
    if Math.abs m21 <? 0.9999999
    then Euler.mk (atan2 (- m23) m22) (atan2 (- m31) m11) z order
    else Euler.mk 0 (atan2 m13 m33) z order
  else if String.eqb order "XZY" then
    let z := asin (- MathUtils.clamp m12 (-1) 1) in
    if Math.abs m12 <? 0.9999999
    then Euler.mk (atan2 m32 m22) (atan2 m13 m11) z order
    else Euler.mk (atan2 (- m23) m33) 0 z order
  else Euler.mk (Euler.x this) (Euler.y this) (Euler.z this) order.

(** [this.setFromQuaternion(q, order)]: through a scratch matrix, every
    element of which [makeRotationFromQuaternion] overwrites. *)
Definition setFromQuaternion (this : Euler.t) (q : Quaternion.t)
  (order : string) : Euler.t :=
  setFromRotationMatrix this
    (Matrix4Compose.makeRotationFromQuaternion Matrix4.new q) order.

End Elementary.

End EulerFrom.

Module Box3.

Record t : Set := mk { min : Vector3.t; max : Vector3.t }.

(** [new THREE.Box3()]: the empty box. *)
Definition new : t :=
  mk (Vector3.mk infinity infinity infinity)
     (Vector3.mk neg_infinity neg_infinity neg_infinity).

Definition isEmpty (this : t) : bool :=
  (Vector3.x (max this) <? Vector3.x (min this))%float
  || (Vector3.y (max this) <? Vector3.y (min this))%float
  || (Vector3.z (max this) <? Vector3.z (min this))%float.

Definition getCenter (this : t) (target : Vector3.t) : Vector3.t :=
  if isEmpty this then Vector3.set target 0 0 0
  else Vector3.multiplyScalar
         (Vector3.addVectors target (min this) (max this)) 0.5.

(** [this.intersectsBox(box)]: touching boxes intersect.  (Releases of
    three.js that decide it by exclusion, [box.max.x < this.min.x || ... ?
    false : true], answer the same on boxes without NaN.) *)
Definition intersectsBox (this box : t) : bool :=
  (Vector3.x (min this) <=? Vector3.x (max box))%float
  && (Vector3.x (min box) <=? Vector3.x (max this))%float
  && (Vector3.y (min this) <=? Vector3.y (max box))%float
  && (Vector3.y (min box) <=? Vector3.y (max this))%float
  && (Vector3.z (min this) <=? Vector3.z (max box))%float
  && (Vector3.z (min box) <=? Vector3.z (max this))%float.

End Box3.

Module Object3D.

(** A node of the scene graph: three.js numbers every object it creates
    ([id]); the transform is [position], [rotation], [scale].  Geometry and
    materials only matter to rendering and to [Box3.setFromObject], which
    is a parameter of the room configurator below. *)
Record t : Set := mk {
  id : nat;
  name : string;
  isMesh : bool;
  position : Vector3.t;
  rotation : Euler.t;
  scale : Vector3.t
}.

Definition set_position (this : t) (p : Vector3.t) : t :=
  mk (id this) (name this) (isMesh this) p (rotation this) (scale this).

Definition set_rotation (this : t) (r : Euler.t) : t :=
  mk (id this) (name this) (isMesh this) (position this) r (scale this).

Definition set_scale (this : t) (s : Vector3.t) : t :=
  mk (id this) (name this) (isMesh this) (position this) (rotation this) s.

Section Elementary.

(** [Math.atan2], [Math.cos], [Math.sin] and [Math.asin]. *)
Variable atan2 : float -> float -> float.
Variables cos sin asin : float -> float.

(** [this.quaternion]: the change callback of [this.rotation] sets it from
    the Euler angles at every write to them. *)
Definition quaternion (this : t) : Quaternion.t :=
  Quaternion.setFromEuler cos sin Quaternion.new (rotation this).

(** [this.clone()], that is [new this.constructor().copy(this)]: a new
    object, numbered [id'].  [copy] copies the position, gives the new
    rotation the order of the source, copies the quaternion, whose change
    callback then recomputes the Euler angles from it, and copies the
    scale.  The angles of the clone are those read off the quaternion, not
    the angles of the source. *)
Definition clone (this : t) (id' : nat) : t :=
  let ordered := Euler.mk 0 0 0 (Euler.order (rotation this)) in
  let q := Quaternion.copy Quaternion.new (quaternion this) in
  mk id' (name this) (isMesh this)
     (Vector3.copy Vector3.new (position this))
     (EulerFrom.setFromQuaternion atan2 asin ordered q (Euler.order ordered))
     (Vector3.copy Vector3.new (scale this)).

End Elementary.

End Object3D.

(** A loaded glTF scene: every node is an object with its children. *)
Inductive SceneGraph : Set :=
| Node (object : Object3D.t) (children : list SceneGraph).

(** [root.traverse(callback)] visits the node itself, then its children in
    order, each with their descendants. *)
Fixpoint traverse (g : SceneGraph) : list Object3D.t :=
  match g with
  | Node o cs => o :: flat_map traverse cs
  end.

(** [s.includes(search)] of JavaScript strings. *)
Fixpoint includes (s search : string) : bool :=
  if String.prefix search s then true
  else match s with
       | EmptyString => false
       | String _ rest => includes rest search
       end.

(** ** The room configurator *)

Module Room.

Record RoomLimits : Set := mkRoomLimits {
  minX : float; maxX : float; minZ : float; maxZ : float
}.

Definition roomLimits : RoomLimits :=
  mkRoomLimits (-3.25) 3.25 (-3.92) 2.8.

(** The module-level variables of the configurator. *)
Record State : Set := mkState {
  currentModel : option Object3D.t;
  wallMeshReference : option Object3D.t;
  floorMeshReference : option Object3D.t;
  almirahBox : option Box3.t;
  boxHelper : Box3.t;
  lastValidPosition : Vector3.t;
  lastValidRotation : Euler.t
}.

Definition init : State :=
  mkState None None None None Box3.new Vector3.new Euler.new.

Definition set_currentModel (s : State) (m : option Object3D.t) : State :=
  mkState m (wallMeshReference s) (floorMeshReference s) (almirahBox s)
          (boxHelper s) (lastValidPosition s) (lastValidRotation s).

Definition set_wallMeshReference (s : State) (w : option Object3D.t) : State :=
  mkState (currentModel s) w (floorMeshReference s) (almirahBox s)
          (boxHelper s) (lastValidPosition s) (lastValidRotation s).

Definition set_floorMeshReference (s : State) (f : option Object3D.t) : State :=
  mkState (currentModel s) (wallMeshReference s) f (almirahBox s)
          (boxHelper s) (lastValidPosition s) (lastValidRotation s).

Definition set_almirahBox (s : State) (b : option Box3.t) : State :=
  mkState (currentModel s) (wallMeshReference s) (floorMeshReference s) b
          (boxHelper s) (lastValidPosition s) (lastValidRotation s).

Definition set_boxHelper (s : State) (b : Box3.t) : State :=
  mkState (currentModel s) (wallMeshReference s) (floorMeshReference s)
          (almirahBox s) b (lastValidPosition s) (lastValidRotation s).

Definition set_lastValid (s : State) (p : Vector3.t) (r : Euler.t) : State :=
  mkState (currentModel s) (wallMeshReference s) (floorMeshReference s)
          (almirahBox s) (boxHelper s) p r.

Section Configurator.

(** [new THREE.Box3().setFromObject(o)]: the world-space axis-aligned box of
    an object under its current transform.  It depends on the geometry of
    the loaded asset. *)
Variable setFromObject : Object3D.t -> Box3.t.

(** [isOutside] of the 'change' listener. *)
Definition isOutside (b : Box3.t) : bool :=
  (Vector3.x (Box3.min b) <? minX roomLimits)%float
  || (maxX roomLimits <? Vector3.x (Box3.max b))%float
  || (Vector3.z (Box3.min b) <? minZ roomLimits)%float
  || (maxZ roomLimits <? Vector3.z (Box3.max b))%float.

(** [hitsAlmirah] of the 'change' listener. *)
Definition hitsAlmirah (almirah : option Box3.t) (b : Box3.t) : bool :=
  match almirah with
  | Some a => Box3.intersectsBox b a
  | None => false
  end.

(** The listener of the gizmo's 'change' event. *)
Definition onChange (s : State) : State :=
  match currentModel s with
  | None => s
  | Some m =>
      let s1 := set_boxHelper s (setFromObject m) in
      if isOutside (boxHelper s1) || hitsAlmirah (almirahBox s1) (boxHelper s1)
      then
        let m1 := Object3D.set_position m
                    (Vector3.copy (Object3D.position m) (lastValidPosition s1)) in
        let m2 := Object3D.set_rotation m1
                    (Euler.copy (Object3D.rotation m1) (lastValidRotation s1)) in
        set_currentModel s1 (Some m2)
      else
        set_lastValid s1
          (Vector3.copy (lastValidPosition s1) (Object3D.position m))
          (Euler.copy (lastValidRotation s1) (Object3D.rotation m))
  end.

(** The callback of [room.traverse] in [loadCustomRoom]. *)
Definition visitRoomChild (s : State) (child : Object3D.t) : State :=
  if Object3D.isMesh child then
    let s1 := if includes (Object3D.name child) "Wall"
              then set_wallMeshReference s (Some child) else s in
    let s2 := if includes (Object3D.name child) "Floor"
              then set_floorMeshReference s1 (Some child) else s1 in
    if includes (Object3D.name child) "Almirah"
    then set_almirahBox s2 (Some (setFromObject child)) else s2
  else s.

(** The success callback of [loadCustomRoom]. *)
Definition loadCustomRoom_onLoad (room : SceneGraph) (s : State) : State :=
  fold_left visitRoomChild (traverse room) s.

(** The success callback of [loadProduct]: centre the model, put it on the
    floor, and save the transform as the first valid one. *)
Definition loadProduct_onLoad (gltfScene : Object3D.t) (s : State) : State :=
  let box := setFromObject gltfScene in
  let center := Box3.getCenter box Vector3.new in
  let p := Vector3.set_y (Vector3.sub (Object3D.position gltfScene) center) 0 in
  let m := Object3D.set_position gltfScene p in
  set_lastValid (set_currentModel s (Some m))
    (Vector3.copy (lastValidPosition s) (Object3D.position m))
    (Euler.copy (lastValidRotation s) (Object3D.rotation m)).

(** What the drag gizmo does to the object it is attached to, before it
    dispatches 'change': it writes the dragged position and rotation. *)
Definition gizmoWrite (p : Vector3.t) (r : Euler.t) (s : State) : State :=
  match currentModel s with
  | None => s
  | Some m =>
      set_currentModel s
        (Some (Object3D.set_rotation (Object3D.set_position m p) r))
  end.

(** What reaches the configurator after [init]. *)
Inductive Event : Set :=
| RoomLoaded (room : SceneGraph)
| ProductLoaded (gltfScene : Object3D.t)
| ProductLoadError
| GizmoDrag (p : Vector3.t) (r : Euler.t)
| GizmoNotify.

Definition step (s : State) (e : Event) : State :=
  match e with
  | RoomLoaded room => loadCustomRoom_onLoad room s
  | ProductLoaded gltfScene => loadProduct_onLoad gltfScene s
  | ProductLoadError => s
  | GizmoDrag p r => onChange (gizmoWrite p r s)
  | GizmoNotify => onChange s
  end.

Definition run (s : State) (es : list Event) : State := fold_left step es s.

End Configurator.

End Room.

(** ** The WebXR deployments ([main.js]) *)

(** A point of [e.touches]. *)
Record Touch : Set := mkTouch { clientX : float; clientY : float }.

(** A hit-test result: [getPose(referenceSpace)] gives the pose, whose
    [transform.matrix] is kept here, or [null]. *)
Record XRHitTestResult : Set := mkHit { getPose : option (list float) }.

(** What the program reads from an [XRFrame]: the results for the viewer
    hit-test source and, per transient input source, the results for the
    transient one. *)
Record XRFrame : Set := mkFrame {
  getHitTestResults : list XRHitTestResult;
  getHitTestResultsForTransientInput : list (list XRHitTestResult)
}.

Inductive XRHitTestSource : Set := ViewerSource | TransientInputSource.

(** The reticle mesh: its [matrix] and [visible] properties. *)
Record Reticle : Set := mkReticle { matrix : Matrix4.t; visible : bool }.

Definition set_matrix (r : Reticle) (m : Matrix4.t) : Reticle :=
  mkReticle m (visible r).

Definition set_visible (r : Reticle) (v : bool) : Reticle :=
  mkReticle (matrix r) v.

(** *** The deployment with two-finger pinch and twist *)

Module AR.

(** The module-level variables.  [scene] lists the ids of the model
    instances added to the scene (lights, reticle and controller are added
    once at start-up and never touched again); objects are told apart by
    a number, as in three.js, and [objectCount] is the number the next
    object gets; [pendingTimeouts] counts
    the 100 ms timers set by 'touchend' that have not fired yet. *)
Record State : Set := mkState {
  objectCount : nat;
  scene : list nat;
  reticle : Reticle;
  hitTestSource : option XRHitTestSource;
  hitTestSourceRequested : bool;
  transientHitTestSource : option XRHitTestSource;
  currentModel : option Object3D.t;
  loadedGLTF : option Object3D.t;
  workingVec : Vector3.t;
  isDragging : bool;
  isTwoFinger : bool;
  initialDistance : float;
  initialScale : Vector3.t;
  initialAngle : float;
  initialModelRotation : float;
  pendingTimeouts : nat
}.

(** The state after [init()] on a WebXR platform. *)
Definition init : State :=
  mkState 0 [] (mkReticle Matrix4.new false) None false None None None
          Vector3.new false false 0 Vector3.new 0 0 0.

Definition set_reticle (s : State) (r : Reticle) : State :=
  mkState (objectCount s) (scene s) r (hitTestSource s)
    (hitTestSourceRequested s) (transientHitTestSource s) (currentModel s)
    (loadedGLTF s) (workingVec s) (isDragging s) (isTwoFinger s)
    (initialDistance s) (initialScale s) (initialAngle s)
    (initialModelRotation s) (pendingTimeouts s).

Definition set_hitTest (s : State) (src : option XRHitTestSource)
  (requested : bool) (transient : option XRHitTestSource) : State :=
  mkState (objectCount s) (scene s) (reticle s) src requested transient
    (currentModel s) (loadedGLTF s) (workingVec s) (isDragging s)
    (isTwoFinger s) (initialDistance s) (initialScale s) (initialAngle s)
    (initialModelRotation s) (pendingTimeouts s).

Definition set_currentModel (s : State) (m : option Object3D.t) : State :=
  mkState (objectCount s) (scene s) (reticle s) (hitTestSource s)
    (hitTestSourceRequested s) (transientHitTestSource s) m
    (loadedGLTF s) (workingVec s) (isDragging s) (isTwoFinger s)
    (initialDistance s) (initialScale s) (initialAngle s)
    (initialModelRotation s) (pendingTimeouts s).

Definition set_objectCount (s : State) (n : nat) : State :=
  mkState n (scene s) (reticle s)
    (hitTestSource s) (hitTestSourceRequested s) (transientHitTestSource s)
    (currentModel s) (loadedGLTF s) (workingVec s) (isDragging s)
    (isTwoFinger s) (initialDistance s) (initialScale s) (initialAngle s)
    (initialModelRotation s) (pendingTimeouts s).

(** [scene.add(o)] *)
Definition scene_add (s : State) (o : Object3D.t) : State :=
  mkState (objectCount s) (scene s ++ [Object3D.id o]) (reticle s)
    (hitTestSource s) (hitTestSourceRequested s) (transientHitTestSource s)
    (currentModel s) (loadedGLTF s) (workingVec s) (isDragging s)
    (isTwoFinger s) (initialDistance s) (initialScale s) (initialAngle s)
    (initialModelRotation s) (pendingTimeouts s).

Definition set_loadedGLTF (s : State) (g : option Object3D.t) : State :=
  mkState (objectCount s) (scene s) (reticle s) (hitTestSource s)
    (hitTestSourceRequested s) (transientHitTestSource s) (currentModel s)
    g (workingVec s) (isDragging s) (isTwoFinger s)
    (initialDistance s) (initialScale s) (initialAngle s)
    (initialModelRotation s) (pendingTimeouts s).

Definition set_workingVec (s : State) (v : Vector3.t) : State :=
  mkState (objectCount s) (scene s) (reticle s) (hitTestSource s)
    (hitTestSourceRequested s) (transientHitTestSource s) (currentModel s)
    (loadedGLTF s) v (isDragging s) (isTwoFinger s)
    (initialDistance s) (initialScale s) (initialAngle s)
    (initialModelRotation s) (pendingTimeouts s).

Definition set_flags (s : State) (dragging twoFinger : bool) : State :=
  mkState (objectCount s) (scene s) (reticle s) (hitTestSource s)
    (hitTestSourceRequested s) (transientHitTestSource s) (currentModel s)
    (loadedGLTF s) (workingVec s) dragging twoFinger
    (initialDistance s) (initialScale s) (initialAngle s)
    (initialModelRotation s) (pendingTimeouts s).

Definition set_snapshot (s : State) (distance : float) (scale : Vector3.t)
  (angle rotationY : float) : State :=
  mkState (objectCount s) (scene s) (reticle s) (hitTestSource s)
    (hitTestSourceRequested s) (transientHitTestSource s) (currentModel s)
    (loadedGLTF s) (workingVec s) (isDragging s) (isTwoFinger s)
    distance scale angle rotationY (pendingTimeouts s).

Definition set_pendingTimeouts (s : State) (n : nat) : State :=
  mkState (objectCount s) (scene s) (reticle s) (hitTestSource s)
    (hitTestSourceRequested s) (transientHitTestSource s) (currentModel s)
    (loadedGLTF s) (workingVec s) (isDragging s) (isTwoFinger s)
    (initialDistance s) (initialScale s) (initialAngle s)
    (initialModelRotation s) n.

(** How a callback ends: it returns, or it throws (a [TypeError] on a
    [null] pose); either way the assignments made so far stay. *)
Inductive Outcome : Set :=
| Returned (s : State)
| Thrown (s : State).

Definition stateOf (o : Outcome) : State :=
  match o with
  | Returned s => s
  | Thrown s => s
  end.

(** The success callback of the GLTF loader in [setupWebXR]. *)
Definition onGLTFLoaded (gltfScene : Object3D.t) (s : State) : State :=
  set_loadedGLTF s (Some gltfScene).

Section Callbacks.

(** [Math.atan2(y, x)] of the gestures, and with it the [Math.cos],
    [Math.sin] and [Math.asin] that three.js calls to clone the template. *)
Variable atan2 : float -> float -> float.
Variables cos sin asin : float -> float.

Definition onSelect (s : State) : State :=
  if isDragging s then s
  else
    match visible (reticle s), loadedGLTF s with
    | true, Some template =>
        match currentModel s with
        | Some m =>
            set_currentModel s
              (Some (Object3D.set_position m
                       (Vector3.setFromMatrixPosition (Object3D.position m)
                          (matrix (reticle s)))))
        | None =>
            let c := Object3D.clone atan2 cos sin asin template
                       (objectCount s) in
            let s1 := set_objectCount s (S (objectCount s)) in
            let c1 := Object3D.set_position c
                        (Vector3.setFromMatrixPosition (Object3D.position c)
                           (matrix (reticle s1))) in
            scene_add (set_currentModel s1 (Some c1)) c1
        end
    | _, _ => s
    end.

(** [shouldShowReticle(reticleMatrix)]: the answer, and the state with
    [workingVec] overwritten. *)
Definition shouldShowReticle (reticleMatrix : Matrix4.t) (s : State)
  : bool * State :=
  match currentModel s with
  | None => (true, s)
  | Some m =>
      let s1 := set_workingVec s
                  (Vector3.setFromMatrixPosition (workingVec s) reticleMatrix) in
      let distance := Vector3.distanceTo (workingVec s1) (Object3D.position m) in
      ((0.6 <? distance)%float, s1)
  end.

Definition touchstart (touches : list Touch) (s : State) : State :=
  match currentModel s with
  | None => s
  | Some m =>
      match touches with
      | [_] => set_flags s true false
      | [t0; t1] =>
          let s1 := set_flags s false true in
          let dx := (clientX t0 - clientX t1)%float in
          let dy := (clientY t0 - clientY t1)%float in
          set_snapshot s1
            (Math.sqrt (dx * dx + dy * dy))
            (Vector3.copy (initialScale s1) (Object3D.scale m))
            (atan2 dy dx)
            (Euler.y (Object3D.rotation m))
      | _ => s
      end
  end.

Definition touchmove (touches : list Touch) (s : State) : State :=
  match currentModel s with
  | None => s
  | Some m =>
      match touches with
      | [t0; t1] =>
          if isTwoFinger s then
            let dx := (clientX t0 - clientX t1)%float in
            let dy := (clientY t0 - clientY t1)%float in
            let currentDistance := Math.sqrt (dx * dx + dy * dy) in
            let scaleFactor := (currentDistance / initialDistance s)%float in
            let newScale :=
              Math.max 0.1
                (Math.min (Vector3.x (initialScale s) * scaleFactor) 5.0) in
            let m1 := Object3D.set_scale m
                        (Vector3.set (Object3D.scale m)
                           newScale newScale newScale) in
            let currentAngle := atan2 dy dx in
            let angleDiff := (currentAngle - initialAngle s)%float in
            let m2 := Object3D.set_rotation m1
                        (Euler.set_y (Object3D.rotation m1)
                           (initialModelRotation s - angleDiff)) in
            set_currentModel s (Some m2)
          else s
      | _ => s
      end
  end.

(** 'touchend' only sets a 100 ms timer. *)
Definition touchend (s : State) : State :=
  set_pendingTimeouts s (S (pendingTimeouts s)).

(** The timer's callback. *)
Definition onTimeout (s : State) : State :=
  match pendingTimeouts s with
  | O => s
  | S n => set_pendingTimeouts (set_flags s false false) n
  end.

(** [render]: the hit-test sources are requested once per session. *)
Definition requestSources (s : State) : State :=
  if hitTestSourceRequested s then s
  else set_hitTest s (hitTestSource s) true (transientHitTestSource s).

(** [render]: the reticle follows the first hit of the viewer source. *)
Definition reticleLogic (frame : XRFrame) (s : State) : Outcome :=
  match hitTestSource s with
  | None => Returned s
  | Some _ =>
      match getHitTestResults frame with
      | hit :: _ =>
          match getPose hit with
          | None => Thrown s
          | Some pose =>
              let s1 := set_reticle s
                          (set_matrix (reticle s)
                             (Matrix4.fromArray (matrix (reticle s)) pose)) in
              let (show, s2) := shouldShowReticle (matrix (reticle s1)) s1 in
              if show then Returned (set_reticle s2 (set_visible (reticle s2) true))
              else Returned (set_reticle s2 (set_visible (reticle s2) false))
          end
      | [] => Returned (set_reticle s (set_visible (reticle s) false))
      end
  end.

(** [render]: a one-finger drag moves the model to the transient hit. *)
Definition dragLogic (frame : XRFrame) (s : State) : Outcome :=
  match transientHitTestSource s, currentModel s with
  | Some _, Some m =>
      if isDragging s && negb (isTwoFinger s) then
        match getHitTestResultsForTransientInput frame with
        | (hit :: _) :: _ =>
            match getPose hit with
            | None => Thrown s
            | Some pose =>
                Returned
                  (set_currentModel s
                     (Some (Object3D.set_position m
                              (Vector3.setFromMatrixPosition
                                 (Object3D.position m)
                                 (Matrix4.fromArray Matrix4.new pose)))))
            end
        | _ => Returned s
        end
      else Returned s
  | _, _ => Returned s
  end.

(** [render(timestamp, frame)]; [isPresenting] is
    [renderer.xr.isPresenting]. *)
Definition render (frame : option XRFrame) (isPresenting : bool) (s : State)
  : Outcome :=
  match frame with
  | Some f =>
      if isPresenting then
        match reticleLogic f (requestSources s) with
        | Returned s1 => dragLogic f s1
        | Thrown s1 => Thrown s1
        end
      else Returned s
  | None => Returned s
  end.

(** The session's 'end' listener. *)
Definition onSessionEnd (s : State) : State := set_hitTest s None false None.

Inductive Event : Set :=
| GLTFLoaded (gltfScene : Object3D.t)
| GLTFLoadError
| Select
| TouchStart (touches : list Touch)
| TouchMove (touches : list Touch)
| TouchEnd
| Timeout
| AnimationFrame (frame : option XRFrame) (isPresenting : bool)
| HitTestSourceGranted
| TransientHitTestSourceGranted
| SessionEnd.

(** One event.  The loader has numbered the objects of the template it
    delivers, so the next clone gets a larger number. *)
Definition step (s : State) (e : Event) : State :=
  match e with
  | GLTFLoaded gltfScene =>
      onGLTFLoaded gltfScene
        (set_objectCount s
           (Nat.max (objectCount s) (S (Object3D.id gltfScene))))
  | GLTFLoadError => s
  | Select => onSelect s
  | TouchStart touches => touchstart touches s
  | TouchMove touches => touchmove touches s
  | TouchEnd => touchend s
  | Timeout => onTimeout s
  | AnimationFrame frame isPresenting => stateOf (render frame isPresenting s)
  | HitTestSourceGranted =>
      set_hitTest s (Some ViewerSource) (hitTestSourceRequested s)
        (transientHitTestSource s)
  | TransientHitTestSourceGranted =>
      set_hitTest s (hitTestSource s) (hitTestSourceRequested s)
        (Some TransientInputSource)
  | SessionEnd => onSessionEnd s
  end.

Definition run (s : State) (es : list Event) : State := fold_left step es s.

End Callbacks.

End AR.

(** *** The deployment with one-finger rotation *)

Module ARPan.

Record State : Set := mkState {
  objectCount : nat;
  scene : list nat;
  reticle : Reticle;
  hitTestSource : option XRHitTestSource;
  hitTestSourceRequested : bool;
  currentModel : option Object3D.t;
  loadedGLTF : option Object3D.t;
  isDragging : bool;
  previousX : float;
  workingVec : Vector3.t;
  pendingTimeouts : nat
}.

Definition init : State :=
  mkState 0 [] (mkReticle Matrix4.new false) None false None None false 0
          Vector3.new 0.

Definition set_objectCount (s : State) (n : nat) : State :=
  mkState n (scene s) (reticle s) (hitTestSource s)
    (hitTestSourceRequested s) (currentModel s) (loadedGLTF s) (isDragging s)
    (previousX s) (workingVec s) (pendingTimeouts s).

Definition scene_add (s : State) (o : Object3D.t) : State :=
  mkState (objectCount s) (scene s ++ [Object3D.id o]) (reticle s)
    (hitTestSource s) (hitTestSourceRequested s) (currentModel s)
    (loadedGLTF s) (isDragging s) (previousX s) (workingVec s)
    (pendingTimeouts s).

Definition set_reticle (s : State) (r : Reticle) : State :=
  mkState (objectCount s) (scene s) r (hitTestSource s)
    (hitTestSourceRequested s) (currentModel s) (loadedGLTF s) (isDragging s)
    (previousX s) (workingVec s) (pendingTimeouts s).

Definition set_hitTest (s : State) (src : option XRHitTestSource)
  (requested : bool) : State :=
  mkState (objectCount s) (scene s) (reticle s) src requested
    (currentModel s) (loadedGLTF s) (isDragging s) (previousX s)
    (workingVec s) (pendingTimeouts s).

Definition set_currentModel (s : State) (m : option Object3D.t) : State :=
  mkState (objectCount s) (scene s) (reticle s) (hitTestSource s)
    (hitTestSourceRequested s) m (loadedGLTF s) (isDragging s)
    (previousX s) (workingVec s) (pendingTimeouts s).

Definition set_loadedGLTF (s : State) (g : option Object3D.t) : State :=
  mkState (objectCount s) (scene s) (reticle s) (hitTestSource s)
    (hitTestSourceRequested s) (currentModel s) g (isDragging s)
    (previousX s) (workingVec s) (pendingTimeouts s).

Definition set_isDragging (s : State) (b : bool) : State :=
  mkState (objectCount s) (scene s) (reticle s) (hitTestSource s)
    (hitTestSourceRequested s) (currentModel s) (loadedGLTF s) b
    (previousX s) (workingVec s) (pendingTimeouts s).

Definition set_previousX (s : State) (x : float) : State :=
  mkState (objectCount s) (scene s) (reticle s) (hitTestSource s)
    (hitTestSourceRequested s) (currentModel s) (loadedGLTF s) (isDragging s)
    x (workingVec s) (pendingTimeouts s).

Definition set_workingVec (s : State) (v : Vector3.t) : State :=
  mkState (objectCount s) (scene s) (reticle s) (hitTestSource s)
    (hitTestSourceRequested s) (currentModel s) (loadedGLTF s) (isDragging s)
    (previousX s) v (pendingTimeouts s).

Definition set_pendingTimeouts (s : State) (n : nat) : State :=
  mkState (objectCount s) (scene s) (reticle s) (hitTestSource s)
    (hitTestSourceRequested s) (currentModel s) (loadedGLTF s) (isDragging s)
    (previousX s) (workingVec s) n.

Inductive Outcome : Set :=
| Returned (s : State)
| Thrown (s : State).

Definition stateOf (o : Outcome) : State :=
  match o with
  | Returned s => s
  | Thrown s => s
  end.

Definition onGLTFLoaded (gltfScene : Object3D.t) (s : State) : State :=
  set_loadedGLTF s (Some gltfScene).

Section Callbacks.

(** The [Math.atan2], [Math.cos], [Math.sin] and [Math.asin] that three.js
    calls to clone the template. *)
Variable atan2 : float -> float -> float.
Variables cos sin asin : float -> float.

Definition onSelect (s : State) : State :=
  if isDragging s then s
  else
    match visible (reticle s), loadedGLTF s with
    | true, Some template =>
        match currentModel s with
        | Some m =>
            set_currentModel s
              (Some (Object3D.set_position m
                       (Vector3.setFromMatrixPosition (Object3D.position m)
                          (matrix (reticle s)))))
        | None =>
            let c := Object3D.clone atan2 cos sin asin template
                       (objectCount s) in
            let s1 := set_objectCount s (S (objectCount s)) in
            let c1 := Object3D.set_position c
                        (Vector3.setFromMatrixPosition (Object3D.position c)
                           (matrix (reticle s1))) in
            scene_add (set_currentModel s1 (Some c1)) c1
        end
    | _, _ => s
    end.

Definition shouldShowReticle (reticleMatrix : Matrix4.t) (s : State)
  : bool * State :=
  match currentModel s with
  | None => (true, s)
  | Some m =>
      let s1 := set_workingVec s
                  (Vector3.setFromMatrixPosition (workingVec s) reticleMatrix) in
      let distance := Vector3.distanceTo (workingVec s1) (Object3D.position m) in
      ((0.5 <? distance)%float, s1)
  end.

(** 'touchstart' reads [e.touches[0]]; on an empty list that throws. *)
Definition touchstart (touches : list Touch) (s : State) : Outcome :=
  let s1 := set_isDragging s true in
  match touches with
  | t0 :: _ => Returned (set_previousX s1 (clientX t0))
  | [] => Thrown s1
  end.

Definition touchmove (touches : list Touch) (s : State) : Outcome :=
  match isDragging s, currentModel s with
  | true, Some m =>
      match touches with
      | t0 :: _ =>
          let currentX := clientX t0 in
          let deltaX := (currentX - previousX s)%float in
          let m1 := Object3D.set_rotation m
                      (Euler.set_y (Object3D.rotation m)
                         (Euler.y (Object3D.rotation m) + deltaX * 0.01)) in
          Returned (set_previousX (set_currentModel s (Some m1)) currentX)
      | [] => Thrown s
      end
  | _, _ => Returned s
  end.

Definition touchend (s : State) : State :=
  set_pendingTimeouts s (S (pendingTimeouts s)).

Definition onTimeout (s : State) : State :=
  match pendingTimeouts s with
  | O => s
  | S n => set_pendingTimeouts (set_isDragging s false) n
  end.

Definition requestSources (s : State) : State :=
  if hitTestSourceRequested s then s
  else set_hitTest s (hitTestSource s) true.

Definition reticleLogic (frame : XRFrame) (s : State) : Outcome :=
  match hitTestSource s with
  | None => Returned s
  | Some _ =>
      match getHitTestResults frame with
      | hit :: _ =>
          match getPose hit with
          | None => Thrown s
          | Some pose =>
              let s1 := set_reticle s
                          (set_matrix (reticle s)
                             (Matrix4.fromArray (matrix (reticle s)) pose)) in
              let (show, s2) := shouldShowReticle (matrix (reticle s1)) s1 in
              if show then Returned (set_reticle s2 (set_visible (reticle s2) true))
              else Returned (set_reticle s2 (set_visible (reticle s2) false))
          end
      | [] => Returned (set_reticle s (set_visible (reticle s) false))
      end
  end.

Definition render (frame : option XRFrame) (isPresenting : bool) (s : State)
  : Outcome :=
  match frame with
  | Some f =>
      if isPresenting then reticleLogic f (requestSources s)
      else Returned s
  | None => Returned s
  end.

Definition onSessionEnd (s : State) : State := set_hitTest s None false.

Inductive Event : Set :=
| GLTFLoaded (gltfScene : Object3D.t)
| GLTFLoadError
| Select
| TouchStart (touches : list Touch)
| TouchMove (touches : list Touch)
| TouchEnd
| Timeout
| AnimationFrame (frame : option XRFrame) (isPresenting : bool)
| HitTestSourceGranted
| SessionEnd.

Definition step (s : State) (e : Event) : State :=
  match e with
  | GLTFLoaded gltfScene =>
      onGLTFLoaded gltfScene
        (set_objectCount s
           (Nat.max (objectCount s) (S (Object3D.id gltfScene))))
  | GLTFLoadError => s
  | Select => onSelect s
  | TouchStart touches => stateOf (touchstart touches s)
  | TouchMove touches => stateOf (touchmove touches s)
  | TouchEnd => touchend s
  | Timeout => onTimeout s
  | AnimationFrame frame isPresenting => stateOf (render frame isPresenting s)
  | HitTestSourceGranted =>
      set_hitTest s (Some ViewerSource) (hitTestSourceRequested s)
  | SessionEnd => onSessionEnd s
  end.

Definition run (s : State) (es : list Event) : State := fold_left step es s.

End Callbacks.

End ARPan.

(** ** The specification's vocabulary *)

Module Spec.

(** Order on numbers, as propositions. *)
Definition lt (a b : float) : Prop := (a <? b)%float = true.
Definition le (a b : float) : Prop := (a <=? b)%float = true.

(** [s] contains [search] as a substring. *)
Definition Contains (search s : string) : Prop :=
  exists before after : string, s = (before ++ search ++ after)%string.

Inductive Axis : Set := X | Y | Z.

Definition coord (a : Axis) (v : Vector3.t) : float :=
  match a with
  | X => Vector3.x v
  | Y => Vector3.y v
  | Z => Vector3.z v
  end.

(** A face of the box crosses the room limits rectangle: on a horizontal
    axis, its minimum is below the room's minimum or its maximum above the
    room's maximum. *)
Definition exitsRoomLimits (limits : Room.RoomLimits) (b : Box3.t) : Prop :=
  lt (Vector3.x (Box3.min b)) (Room.minX limits)
  \/ lt (Room.maxX limits) (Vector3.x (Box3.max b))
  \/ lt (Vector3.z (Box3.min b)) (Room.minZ limits)
  \/ lt (Room.maxZ limits) (Vector3.z (Box3.max b)).

(** The intervals of two boxes on one axis overlap. *)
Definition intervalsOverlap (a : Axis) (b1 b2 : Box3.t) : Prop :=
  le (coord a (Box3.min b1)) (coord a (Box3.max b2))
  /\ le (coord a (Box3.min b2)) (coord a (Box3.max b1)).

(** The box intersects the static obstacle: there is one, and the intervals
    overlap on every axis. *)
Definition intersectsObstacle (obstacle : option Box3.t) (b : Box3.t) : Prop :=
  exists o, obstacle = Some o /\ forall a, intervalsOverlap a b o.

(** The rejection rule of the constraint validator. *)
Definition rejected (limits : Room.RoomLimits) (obstacle : option Box3.t)
  (b : Box3.t) : Prop :=
  exitsRoomLimits limits b \/ intersectsObstacle obstacle b.

(** The last-known-good snapshot. *)
Definition lastKnownGood (s : Room.State) : Vector3.t * Euler.t :=
  (Room.lastValidPosition s, Room.lastValidRotation s).

(** An object carrying the transform [t]. *)
Definition withTransform (m : Object3D.t) (t : Vector3.t * Euler.t)
  : Object3D.t :=
  Object3D.set_rotation (Object3D.set_position m (fst t)) (snd t).

(** [clamp(v, lo, hi)] *)
Definition clamp (v lo hi : float) : float :=
  if (v <? lo)%float then lo else if (hi <? v)%float then hi else v.

(** The distance between two touch points and the angle of the segment
    joining them. *)
Definition touchDistance (t0 t1 : Touch) : float :=
  let dx := (clientX t0 - clientX t1)%float in
  let dy := (clientY t0 - clientY t1)%float in
  PrimFloat.sqrt (dx * dx + dy * dy).

Definition touchAngle (atan2 : float -> float -> float) (t0 t1 : Touch)
  : float :=
  atan2 (clientY t0 - clientY t1)%float (clientX t0 - clientX t1)%float.

(** The translation of a matrix, and of a pose given by its sixteen
    numbers. *)
Definition matrixPosition (m : Matrix4.t) : Vector3.t :=
  Vector3.mk (nth 12 (Matrix4.elements m) nan)
             (nth 13 (Matrix4.elements m) nan)
             (nth 14 (Matrix4.elements m) nan).

Definition posePosition (pose : list float) : Vector3.t :=
  Vector3.mk (nth 12 pose nan) (nth 13 pose nan) (nth 14 pose nan).

(** The scale a two-finger move frame computes from the snapshot's scale
    [scaleX] and distance [d0] and the current distance [d]. *)
Definition pinchScale (scaleX d0 d : float) : float :=
  clamp (scaleX * (d / d0)) 0.1 5.0.

(** What the recognizer keeps of a two-finger gesture. *)
Definition snapshot (s : AR.State)
  : bool * float * Vector3.t * float * float :=
  (AR.isTwoFinger s, AR.initialDistance s, AR.initialScale s,
   AR.initialAngle s, AR.initialModelRotation s).

(** Events that may occur while a gesture lasts: anything but a new
    'touchstart' and the firing of a cool-down timer. *)
Definition withinGesture (e : AR.Event) : bool :=
  match e with
  | AR.TouchStart _ | AR.Timeout => false
  | _ => true
  end.

(** The placed instances in the scene are exactly the current model. *)
Definition onePlaced (scene : list nat) (currentModel : option Object3D.t)
  : Prop :=
  match currentModel with
  | None => scene = []
  | Some m => scene = [Object3D.id m]
  end.

(** A model has been placed. *)
Definition hasModel (s : AR.State) : Prop := AR.currentModel s <> None.

(** No mesh of the room has a name containing 'Almirah'. *)
Definition NoAlmirah (room : SceneGraph) : Prop :=
  forall o, In o (traverse room) -> Object3D.isMesh o = true ->
    ~ Contains "Almirah" (Object3D.name o).

Section RoomTraces.

Variable setFromObject : Object3D.t -> Box3.t.

(** The transform an event submits to the listener in state [s]. *)
Definition proposal (s : Room.State) (e : Room.Event) : option (Vector3.t * Euler.t) :=
  match e, Room.currentModel s with
  | Room.GizmoDrag p r, Some _ => Some (p, r)
  | Room.GizmoNotify, Some m => Some (Object3D.position m, Object3D.rotation m)
  | _, _ => None
  end.

(** The transform [t], put on the current model, passes both the
    room-limits check and the obstacle check. *)
Definition Passes (s : Room.State) (t : Vector3.t * Euler.t) : Prop :=
  exists m, Room.currentModel s = Some m
    /\ ~ rejected Room.roomLimits (Room.almirahBox s)
          (setFromObject (withTransform m t)).

(** The state the listener leaves when it reverts the proposed object [m]:
    the model carries the saved position and rotation, and its scale as
    proposed. *)
Definition reverted (s : Room.State) (m : Object3D.t) : Room.State :=
  Room.set_currentModel (Room.set_boxHelper s (setFromObject m))
    (Some (Object3D.mk (Object3D.id m) (Object3D.name m) (Object3D.isMesh m)
             (Room.lastValidPosition s) (Room.lastValidRotation s)
             (Object3D.scale m))).

(** The state the listener leaves when it commits the proposed object [m]:
    the model stays as proposed and the snapshot holds its position and
    rotation. *)
Definition committed (s : Room.State) (m : Object3D.t) : Room.State :=
  Room.set_currentModel
    (Room.set_lastValid (Room.set_boxHelper s (setFromObject m))
       (Object3D.position m) (Object3D.rotation m))
    (Some m).

Definition isProductLoaded (e : Room.Event) : bool :=
  match e with
  | Room.ProductLoaded _ => true
  | _ => false
  end.

End RoomTraces.

End Spec.

(** ** Concrete rooms, products and sessions *)

Module Examples.

(** A product one unit wide, deep and high, standing on its position; its
    box does not depend on rotation or scale. *)
Definition cubeBox (o : Object3D.t) : Box3.t :=
  let p := Object3D.position o in
  Box3.mk
    (Vector3.mk (Vector3.x p - 0.5) (Vector3.y p) (Vector3.z p - 0.5))
    (Vector3.mk (Vector3.x p + 0.5) (Vector3.y p + 1) (Vector3.z p + 0.5)).

Definition product : Object3D.t :=
  Object3D.mk 20 "recliner1" false (Vector3.mk 0 0 0) Euler.new
    (Vector3.mk 1 1 1).

Definition mesh (id : nat) (name : string) (p : Vector3.t) : Object3D.t :=
  Object3D.mk id name true p Euler.new (Vector3.mk 1 1 1).

(** A room with a wall and a floor and no almirah, and one with an almirah
    standing at x = -2. *)
Definition bareRoom : SceneGraph :=
  Node (Object3D.mk 10 "Scene" false (Vector3.mk 0 0 0) Euler.new
          (Vector3.mk 1 1 1))
       [Node (mesh 11 "Wall_Back" (Vector3.mk 0 0 (-4))) [];
        Node (mesh 12 "Floor" (Vector3.mk 0 (-1) 0)) []].

Definition furnishedRoom : SceneGraph :=
  Node (Object3D.mk 10 "Scene" false (Vector3.mk 0 0 0) Euler.new
          (Vector3.mk 1 1 1))
       [Node (mesh 11 "Wall_Back" (Vector3.mk 0 0 (-4))) [];
        Node (mesh 12 "Floor" (Vector3.mk 0 (-1) 0)) [];
        Node (mesh 13 "Almirah_01" (Vector3.mk (-2) 0 0)) []].

(** The configurator with the product loaded and centred at the origin. *)
Definition loaded : Room.State :=
  Room.loadProduct_onLoad cubeBox product Room.init.

(** The product dragged to x = 3.3, where its box reaches x = 3.8. *)
Definition draggedOut : Room.State :=
  Room.gizmoWrite (Vector3.mk 3.3 0 0) Euler.new loaded.

Definition draggedOutModel : Object3D.t :=
  Object3D.mk 20 "recliner1" false (Vector3.mk 3.3 0 0) Euler.new
    (Vector3.mk 1 1 1).

Definition drags : list Room.Event :=
  [Room.RoomLoaded bareRoom;
   Room.GizmoDrag (Vector3.mk 2 0 0) Euler.new;
   Room.GizmoDrag (Vector3.mk 3.3 0 0) Euler.new].

(** The template of the AR deployments, with a scale that is not uniform. *)
Definition pot : Object3D.t :=
  Object3D.mk 7 "POT1" false (Vector3.mk 0 0 0) Euler.new
    (Vector3.mk 1 2 3).

(** A pose without rotation at the point [(x, y, z)]. *)
Definition poseAt (x y z : float) : list float :=
  [1; 0; 0; 0;  0; 1; 0; 0;  0; 0; 1; 0;  x; y; z; 1]%float.

Definition frameAt (x y z : float) : XRFrame :=
  mkFrame [mkHit (Some (poseAt x y z))] [].

(** A session in which the template has loaded, the hit-test source has
    been granted, a surface one metre ahead has been hit and selected, and
    the viewer then points at a surface two metres to the right. *)
Definition placing : list AR.Event :=
  [AR.GLTFLoaded pot;
   AR.HitTestSourceGranted;
   AR.AnimationFrame (Some (frameAt 0 0 (-1))) true;
   AR.Select;
   AR.AnimationFrame (Some (frameAt 2 0 (-1))) true].

(** Two fingers go down one after the other, move apart, and are lifted;
    neither timer has fired. *)
Definition twoFingerGesture : list AR.Event :=
  [AR.TouchStart [mkTouch 100 300];
   AR.TouchStart [mkTouch 100 300; mkTouch 200 300];
   AR.TouchMove [mkTouch 90 300; mkTouch 210 300];
   AR.TouchEnd;
   AR.TouchEnd].

(** One finger goes down, moves and is lifted; the timer has not fired. *)
Definition oneFingerDrag : list AR.Event :=
  [AR.TouchStart [mkTouch 100 300];
   AR.TouchMove [mkTouch 120 300];
   AR.TouchEnd].

(** A two-finger gesture whose touch points coincide. *)
Definition coincidentPinch : list AR.Event :=
  [AR.TouchStart [mkTouch 150 300; mkTouch 150 300];
   AR.TouchMove [mkTouch 150 300; mkTouch 150 300]].

(** Where the functions of [Math] are parameters, the examples take their
    first terms at zero: the quotient for [Math.atan2], 1 for [Math.cos] and
    the argument for [Math.sin] and [Math.asin].  At a template that is not
    rotated they give what JavaScript gives: the quaternion (0, 0, 0, 1) and
    the angles (-0, 0, -0). *)
Definition quotient (y x : float) : float := (y / x)%float.

Definition cosine (a : float) : float := 1%float.

Definition sine (a : float) : float := a.

Definition arcsine (a : float) : float := a.

(** The session before the select: the reticle shows one metre ahead. *)
Definition aiming : AR.State :=
  AR.run quotient cosine sine arcsine AR.init
    [AR.GLTFLoaded pot; AR.HitTestSourceGranted;
     AR.AnimationFrame (Some (frameAt 0 0 (-1))) true].

(** The session after [placing], and the model it has placed. *)
Definition placed : AR.State := AR.run quotient cosine sine arcsine AR.init placing.

Definition placedModel : Object3D.t :=
  Object3D.mk 8 "POT1" false (Vector3.mk 0 0 (-1))
    (Euler.mk (-0) 0 (-0) "XYZ") (Vector3.mk 1 2 3).

(** The same placement in the deployment with one-finger rotation. *)
Definition panPlaced : ARPan.State :=
  ARPan.run quotient cosine sine arcsine ARPan.init
    [ARPan.GLTFLoaded pot; ARPan.HitTestSourceGranted;
     ARPan.AnimationFrame (Some (frameAt 0 0 (-1))) true;
     ARPan.Select].

(** The configurator's session in the room without an almirah. *)
Definition bareSession : list Room.Event :=
  [Room.RoomLoaded bareRoom; Room.ProductLoaded product;
   Room.GizmoDrag (Vector3.mk 2 0 0) Euler.new].

(** Events within a two-finger gesture. *)
Definition duringGesture : list AR.Event :=
  [AR.TouchMove [mkTouch 95 300; mkTouch 205 300];
   AR.AnimationFrame (Some (frameAt 2 0 (-1))) true;
   AR.TouchMove [mkTouch 95 300]].

End Examples.

(** ** The rest of the configurator: gizmo modes and textures *)

Module RoomUI.

(** A texture is told by the file it was loaded from. *)
Definition Texture : Set := string.

Definition WALL_TEXTURES : list Texture :=
  ["./textures/wall1.jpg"; "./textures/wall2.jpg"; "./textures/wall3.jpg"]%string.

Definition FLOOR_TEXTURES : list Texture :=
  ["./textures/floor1.jpg"; "./textures/floor2.jpg"]%string.

(** [textures[index]] for an integer [index]: [undefined] out of range. *)
Definition textureAt (textures : list Texture) (index : Z) : option Texture :=
  if (index <? 0)%Z then None else nth_error textures (Z.to_nat index).

(** A material: its [map], and the [version] that [needsUpdate = true]
    increments. *)
Record Material : Set := mkMaterial { map : option Texture; version : nat }.

(** The materials this program has given to meshes, latest first; a mesh
    is named by its number. *)
Definition Materials : Set := list (nat * Material).

Fixpoint materialOf (id : nat) (ms : Materials) : option Material :=
  match ms with
  | [] => None
  | (i, m) :: rest => if Nat.eqb i id then Some m else materialOf id rest
  end.

(** The properties of the [TransformControls] the program sets: the
    attached object (by number), the mode and the axes shown. *)
Record Gizmo : Set := mkGizmo {
  object : option nat;
  mode : string;
  showX : bool;
  showY : bool;
  showZ : bool
}.

(** [new TransformControls(camera, domElement)] *)
Definition newGizmo : Gizmo := mkGizmo None "translate" true true true.

Record State : Set := mkState {
  base : Room.State;
  gizmo : Gizmo;
  materials : Materials
}.

Definition init : State := mkState Room.init newGizmo [].

Definition set_base (s : State) (b : Room.State) : State :=
  mkState b (gizmo s) (materials s).

Definition set_gizmo (s : State) (g : Gizmo) : State :=
  mkState (base s) g (materials s).

Definition set_materials (s : State) (ms : Materials) : State :=
  mkState (base s) (gizmo s) ms.

Section Configurator.

Variable setFromObject : Object3D.t -> Box3.t.

(** Assigning a property of the controls dispatches 'change' when the value
    differs from the one held; the listener of the configurator then runs. *)
Definition dispatchChange (changed : bool) (s : State) : State :=
  if changed then set_base s (Room.onChange setFromObject (base s)) else s.

Definition assignObject (o : option nat) (s : State) : State :=
  let g := gizmo s in
  let changed :=
    match object g, o with
    | Some i, Some j => negb (Nat.eqb i j)
    | None, None => false
    | _, _ => true
    end in
  dispatchChange changed
    (set_gizmo s (mkGizmo o (mode g) (showX g) (showY g) (showZ g))).

Definition assignMode (m : string) (s : State) : State :=
  let g := gizmo s in
  dispatchChange (negb (String.eqb (mode g) m))
    (set_gizmo s (mkGizmo (object g) m (showX g) (showY g) (showZ g))).

Definition assignShowX (v : bool) (s : State) : State :=
  let g := gizmo s in
  dispatchChange (negb (Bool.eqb (showX g) v))
    (set_gizmo s (mkGizmo (object g) (mode g) v (showY g) (showZ g))).

Definition assignShowY (v : bool) (s : State) : State :=
  let g := gizmo s in
  dispatchChange (negb (Bool.eqb (showY g) v))
    (set_gizmo s (mkGizmo (object g) (mode g) (showX g) v (showZ g))).

Definition assignShowZ (v : bool) (s : State) : State :=
  let g := gizmo s in
  dispatchChange (negb (Bool.eqb (showZ g) v))
    (set_gizmo s (mkGizmo (object g) (mode g) (showX g) (showY g) v)).

Definition setGizmoMode (m : string) (s : State) : State :=
  let s1 := assignMode m s in
  if String.eqb m "translate" then
    assignShowY false (assignShowZ true (assignShowX true s1))
  else if String.eqb m "rotate" then
    assignShowY true (assignShowZ false (assignShowX false s1))
  else s1.

(** The callback of [room.traverse] in [loadCustomRoom], with the
    materials it gives to the wall and floor meshes. *)
Definition visitRoomChild (s : State) (child : Object3D.t) : State :=
  let ms := materials s in
  let ms1 :=
    if Object3D.isMesh child && includes (Object3D.name child) "Wall"
    then (Object3D.id child, mkMaterial (textureAt WALL_TEXTURES 0) 0) :: ms
    else ms in
  let ms2 :=
    if Object3D.isMesh child && includes (Object3D.name child) "Floor"
    then (Object3D.id child, mkMaterial (textureAt FLOOR_TEXTURES 0) 0) :: ms1
    else ms1 in
  mkState (Room.visitRoomChild setFromObject (base s) child) (gizmo s) ms2.

Definition loadCustomRoom_onLoad (room : SceneGraph) (s : State) : State :=
  fold_left visitRoomChild (traverse room) s.

(** The success callback of [loadProduct], to its end: the gizmo is
    attached to the model and put in translate mode. *)
Definition loadProduct_onLoad (gltfScene : Object3D.t) (s : State) : State :=
  let s1 := set_base s
              (Room.loadProduct_onLoad setFromObject gltfScene (base s)) in
  setGizmoMode "translate" (assignObject (Some (Object3D.id gltfScene)) s1).

(** [material.map = texture; material.needsUpdate = true] on the material
    of the mesh numbered [id]. *)
Definition retexture (id : nat) (texture : Texture) (s : State) : State :=
  match materialOf id (materials s) with
  | Some mat =>
      set_materials s
        ((id, mkMaterial (Some texture) (S (version mat))) :: materials s)
  | None => s
  end.

Definition applyWallTexture (index : Z) (s : State) : State :=
  match Room.wallMeshReference (base s), textureAt WALL_TEXTURES index with
  | Some wall, Some texture => retexture (Object3D.id wall) texture s
  | _, _ => s
  end.

Definition applyFloorTexture (index : Z) (s : State) : State :=
  match Room.floorMeshReference (base s), textureAt FLOOR_TEXTURES index with
  | Some floor, Some texture => retexture (Object3D.id floor) texture s
  | _, _ => s
  end.

(** What reaches the configurator after [init]: the loaders' callbacks, the
    gizmo's drags and hovers, and the three events of the page. *)
Inductive Event : Set :=
| RoomLoaded (room : SceneGraph)
| ProductLoaded (gltfScene : Object3D.t)
| ProductLoadError
| GizmoDrag (p : Vector3.t) (r : Euler.t)
| GizmoHover
| UpdateWall (index : Z)
| UpdateFloor (index : Z)
| SetGizmoMode (m : string).

Definition step (s : State) (e : Event) : State :=
  match e with
  | RoomLoaded room => loadCustomRoom_onLoad room s
  | ProductLoaded gltfScene => loadProduct_onLoad gltfScene s
  | ProductLoadError => s
  | GizmoDrag p r =>
      set_base s (Room.step setFromObject (base s) (Room.GizmoDrag p r))
  | GizmoHover => dispatchChange true s
  | UpdateWall index => applyWallTexture index s
  | UpdateFloor index => applyFloorTexture index s
  | SetGizmoMode m => setGizmoMode m s
  end.

Definition run (s : State) (es : list Event) : State := fold_left step es s.

End Configurator.

End RoomUI.

(** ** Vocabulary for runs of the configurator and of the sessions *)

Module Runs.

(** The model carries the snapshot: its position and rotation are the last
    valid ones. *)
Definition inStep (s : Room.State) : Prop :=
  match Room.currentModel s with
  | Some m => (Object3D.position m, Object3D.rotation m) = Spec.lastKnownGood s
  | None => True
  end.

(** The last element of a list, or a default. *)
Definition lastOr {A : Type} (l : list A) (d : A) : A := List.last l d.

(** The meshes of a room whose name contains [search], in the order of the
    traversal. *)
Definition meshesNamed (search : string) (room : SceneGraph)
  : list Object3D.t :=
  filter (fun o => Object3D.isMesh o && includes (Object3D.name o) search)
         (traverse room).

(** The axes shown are those of translate mode, or those of rotate mode. *)
Definition horizontalOnly (g : RoomUI.Gizmo) : Prop :=
  RoomUI.showX g = true /\ RoomUI.showY g = false /\ RoomUI.showZ g = true.

Definition verticalOnly (g : RoomUI.Gizmo) : Prop :=
  RoomUI.showX g = false /\ RoomUI.showY g = true /\ RoomUI.showZ g = false.

(** Two states of the configurator with the same model and the same
    snapshot. *)
Definition samePose (b b' : Room.State) : Prop :=
  Room.currentModel b' = Room.currentModel b
  /\ Spec.lastKnownGood b' = Spec.lastKnownGood b.

(** The gizmo shows the axes of its mode. *)
Definition axesFollowMode (g : RoomUI.Gizmo) : Prop :=
  (RoomUI.mode g = "translate"%string -> horizontalOnly g)
  /\ (RoomUI.mode g = "rotate"%string -> verticalOnly g)
  /\ (horizontalOnly g \/ verticalOnly g).

(** The mode an event asks of the gizmo: the callback of [loadProduct]
    asks for 'translate', the page for the mode it names. *)
Definition modeAsked (e : RoomUI.Event) : option string :=
  match e with
  | RoomUI.ProductLoaded _ => Some "translate"%string
  | RoomUI.SetGizmoMode m => Some m
  | _ => None
  end.

(** The modes asked in a run, in turn. *)
Definition modesAsked (evs : list RoomUI.Event) : list string :=
  flat_map (fun e => match modeAsked e with Some m => [m] | None => [] end)
    evs.

(** The two modes [setGizmoMode] knows. *)
Definition knownMode (m : string) : bool :=
  String.eqb m "translate" || String.eqb m "rotate".

Definition axes (g : RoomUI.Gizmo) : bool * bool * bool :=
  (RoomUI.showX g, RoomUI.showY g, RoomUI.showZ g).

(** The axes (x, y, z) shown after these modes were asked: all three before
    any known mode, then those of the last known mode, x and z for
    'translate' and y for 'rotate'. *)
Definition axesAfter (ms : list string) : bool * bool * bool :=
  match rev (filter knownMode ms) with
  | [] => (true, true, true)
  | m :: _ =>
      if String.eqb m "translate" then (true, false, true)
      else (false, true, false)
  end.

(** Events of the page that are not meant to touch the product. *)
Definition isPageEvent (e : RoomUI.Event) : bool :=
  match e with
  | RoomUI.GizmoHover | RoomUI.UpdateWall _ | RoomUI.UpdateFloor _
  | RoomUI.SetGizmoMode _ => true
  | _ => false
  end.

(** Every wall or floor reference has a material in [ms]. *)
Definition referencesTextured (b : Room.State) (ms : RoomUI.Materials)
  : Prop :=
  (forall w, Room.wallMeshReference b = Some w ->
     RoomUI.materialOf (Object3D.id w) ms <> None)
  /\ (forall f, Room.floorMeshReference b = Some f ->
        RoomUI.materialOf (Object3D.id f) ms <> None).

(** Kinds of events of the deployment with pinch. *)
Definition isSessionEnd (e : AR.Event) : bool :=
  match e with AR.SessionEnd => true | _ => false end.

Definition isGLTFLoaded (e : AR.Event) : bool :=
  match e with AR.GLTFLoaded _ => true | _ => false end.

Definition isGranted (e : AR.Event) : bool :=
  match e with AR.HitTestSourceGranted => true | _ => false end.

Definition isTouchStart (e : AR.Event) : bool :=
  match e with AR.TouchStart _ => true | _ => false end.

Definition isSelect (e : AR.Event) : bool :=
  match e with AR.Select => true | _ => false end.

(** The event makes [render] request the hit-test sources: a presenting
    frame met with the latch down. *)
Definition requestsSources (s : AR.State) (e : AR.Event) : bool :=
  match e with
  | AR.AnimationFrame (Some _) true => negb (AR.hitTestSourceRequested s)
  | _ => false
  end.

(** The transform of a model but for its position. *)
Definition attitude (m : Object3D.t) : nat * Euler.t * Vector3.t :=
  (Object3D.id m, Object3D.rotation m, Object3D.scale m).

Section Counting.

Variable atan2 : float -> float -> float.
Variables cos sin asin : float -> float.

(** How many times a run requests the hit-test sources. *)
Fixpoint requestCount (s : AR.State) (es : list AR.Event) : nat :=
  match es with
  | [] => 0
  | e :: rest =>
      (if requestsSources s e then 1 else 0)
      + requestCount (AR.step atan2 cos sin asin s e) rest
  end.

End Counting.

(** Where a model stands and how large it is: all of its transform but the
    rotation. *)
Definition placement (m : Object3D.t) : nat * Vector3.t * Vector3.t :=
  (Object3D.id m, Object3D.position m, Object3D.scale m).

(** All of a model's transform but its position and its turn about the
    vertical axis. *)
Definition tilt (m : Object3D.t)
  : nat * Vector3.t * (float * float * string) :=
  (Object3D.id m, Object3D.scale m,
   (Euler.x (Object3D.rotation m), Euler.z (Object3D.rotation m),
    Euler.order (Object3D.rotation m))).

(** Kinds of events of the deployment with one-finger rotation. *)
Definition panIsTimeout (e : ARPan.Event) : bool :=
  match e with ARPan.Timeout => true | _ => false end.

Definition panIsSelect (e : ARPan.Event) : bool :=
  match e with ARPan.Select => true | _ => false end.

Definition panIsTouchStart (e : ARPan.Event) : bool :=
  match e with ARPan.TouchStart _ => true | _ => false end.

End Runs.

(** ** More concrete inputs *)

Module MoreExamples.

(** An asset without geometry: its box is empty wherever it stands. *)
Definition noGeometry (o : Object3D.t) : Box3.t := Box3.new.

(** A box whose faces lie on the limits of the room. *)
Definition roomBox : Box3.t :=
  Box3.mk (Vector3.mk (-3.25) 0 (-3.92)) (Vector3.mk 3.25 1 2.8).

Definition shiftedAsset : Object3D.t :=
  Object3D.mk 21 "lamp" false (Vector3.mk 1.5 0.75 (-2)) Euler.new
    (Vector3.mk 1 1 1).

(** The page after the product has loaded and the room with an almirah too,
    then put in rotate mode, then in a mode the page does not know. *)
Definition pageSession : list RoomUI.Event :=
  [RoomUI.ProductLoaded Examples.product;
   RoomUI.RoomLoaded Examples.furnishedRoom;
   RoomUI.SetGizmoMode "rotate";
   RoomUI.SetGizmoMode "scale"].

Definition wallMesh : Object3D.t :=
  Examples.mesh 11 "Wall_Back" (Vector3.mk 0 0 (-4)).

(** A session in which the template never loads: the source is granted, a
    surface is hit, the user selects and touches the screen. *)
Definition withoutTemplate : list AR.Event :=
  [AR.GLTFLoadError; AR.HitTestSourceGranted;
   AR.AnimationFrame (Some (Examples.frameAt 0 0 (-1))) true;
   AR.Select;
   AR.TouchStart [mkTouch 100 300];
   AR.TouchEnd].

(** Two sessions, with frames before and after the grant. *)
Definition twoSessions : list AR.Event :=
  [AR.AnimationFrame (Some (Examples.frameAt 0 0 (-1))) true;
   AR.AnimationFrame (Some (Examples.frameAt 0 0 (-1))) true;
   AR.HitTestSourceGranted;
   AR.AnimationFrame (Some (Examples.frameAt 0 0 (-1))) true;
   AR.SessionEnd;
   AR.AnimationFrame (Some (Examples.frameAt 0 0 (-1))) true;
   AR.AnimationFrame None true].

(** A frame whose transient input hits the surface at [(x, y, z)]. *)
Definition dragFrameAt (x y z : float) : XRFrame :=
  mkFrame [mkHit (Some (Examples.poseAt 0 0 (-1)))] [[mkHit (Some (Examples.poseAt x y z))]].

(** What may follow a finger going down: the transient source is granted,
    frames drag the model, a second finger's move is reported, the user
    selects, the finger is lifted and the timer fires. *)
Definition afterOneFinger : list AR.Event :=
  [AR.TransientHitTestSourceGranted;
   AR.AnimationFrame (Some (dragFrameAt 1 0 (-1))) true;
   AR.TouchMove [mkTouch 90 300; mkTouch 210 300];
   AR.Select;
   AR.TouchEnd;
   AR.Timeout;
   AR.Select].

(** What may follow two fingers going down, selects apart. *)
Definition afterTwoFingers : list AR.Event :=
  [AR.TransientHitTestSourceGranted;
   AR.TouchMove [mkTouch 90 300; mkTouch 210 320];
   AR.AnimationFrame (Some (dragFrameAt 1 0 (-1))) true;
   AR.TouchEnd;
   AR.Timeout;
   AR.TouchMove [mkTouch 80 300; mkTouch 220 340]].

(** A gesture begun while the timer of the previous one is pending. *)
Definition staleTimer : AR.State :=
  AR.run Examples.quotient Examples.cosine Examples.sine Examples.arcsine
    Examples.placed
    [AR.TransientHitTestSourceGranted;
     AR.TouchStart [mkTouch 100 300];
     AR.TouchEnd;
     AR.TouchStart [mkTouch 100 300; mkTouch 200 300]].

(** Moves and frames after the timer has fired. *)
Definition afterTimer : list AR.Event :=
  [AR.TouchMove [mkTouch 90 300; mkTouch 210 320];
   AR.AnimationFrame (Some (dragFrameAt 1 0 (-1))) true;
   AR.TouchMove [mkTouch 80 300]].

(** The deployment with one-finger rotation, aiming one metre ahead. *)
Definition panAiming : ARPan.State :=
  ARPan.run Examples.quotient Examples.cosine Examples.sine Examples.arcsine
    ARPan.init
    [ARPan.GLTFLoaded Examples.pot; ARPan.HitTestSourceGranted;
     ARPan.AnimationFrame (Some (Examples.frameAt 0 0 (-1))) true].

(** During a touch: the finger moves, the viewer turns to a surface two
    metres to the right, the user selects, the finger is lifted. *)
Definition panDuringTouch : list ARPan.Event :=
  [ARPan.TouchMove [mkTouch 150 300];
   ARPan.AnimationFrame (Some (Examples.frameAt 2 0 (-1))) true;
   ARPan.Select;
   ARPan.TouchEnd;
   ARPan.Select].

(** A whole session after the placement. *)
Definition panSession : list ARPan.Event :=
  [ARPan.TouchStart [mkTouch 100 300];
   ARPan.TouchMove [mkTouch 150 300];
   ARPan.TouchEnd;
   ARPan.Timeout;
   ARPan.AnimationFrame (Some (Examples.frameAt 2 0 (-1))) true;
   ARPan.Select;
   ARPan.SessionEnd].

(** The same session once that timer has fired: the two fingers of the new
    gesture are still down. *)
Definition timerFired : AR.State :=
  AR.step Examples.quotient Examples.cosine Examples.sine Examples.arcsine
    staleTimer AR.Timeout.

End MoreExamples.

(** * Properties *)

(** ** Copies *)

Lemma Vector3_copy_eq (this v : Vector3.t) : Vector3.copy this v = v.
Proof. destruct v; reflexivity. Qed.

Lemma Euler_copy_eq (this e : Euler.t) : Euler.copy this e = e.
Proof. destruct e; reflexivity. Qed.

Lemma withTransform_own (m : Object3D.t) :
  Spec.withTransform m (Object3D.position m, Object3D.rotation m) = m.
Proof. destruct m; reflexivity. Qed.

(** ** The validator of the room configurator *)

Lemma isOutside_iff (b : Box3.t) :
  Room.isOutside b = true <-> Spec.exitsRoomLimits Room.roomLimits b.
Proof.
  unfold Room.isOutside, Spec.exitsRoomLimits, Spec.lt.
  rewrite !orb_true_iff. tauto.
Qed.

Lemma intersectsBox_iff (b o : Box3.t) :
  Box3.intersectsBox b o = true <-> forall a, Spec.intervalsOverlap a b o.
Proof.
  unfold Box3.intersectsBox, Spec.intervalsOverlap, Spec.le.
  rewrite !andb_true_iff. split.
  - intros [[[[[Hx1 Hx2] Hy1] Hy2] Hz1] Hz2] a; destruct a; simpl; auto.
  - intros H.
    pose proof (H Spec.X) as [? ?].
    pose proof (H Spec.Y) as [? ?].
    pose proof (H Spec.Z) as [? ?].
    simpl in *; auto 10.
Qed.

Lemma hitsAlmirah_iff (almirah : option Box3.t) (b : Box3.t) :
  Room.hitsAlmirah almirah b = true <-> Spec.intersectsObstacle almirah b.
Proof.
  unfold Room.hitsAlmirah, Spec.intersectsObstacle.
  destruct almirah as [o|].
  - rewrite intersectsBox_iff. split.
    + intros H; exists o; auto.
    + intros (o' & E & H); injection E as ->; exact H.
  - split; [discriminate | intros (o & E & _); discriminate].
Qed.

Lemma rejects_iff (almirah : option Box3.t) (b : Box3.t) :
  Room.isOutside b || Room.hitsAlmirah almirah b = true
  <-> Spec.rejected Room.roomLimits almirah b.
Proof.
  unfold Spec.rejected.
  rewrite orb_true_iff, isOutside_iff, hitsAlmirah_iff. tauto.
Qed.

Lemma accepts_iff (almirah : option Box3.t) (b : Box3.t) :
  Room.isOutside b || Room.hitsAlmirah almirah b = false
  <-> ~ Spec.rejected Room.roomLimits almirah b.
Proof.
  rewrite <- rejects_iff.
  destruct (Room.isOutside b || Room.hitsAlmirah almirah b); split;
    congruence.
Qed.

Section RoomProperties.

Variable setFromObject : Object3D.t -> Box3.t.

Lemma set_currentModel_same (s : Room.State) (m : Object3D.t) :
  Room.currentModel s = Some m -> Room.set_currentModel s (Some m) = s.
Proof. destruct s; simpl; intros ->; reflexivity. Qed.

Lemma onChange_rejected (s : Room.State) (m : Object3D.t) :
  Room.currentModel s = Some m ->
  Spec.rejected Room.roomLimits (Room.almirahBox s) (setFromObject m) ->
  Room.onChange setFromObject s = Spec.reverted setFromObject s m.
Proof.
  intros Hm Hrej. apply rejects_iff in Hrej.
  unfold Room.onChange, Spec.reverted. rewrite Hm. simpl.
  rewrite Hrej. rewrite Vector3_copy_eq, Euler_copy_eq. reflexivity.
Qed.

Lemma onChange_accepted (s : Room.State) (m : Object3D.t) :
  Room.currentModel s = Some m ->
  ~ Spec.rejected Room.roomLimits (Room.almirahBox s) (setFromObject m) ->
  Room.onChange setFromObject s = Spec.committed setFromObject s m.
Proof.
  intros Hm Hacc. apply accepts_iff in Hacc.
  unfold Room.onChange, Spec.committed. rewrite Hm. simpl.
  rewrite Hacc. rewrite Vector3_copy_eq, Euler_copy_eq.
  destruct s; simpl in *; subst; reflexivity.
Qed.

(** An event that submits a transform runs the listener on the model
    carrying it. *)
Lemma step_proposal (s : Room.State) (e : Room.Event) (m : Object3D.t)
  (t : Vector3.t * Euler.t) :
  Room.currentModel s = Some m ->
  Spec.proposal s e = Some t ->
  Room.step setFromObject s e
  = Room.onChange setFromObject
      (Room.set_currentModel s (Some (Spec.withTransform m t))).
Proof.
  intros Hm Hp. unfold Spec.proposal in Hp. rewrite Hm in Hp.
  destruct e; try discriminate; injection Hp as <-; simpl.
  - unfold Room.gizmoWrite. rewrite Hm. reflexivity.
  - rewrite withTransform_own, set_currentModel_same by assumption.
    reflexivity.
Qed.

Lemma step_rejected (s : Room.State) (e : Room.Event) (m : Object3D.t)
  (t : Vector3.t * Euler.t) :
  Room.currentModel s = Some m ->
  Spec.proposal s e = Some t ->
  Spec.rejected Room.roomLimits (Room.almirahBox s)
    (setFromObject (Spec.withTransform m t)) ->
  Room.step setFromObject s e
  = Spec.reverted setFromObject s (Spec.withTransform m t).
Proof.
  intros Hm Hp Hrej. rewrite (step_proposal s e m t Hm Hp).
  rewrite (onChange_rejected _ (Spec.withTransform m t)).
  - destruct s; reflexivity.
  - reflexivity.
  - destruct s; exact Hrej.
Qed.

Lemma step_accepted (s : Room.State) (e : Room.Event) (m : Object3D.t)
  (t : Vector3.t * Euler.t) :
  Room.currentModel s = Some m ->
  Spec.proposal s e = Some t ->
  ~ Spec.rejected Room.roomLimits (Room.almirahBox s)
      (setFromObject (Spec.withTransform m t)) ->
  Room.step setFromObject s e
  = Spec.committed setFromObject s (Spec.withTransform m t).
Proof.
  intros Hm Hp Hacc. rewrite (step_proposal s e m t Hm Hp).
  rewrite (onChange_accepted _ (Spec.withTransform m t)).
  - destruct s; reflexivity.
  - reflexivity.
  - destruct s; exact Hacc.
Qed.

(** Validity of a proposal is decided. *)
Lemma rejected_dec (almirah : option Box3.t) (b : Box3.t) :
  Spec.rejected Room.roomLimits almirah b
  \/ ~ Spec.rejected Room.roomLimits almirah b.
Proof.
  destruct (Room.isOutside b || Room.hitsAlmirah almirah b) eqn:E.
  - left; apply rejects_iff; exact E.
  - right; apply accepts_iff; exact E.
Qed.

Lemma lastKnownGood_reverted (s : Room.State) (m : Object3D.t) :
  Spec.lastKnownGood (Spec.reverted setFromObject s m) = Spec.lastKnownGood s.
Proof. reflexivity. Qed.

Lemma lastKnownGood_committed (s : Room.State) (m : Object3D.t)
  (t : Vector3.t * Euler.t) :
  Spec.lastKnownGood
    (Spec.committed setFromObject s (Spec.withTransform m t)) = t.
Proof. destruct t; reflexivity. Qed.

Lemma proposal_model (s : Room.State) (e : Room.Event)
  (t : Vector3.t * Euler.t) :
  Spec.proposal s e = Some t -> exists m, Room.currentModel s = Some m.
Proof.
  unfold Spec.proposal.
  destruct (Room.currentModel s) as [m|]; [exists m; reflexivity|].
  destruct e; discriminate.
Qed.

(** Loading the room touches neither the model nor the snapshot. *)
Lemma visitRoomChild_keeps (s : Room.State) (child : Object3D.t) :
  Room.currentModel (Room.visitRoomChild setFromObject s child)
  = Room.currentModel s
  /\ Spec.lastKnownGood (Room.visitRoomChild setFromObject s child)
     = Spec.lastKnownGood s.
Proof.
  unfold Room.visitRoomChild.
  destruct (Object3D.isMesh child); [|auto].
  destruct (includes (Object3D.name child) "Wall");
    destruct (includes (Object3D.name child) "Floor");
    destruct (includes (Object3D.name child) "Almirah"); auto.
Qed.

Lemma loadCustomRoom_keeps (room : SceneGraph) (s : Room.State) :
  Room.currentModel (Room.loadCustomRoom_onLoad setFromObject room s)
  = Room.currentModel s
  /\ Spec.lastKnownGood (Room.loadCustomRoom_onLoad setFromObject room s)
     = Spec.lastKnownGood s.
Proof.
  unfold Room.loadCustomRoom_onLoad.
  generalize (traverse room) as l. intros l; revert s.
  induction l as [|child l IH]; intros s; simpl; [auto|].
  destruct (IH (Room.visitRoomChild setFromObject s child)) as [-> ->].
  apply visitRoomChild_keeps.
Qed.

(** The listener does nothing without a model. *)
Lemma onChange_no_model (s : Room.State) :
  Room.currentModel s = None -> Room.onChange setFromObject s = s.
Proof. unfold Room.onChange; intros ->; reflexivity. Qed.

(** One event either leaves the snapshot alone or commits a proposal that
    passed both checks. *)
Lemma step_lastKnownGood (s : Room.State) (e : Room.Event) :
  Spec.isProductLoaded e = false ->
  Spec.lastKnownGood (Room.step setFromObject s e) = Spec.lastKnownGood s
  \/ exists t, Spec.proposal s e = Some t
       /\ Spec.Passes setFromObject s t
       /\ Spec.lastKnownGood (Room.step setFromObject s e) = t.
Proof.
  intros He.
  destruct (Spec.proposal s e) as [t|] eqn:Hp.
  - destruct (proposal_model s e t Hp) as [m Hm].
    destruct (rejected_dec (Room.almirahBox s)
                (setFromObject (Spec.withTransform m t))) as [Hrej|Hacc].
    + left. rewrite (step_rejected s e m t Hm Hp Hrej).
      apply lastKnownGood_reverted.
    + right. exists t. split; [reflexivity|]. split.
      * exists m; auto.
      * rewrite (step_accepted s e m t Hm Hp Hacc).
        apply lastKnownGood_committed.
  - left. unfold Spec.proposal in Hp.
    destruct e; simpl in *; try discriminate; try reflexivity.
    + apply loadCustomRoom_keeps.
    + destruct (Room.currentModel s) eqn:Hm; [discriminate|].
      unfold Room.gizmoWrite. rewrite Hm.
      rewrite onChange_no_model; auto.
    + destruct (Room.currentModel s) eqn:Hm; [discriminate|].
      rewrite onChange_no_model; auto.
Qed.

Lemma run_app (s : Room.State) (es1 es2 : list Room.Event) :
  Room.run setFromObject s (es1 ++ es2)
  = Room.run setFromObject (Room.run setFromObject s es1) es2.
Proof. apply fold_left_app. Qed.

(** Every snapshot of a run is the one it started with or a proposal of the
    run that passed both checks when it was made. *)
Lemma run_lastKnownGood (s0 : Room.State) (evs : list Room.Event) :
  forallb (fun e => negb (Spec.isProductLoaded e)) evs = true ->
  Spec.lastKnownGood (Room.run setFromObject s0 evs) = Spec.lastKnownGood s0
  \/ exists evs1 e evs2 t,
       evs = evs1 ++ e :: evs2
       /\ Spec.proposal (Room.run setFromObject s0 evs1) e = Some t
       /\ Spec.Passes setFromObject (Room.run setFromObject s0 evs1) t
       /\ Spec.lastKnownGood (Room.run setFromObject s0 evs) = t.
Proof.
  induction evs as [|e evs IH] using rev_ind; intros Hall.
  - left; reflexivity.
  - rewrite forallb_app in Hall. apply andb_true_iff in Hall.
    destruct Hall as [Hevs He]. simpl in He.
    rewrite andb_true_r in He. apply negb_true_iff in He.
    rewrite run_app. simpl.
    destruct (step_lastKnownGood (Room.run setFromObject s0 evs) e He)
      as [Hsame | (t & Hp & Hpass & Ht)].
    + rewrite Hsame.
      destruct (IH Hevs) as [H0 | (evs1 & e1 & evs2 & t & -> & Hp & Hpass & Ht)].
      * left; exact H0.
      * right. exists evs1, e1, (evs2 ++ [e]), t.
        rewrite <- app_assoc. simpl. auto.
    + right. exists evs, e, [], t. auto.
Qed.

(** C1.  Rejection restores exactly.  When the listener runs on a model
    whose recomputed box exits the room limits or intersects the obstacle,
    the model afterwards has the position and rotation of the snapshot
    held before, and the scale it was proposed with; the snapshot itself is
    not touched. *)
Theorem rejection_restores_last_known_good (s : Room.State) (m : Object3D.t) :
  Room.currentModel s = Some m ->
  Spec.exitsRoomLimits Room.roomLimits (setFromObject m)
    \/ Spec.intersectsObstacle (Room.almirahBox s) (setFromObject m) ->
  Room.currentModel (Room.onChange setFromObject s)
  = Some (Object3D.mk (Object3D.id m) (Object3D.name m) (Object3D.isMesh m)
            (Room.lastValidPosition s) (Room.lastValidRotation s)
            (Object3D.scale m))
  /\ Spec.lastKnownGood (Room.onChange setFromObject s)
     = Spec.lastKnownGood s.
Proof.
  intros Hm Hrej.
  rewrite (onChange_rejected s m Hm Hrej). split; reflexivity.
Qed.

(** C2.  Let [s1] be any state reached after the product has loaded.  Its
    snapshot is the post-centering transform of the load or a proposal of
    the run that passed both checks when it was made.  The next event that
    submits a transform sets the snapshot to that transform if it passes
    both checks and leaves it alone otherwise, and an event that submits
    none leaves it alone. *)
Theorem last_known_good_invariant (gltfScene : Object3D.t) (s : Room.State)
  (evs : list Room.Event) :
  forallb (fun e => negb (Spec.isProductLoaded e)) evs = true ->
  let s0 := Room.loadProduct_onLoad setFromObject gltfScene s in
  let s1 := Room.run setFromObject s0 evs in
  (exists m0, Room.currentModel s0 = Some m0
     /\ Spec.lastKnownGood s0 = (Object3D.position m0, Object3D.rotation m0))
  /\ (Spec.lastKnownGood s1 = Spec.lastKnownGood s0
      \/ exists evs1 e evs2 t,
           evs = evs1 ++ e :: evs2
           /\ Spec.proposal (Room.run setFromObject s0 evs1) e = Some t
           /\ Spec.Passes setFromObject (Room.run setFromObject s0 evs1) t
           /\ Spec.lastKnownGood s1 = t)
  /\ (forall e t, Spec.proposal s1 e = Some t ->
        (Spec.Passes setFromObject s1 t ->
           Spec.lastKnownGood (Room.step setFromObject s1 e) = t)
        /\ (~ Spec.Passes setFromObject s1 t ->
              Spec.lastKnownGood (Room.step setFromObject s1 e)
              = Spec.lastKnownGood s1))
  /\ (forall e, Spec.proposal s1 e = None ->
        Spec.isProductLoaded e = false ->
        Spec.lastKnownGood (Room.step setFromObject s1 e)
        = Spec.lastKnownGood s1).
Proof.
  intros Hall s0 s1. split; [|split; [|split]].
  - eexists. split; [reflexivity|].
    unfold s0, Room.loadProduct_onLoad, Spec.lastKnownGood. simpl.
    rewrite Vector3_copy_eq, Euler_copy_eq. reflexivity.
  - apply run_lastKnownGood; exact Hall.
  - intros e t Hp.
    destruct (proposal_model s1 e t Hp) as [m Hm].
    destruct (rejected_dec (Room.almirahBox s1)
                (setFromObject (Spec.withTransform m t))) as [Hrej|Hacc].
    + split.
      * intros (m' & Hm' & Hpass). rewrite Hm in Hm'.
        injection Hm' as <-. contradiction.
      * intros _. rewrite (step_rejected s1 e m t Hm Hp Hrej).
        apply lastKnownGood_reverted.
    + split.
      * intros _. rewrite (step_accepted s1 e m t Hm Hp Hacc).
        apply lastKnownGood_committed.
      * intros Hn. exfalso. apply Hn. exists m; auto.
  - intros e Hp He.
    destruct (step_lastKnownGood s1 e He) as [H | (t & Hp' & _)];
      [exact H | congruence].
Qed.

(** C3.  The listener's test is the rejection rule: a box below the room's
    minimum or above its maximum on x or on z, or overlapping the obstacle
    on every axis.  When the rule holds the listener reverts, otherwise it
    commits. *)
Theorem validator_rejects_iff (s : Room.State) (m : Object3D.t) :
  Room.currentModel s = Some m ->
  let b := setFromObject m in
  (Room.isOutside b || Room.hitsAlmirah (Room.almirahBox s) b = true
   <-> Spec.rejected Room.roomLimits (Room.almirahBox s) b)
  /\ (Spec.rejected Room.roomLimits (Room.almirahBox s) b ->
      Room.onChange setFromObject s = Spec.reverted setFromObject s m)
  /\ (~ Spec.rejected Room.roomLimits (Room.almirahBox s) b ->
      Room.onChange setFromObject s = Spec.committed setFromObject s m).
Proof.
  intros Hm b. split; [apply rejects_iff|]. split.
  - apply onChange_rejected; exact Hm.
  - apply onChange_accepted; exact Hm.
Qed.

End RoomProperties.

(** ** Substrings *)

Lemma prefix_iff (a s : string) :
  String.prefix a s = true <-> exists q, s = (a ++ q)%string.
Proof.
  revert s. induction a as [|c a IH]; intros s.
  - destruct s; simpl; split; eauto.
  - destruct s as [|d s]; simpl.
    + split; [discriminate | intros [q Hq]; discriminate].
    + destruct (ascii_dec c d) as [->|Hne].
      * rewrite IH. split; intros [q Hq]; exists q; congruence.
      * split; [discriminate|]. intros [q Hq]. congruence.
Qed.

Lemma includes_unfold (s search : string) :
  includes s search
  = if String.prefix search s then true
    else match s with
         | EmptyString => false
         | String _ rest => includes rest search
         end.
Proof. destruct s; reflexivity. Qed.

Lemma includes_iff (s search : string) :
  includes s search = true <-> Spec.Contains search s.
Proof.
  unfold Spec.Contains. induction s as [|c s IH]; rewrite includes_unfold.
  - destruct (String.prefix search "") eqn:Hp.
    + split; [|reflexivity]. intros _.
      apply prefix_iff in Hp. destruct Hp as [q Hq].
      exists ""%string, q. exact Hq.
    + split; [discriminate|]. intros (b & a & H).
      destruct b; [|discriminate]. simpl in H.
      assert (String.prefix search "" = true) by (apply prefix_iff; eauto).
      congruence.
  - destruct (String.prefix search (String c s)) eqn:Hp.
    + split; [|reflexivity]. intros _.
      apply prefix_iff in Hp. destruct Hp as [q Hq].
      exists ""%string, q. exact Hq.
    + rewrite IH. split.
      * intros (b & a & ->). exists (String c b), a. reflexivity.
      * intros (b & a & H). destruct b as [|c' b].
        -- simpl in H.
           assert (String.prefix search (String c s) = true)
             by (apply prefix_iff; eauto).
           congruence.
        -- simpl in H. injection H as _ ->. eauto.
Qed.

(** ** A room without an almirah *)

Section RoomWithoutAlmirah.

Variable setFromObject : Object3D.t -> Box3.t.

Lemma visitRoomChild_almirahBox (s : Room.State) (child : Object3D.t) :
  Room.almirahBox (Room.visitRoomChild setFromObject s child)
  = if Object3D.isMesh child && includes (Object3D.name child) "Almirah"
    then Some (setFromObject child) else Room.almirahBox s.
Proof.
  unfold Room.visitRoomChild.
  destruct (Object3D.isMesh child); [|reflexivity].
  destruct (includes (Object3D.name child) "Wall");
    destruct (includes (Object3D.name child) "Floor");
    destruct (includes (Object3D.name child) "Almirah"); reflexivity.
Qed.

Lemma loadCustomRoom_no_almirah (room : SceneGraph) (s : Room.State) :
  Spec.NoAlmirah room ->
  Room.almirahBox (Room.loadCustomRoom_onLoad setFromObject room s)
  = Room.almirahBox s.
Proof.
  unfold Spec.NoAlmirah, Room.loadCustomRoom_onLoad.
  generalize (traverse room) as l. intros l; revert s.
  induction l as [|child l IH]; intros s Hno; simpl; [reflexivity|].
  rewrite IH by (intros o Ho; apply Hno; right; exact Ho).
  rewrite visitRoomChild_almirahBox.
  destruct (Object3D.isMesh child) eqn:Hmesh; [|reflexivity]. simpl.
  destruct (includes (Object3D.name child) "Almirah") eqn:Hinc;
    [|reflexivity].
  exfalso. apply (Hno child); [left; reflexivity | exact Hmesh |].
  apply includes_iff; exact Hinc.
Qed.

Lemma onChange_almirahBox (s : Room.State) :
  Room.almirahBox (Room.onChange setFromObject s) = Room.almirahBox s.
Proof.
  unfold Room.onChange.
  destruct (Room.currentModel s); [|reflexivity]. simpl.
  match goal with |- context [if ?c then _ else _] => destruct c end;
    reflexivity.
Qed.

(** Only loading a room writes the obstacle box. *)
Lemma step_almirahBox (s : Room.State) (e : Room.Event) :
  (forall room, e = Room.RoomLoaded room -> Spec.NoAlmirah room) ->
  Room.almirahBox (Room.step setFromObject s e) = Room.almirahBox s.
Proof.
  intros Hno. destruct e; simpl.
  - apply loadCustomRoom_no_almirah. apply Hno; reflexivity.
  - reflexivity.
  - reflexivity.
  - rewrite onChange_almirahBox. unfold Room.gizmoWrite.
    destruct (Room.currentModel s); reflexivity.
  - apply onChange_almirahBox.
Qed.

Lemma run_almirahBox (s : Room.State) (evs : list Room.Event) :
  (forall room, In (Room.RoomLoaded room) evs -> Spec.NoAlmirah room) ->
  Room.almirahBox (Room.run setFromObject s evs) = Room.almirahBox s.
Proof.
  revert s. induction evs as [|e evs IH]; intros s Hno; [reflexivity|].
  change (Room.run setFromObject s (e :: evs))
    with (Room.run setFromObject (Room.step setFromObject s e) evs).
  rewrite IH by (intros room Hin; apply Hno; right; exact Hin).
  apply step_almirahBox. intros room ->. apply Hno. left; reflexivity.
Qed.

(** C9.  When no mesh of a loaded room has a name containing 'Almirah', the
    obstacle box is null in every state of the run, and for every event that
    submits a transform the obstacle test answers "no collision": the
    listener reverts exactly when the box exits the room limits and commits
    otherwise. *)
Theorem no_almirah_room_limits_only (evs : list Room.Event) :
  (forall room, In (Room.RoomLoaded room) evs -> Spec.NoAlmirah room) ->
  let s := Room.run setFromObject Room.init evs in
  Room.almirahBox s = None
  /\ (forall b, Room.hitsAlmirah (Room.almirahBox s) b = false)
  /\ (forall e m t,
        Room.currentModel s = Some m ->
        Spec.proposal s e = Some t ->
        let m' := Spec.withTransform m t in
        (Spec.exitsRoomLimits Room.roomLimits (setFromObject m') ->
           Room.step setFromObject s e = Spec.reverted setFromObject s m')
        /\ (~ Spec.exitsRoomLimits Room.roomLimits (setFromObject m') ->
              Room.step setFromObject s e = Spec.committed setFromObject s m')).
Proof.
  intros Hno s.
  assert (Hbox : Room.almirahBox s = None)
    by (unfold s; rewrite run_almirahBox; [reflexivity | exact Hno]).
  split; [exact Hbox|]. split.
  - intros b. rewrite Hbox. reflexivity.
  - intros e m t Hm Hp m'. split.
    + intros Hout. apply (step_rejected setFromObject s e m t Hm Hp).
      left; exact Hout.
    + intros Hin. apply (step_accepted setFromObject s e m t Hm Hp).
      intros [Hout | (o & Ho & _)]; [contradiction|].
      rewrite Hbox in Ho. discriminate.
Qed.

End RoomWithoutAlmirah.

(** ** Order on binary64 numbers *)

Section FloatOrder.

Local Open Scope float_scope.

Ltac case_signs :=
  repeat match goal with
         | s : bool |- _ => destruct s
         end.

Lemma SFcompare_antisym (x y : spec_float) :
  SFcompare y x = option_map CompOpp (SFcompare x y).
Proof.
  destruct x as [sx|sx| |sx mx ex], y as [sy|sy| |sy my ey]; simpl;
    case_signs; try reflexivity;
    rewrite (Z.compare_antisym ex ey); destruct (ex ?= ey)%Z; simpl;
    try reflexivity;
    rewrite !Pos.compare_cont_antisym; reflexivity.
Qed.

Lemma SFcompare_refl (x : spec_float) :
  x <> S754_nan -> SFcompare x x = Some Eq.
Proof.
  destruct x as [s|s| |s m e]; simpl; intros H.
  - reflexivity.
  - destruct s; reflexivity.
  - congruence.
  - rewrite Z.compare_refl, Pos.compare_cont_refl. destruct s; reflexivity.
Qed.

Lemma SFcompare_finite_none (x : spec_float) s m e :
  SFcompare x (S754_finite s m e) = None -> x = S754_nan.
Proof. destruct x; simpl; congruence. Qed.

Lemma SFcompare_finite_eq (x : spec_float) s m e :
  SFcompare x (S754_finite s m e) = Some Eq -> x = S754_finite s m e.
Proof.
  destruct x as [sx|sx| |sx mx ex]; simpl.
  - destruct s; discriminate.
  - destruct sx; discriminate.
  - discriminate.
  - destruct sx, s; try discriminate;
      destruct (Z.compare_spec ex e) as [->| |]; try discriminate;
      intros H; injection H as H;
      [apply (f_equal CompOpp) in H; rewrite CompOpp_involutive in H; simpl in H|];
      apply Pos.compare_eq in H; subst; reflexivity.
Qed.

(** Against two positive numbers whose exponents differ, the smaller first. *)
Lemma SFcompare_mono (x : spec_float) m1 e1 m2 e2 :
  (e1 < e2)%Z ->
  ((SFcompare x (S754_finite false m1 e1) = Some Lt
    \/ SFcompare x (S754_finite false m1 e1) = Some Eq) ->
   SFcompare x (S754_finite false m2 e2) = Some Lt)
  /\ ((SFcompare x (S754_finite false m2 e2) = Some Gt
       \/ SFcompare x (S754_finite false m2 e2) = Some Eq) ->
      SFcompare x (S754_finite false m1 e1) = Some Gt).
Proof.
  intros He. destruct x as [sx|sx| |sx mx ex]; simpl.
  - split; intros [K|K]; congruence.
  - destruct sx; split; intros [K|K]; congruence.
  - split; intros [K|K]; congruence.
  - destruct sx; [split; intros [K|K]; congruence|].
    destruct (Z.compare_spec ex e1), (Z.compare_spec ex e2); try lia;
      split; intros [K|K]; congruence.
Qed.

(** The comparisons of two numbers, read off their three-way comparison. *)
Lemma compare_bools (a b : float) :
  match (a ?= b) with
  | FLt => (a <? b) = true /\ (b <? a) = false
           /\ (a <=? b) = true /\ (b <=? a) = false
  | FEq => (a <? b) = false /\ (b <? a) = false
           /\ (a <=? b) = true /\ (b <=? a) = true
  | FGt => (a <? b) = false /\ (b <? a) = true
           /\ (a <=? b) = false /\ (b <=? a) = true
  | FNotComparable => (a <? b) = false /\ (b <? a) = false
           /\ (a <=? b) = false /\ (b <=? a) = false
  end.
Proof.
  rewrite FloatAxioms.compare_spec, !FloatAxioms.ltb_spec, !FloatAxioms.leb_spec.
  unfold SFltb, SFleb.
  rewrite (SFcompare_antisym (Prim2SF a) (Prim2SF b)).
  destruct (SFcompare (Prim2SF a) (Prim2SF b)) as [[| |]|]; simpl; auto.
Qed.

Lemma is_nan_false (v : float) : v <> nan -> is_nan v = false.
Proof.
  intros Hv. unfold is_nan. rewrite FloatAxioms.eqb_spec. unfold SFeqb.
  rewrite SFcompare_refl; [reflexivity|].
  intros H. apply Hv. apply Prim2SF_inj. rewrite H. reflexivity.
Qed.

Lemma compare_finite_cases (v c : float) s m e :
  Prim2SF c = S754_finite s m e ->
  match (v ?= c) with
  | FEq => v = c
  | FNotComparable => v = nan
  | _ => v <> nan
  end.
Proof.
  intros Hc. rewrite FloatAxioms.compare_spec, Hc.
  destruct (SFcompare (Prim2SF v) (S754_finite s m e)) as [[| |]|] eqn:E;
    simpl.
  - apply SFcompare_finite_eq in E. apply Prim2SF_inj. congruence.
  - intros ->. vm_compute in E. discriminate.
  - intros ->. vm_compute in E. discriminate.
  - apply SFcompare_finite_none in E. apply Prim2SF_inj. rewrite E.
    reflexivity.
Qed.

(** The comparison with 0.1 and the comparison with 5 agree. *)
Lemma compare_band (v : float) :
  match (v ?= 0.1), (v ?= 5) with
  | FLt, FLt | FGt, FLt | FGt, FGt => v <> nan
  | FEq, _ => v = 0.1
  | FGt, FEq => v = 5
  | FNotComparable, _ => v = nan
  | _, _ => False
  end.
Proof.
  assert (Hlo : Prim2SF 0.1 = S754_finite false 7205759403792794 (-56))
    by reflexivity.
  assert (Hhi : Prim2SF 5 = S754_finite false 5629499534213120 (-50))
    by reflexivity.
  pose proof (compare_finite_cases v 0.1 _ _ _ Hlo) as C1.
  pose proof (compare_finite_cases v 5 _ _ _ Hhi) as C2.
  destruct (SFcompare_mono (Prim2SF v) 7205759403792794 (-56)
              5629499534213120 (-50) ltac:(lia)) as [M1 M2].
  rewrite <- Hlo, <- Hhi in M1, M2.
  rewrite !FloatAxioms.compare_spec in *.
  destruct (SFcompare (Prim2SF v) (Prim2SF 0.1)) as [[| |]|];
    destruct (SFcompare (Prim2SF v) (Prim2SF 5)) as [[| |]|];
    simpl in *; auto;
    try (specialize (M1 (or_introl eq_refl)); discriminate M1);
    try (specialize (M1 (or_intror eq_refl)); discriminate M1);
    try (specialize (M2 (or_introl eq_refl)); discriminate M2);
    try (specialize (M2 (or_intror eq_refl)); discriminate M2);
    try congruence.
Qed.

(** The code's clamp is the specification's clamp. *)
Lemma max_min_clamp (v : float) :
  Math.max 0.1 (Math.min v 5) = Spec.clamp v 0.1 5.
Proof.
  pose proof (compare_band v) as B.
  pose proof (compare_bools v 0.1) as L.
  pose proof (compare_bools v 5) as H.
  destruct (v ?= 0.1); destruct (v ?= 5); try contradiction;
    try (subst v; reflexivity);
    destruct L as (L1 & L2 & _); destruct H as (H1 & H2 & _);
    pose proof (is_nan_false v B) as N;
    unfold Spec.clamp, Math.min; rewrite N, L1, H1, ?H2;
    change (is_nan 5) with false; cbv beta iota delta [orb];
    unfold Math.max; change (is_nan 0.1) with false;
    rewrite ?N, ?L1, ?L2; reflexivity.
Qed.

(** Unless it is NaN, the clamped number lies in the band. *)
Lemma clamp_in_band (v : float) :
  v <> nan ->
  Spec.le 0.1 (Spec.clamp v 0.1 5) /\ Spec.le (Spec.clamp v 0.1 5) 5.
Proof.
  intros Hv.
  pose proof (compare_band v) as B.
  pose proof (compare_bools v 0.1) as L.
  pose proof (compare_bools v 5) as H.
  unfold Spec.le.
  destruct (v ?= 0.1); destruct (v ?= 5); try contradiction;
    try (subst v; split; reflexivity); try congruence;
    destruct L as (L1 & L2 & L3 & L4); destruct H as (H1 & H2 & H3 & H4);
    unfold Spec.clamp; rewrite ?L1, ?H2; auto.
Qed.

End FloatOrder.

(** ** The sessions

    The properties of the two deployments hold whatever the functions of
    [Math] are. *)

Section Sessions.

Variable atan2 : float -> float -> float.
Variables cos sin asin : float -> float.

(** ** What a rendered frame leaves alone *)

Lemma AR_requestSources_keeps (s : AR.State) :
  AR.scene (AR.requestSources s) = AR.scene s
  /\ AR.currentModel (AR.requestSources s) = AR.currentModel s
  /\ Spec.snapshot (AR.requestSources s) = Spec.snapshot s.
Proof.
  unfold AR.requestSources. destruct (AR.hitTestSourceRequested s); auto.
Qed.

Lemma AR_reticleLogic_keeps (f : XRFrame) (s : AR.State) :
  AR.scene (AR.stateOf (AR.reticleLogic f s)) = AR.scene s
  /\ AR.currentModel (AR.stateOf (AR.reticleLogic f s)) = AR.currentModel s
  /\ Spec.snapshot (AR.stateOf (AR.reticleLogic f s)) = Spec.snapshot s.
Proof.
  unfold AR.reticleLogic, AR.shouldShowReticle.
  destruct (AR.hitTestSource s); [|auto].
  destruct (getHitTestResults f) as [|hit rest]; [auto|].
  destruct (getPose hit) as [pose|]; [|auto].
  simpl. destruct (AR.currentModel s) as [m|] eqn:Hm; simpl.
  - match goal with |- context [if ?c then _ else _] => destruct c end;
      simpl; auto.
  - auto.
Qed.

Lemma AR_dragLogic_keeps (f : XRFrame) (s : AR.State) :
  AR.scene (AR.stateOf (AR.dragLogic f s)) = AR.scene s
  /\ option_map Object3D.id (AR.currentModel (AR.stateOf (AR.dragLogic f s)))
     = option_map Object3D.id (AR.currentModel s)
  /\ Spec.snapshot (AR.stateOf (AR.dragLogic f s)) = Spec.snapshot s.
Proof.
  unfold AR.dragLogic. destruct s; simpl.
  repeat match goal with
         | |- context [match ?x with _ => _ end] => destruct x
         end; simpl; auto.
Qed.

Lemma AR_render_keeps (frame : option XRFrame) (p : bool) (s : AR.State) :
  AR.scene (AR.stateOf (AR.render frame p s)) = AR.scene s
  /\ option_map Object3D.id
       (AR.currentModel (AR.stateOf (AR.render frame p s)))
     = option_map Object3D.id (AR.currentModel s)
  /\ Spec.snapshot (AR.stateOf (AR.render frame p s)) = Spec.snapshot s.
Proof.
  unfold AR.render.
  destruct frame as [f|]; [|auto]. destruct p; [|auto].
  destruct (AR_requestSources_keeps s) as (R1 & R2 & R3).
  destruct (AR_reticleLogic_keeps f (AR.requestSources s)) as (L1 & L2 & L3).
  destruct (AR.reticleLogic f (AR.requestSources s)) as [s1|s1];
    simpl in L1, L2, L3.
  - destruct (AR_dragLogic_keeps f s1) as (D1 & D2 & D3).
    rewrite D1, D2, D3, L1, L2, L3, R1, R2, R3. auto.
  - simpl. rewrite L1, L2, L3, R1, R2, R3. auto.
Qed.

Lemma hasModel_ids (s s' : AR.State) :
  option_map Object3D.id (AR.currentModel s')
  = option_map Object3D.id (AR.currentModel s) ->
  Spec.hasModel s -> Spec.hasModel s'.
Proof.
  unfold Spec.hasModel.
  destruct (AR.currentModel s), (AR.currentModel s'); simpl; congruence.
Qed.

(** ** Two-finger gestures *)

Section GestureProperties.

Lemma touchstart_two (s : AR.State) (m : Object3D.t) (a0 b0 : Touch) :
  AR.currentModel s = Some m ->
  AR.touchstart atan2 [a0; b0] s
  = AR.set_snapshot (AR.set_flags s false true)
      (Spec.touchDistance a0 b0) (Object3D.scale m)
      (Spec.touchAngle atan2 a0 b0) (Euler.y (Object3D.rotation m)).
Proof.
  intros Hm. unfold AR.touchstart. rewrite Hm.
  rewrite Vector3_copy_eq. reflexivity.
Qed.

(** A two-finger move frame of a gesture in progress. *)
Lemma touchmove_two (s : AR.State) (m : Object3D.t) (a b : Touch) :
  AR.currentModel s = Some m ->
  AR.isTwoFinger s = true ->
  AR.touchmove atan2 [a; b] s
  = let c := Math.max 0.1
               (Math.min (Vector3.x (AR.initialScale s)
                          * (Spec.touchDistance a b / AR.initialDistance s))
                         5.0) in
    AR.set_currentModel s
      (Some (Object3D.mk (Object3D.id m) (Object3D.name m) (Object3D.isMesh m)
               (Object3D.position m)
               (Euler.set_y (Object3D.rotation m)
                  (AR.initialModelRotation s
                   - (Spec.touchAngle atan2 a b - AR.initialAngle s)))
               (Vector3.mk c c c))).
Proof.
  intros Hm Htwo. unfold AR.touchmove. rewrite Hm, Htwo. reflexivity.
Qed.

Ltac split_matches :=
  repeat match goal with
         | |- context [match ?x with _ => _ end] => destruct x eqn:?
         | |- context [if ?x then _ else _] => destruct x eqn:?
         end.

Lemma onSelect_keeps (s : AR.State) :
  Spec.snapshot (AR.onSelect atan2 cos sin asin s) = Spec.snapshot s
  /\ (Spec.hasModel s -> Spec.hasModel (AR.onSelect atan2 cos sin asin s)).
Proof.
  unfold AR.onSelect, Spec.hasModel.
  split_matches; split; try reflexivity; simpl; congruence.
Qed.

Lemma touchmove_keeps (touches : list Touch) (s : AR.State) :
  Spec.snapshot (AR.touchmove atan2 touches s) = Spec.snapshot s
  /\ (Spec.hasModel s -> Spec.hasModel (AR.touchmove atan2 touches s)).
Proof.
  unfold AR.touchmove, Spec.hasModel.
  split_matches; split; try reflexivity; simpl; congruence.
Qed.

(** While a gesture lasts the snapshot stays and the model stays placed. *)
Lemma step_within_gesture (s : AR.State) (e : AR.Event) :
  Spec.withinGesture e = true ->
  Spec.snapshot (AR.step atan2 cos sin asin s e) = Spec.snapshot s
  /\ (Spec.hasModel s -> Spec.hasModel (AR.step atan2 cos sin asin s e)).
Proof.
  intros He. destruct e; try discriminate; simpl; auto.
  - apply onSelect_keeps.
  - apply touchmove_keeps.
  - destruct (AR_render_keeps frame isPresenting s) as (_ & Hid & Hsnap).
    split; [exact Hsnap | apply hasModel_ids; exact Hid].
Qed.

Lemma run_within_gesture (s : AR.State) (evs : list AR.Event) :
  forallb Spec.withinGesture evs = true ->
  Spec.snapshot (AR.run atan2 cos sin asin s evs) = Spec.snapshot s
  /\ (Spec.hasModel s -> Spec.hasModel (AR.run atan2 cos sin asin s evs)).
Proof.
  revert s. induction evs as [|e evs IH]; intros s Hall; [auto|].
  simpl in Hall. apply andb_true_iff in Hall. destruct Hall as [He Hevs].
  change (AR.run atan2 cos sin asin s (e :: evs))
    with (AR.run atan2 cos sin asin (AR.step atan2 cos sin asin s e) evs).
  destruct (IH (AR.step atan2 cos sin asin s e) Hevs) as [-> Hk].
  destruct (step_within_gesture s e He) as [-> Hk'].
  auto.
Qed.

(** The state a two-finger move frame meets within the gesture that began
    with the touches [a0], [b0] on the model [m]: the flag is up, the
    snapshot is the one taken at the start, and a model is there. *)
Lemma gesture_state (s0 : AR.State) (m : Object3D.t) (a0 b0 : Touch)
  (evs : list AR.Event) :
  AR.currentModel s0 = Some m ->
  forallb Spec.withinGesture evs = true ->
  let s1 := AR.run atan2 cos sin asin (AR.touchstart atan2 [a0; b0] s0) evs in
  Spec.snapshot s1
  = (true, Spec.touchDistance a0 b0, Object3D.scale m,
     Spec.touchAngle atan2 a0 b0, Euler.y (Object3D.rotation m))
  /\ exists m1, AR.currentModel s1 = Some m1.
Proof.
  intros Hm Hall s1.
  destruct (run_within_gesture (AR.touchstart atan2 [a0; b0] s0) evs Hall)
    as [Hsnap Hmodel].
  fold s1 in Hsnap, Hmodel. split.
  - rewrite Hsnap, (touchstart_two s0 m a0 b0 Hm). reflexivity.
  - destruct (AR.currentModel s1) as [m1|] eqn:H1; [eauto|].
    exfalso. apply Hmodel; [|exact H1].
    rewrite (touchstart_two s0 m a0 b0 Hm). unfold Spec.hasModel. simpl.
    congruence.
Qed.

(** C5.  A two-finger gesture starts on the model [m] with the touches
    [a0], [b0]; events follow, none of them a new 'touchstart' or the firing
    of a cool-down timer.  After a move frame with the touches [a], [b] the
    yaw of the model is the yaw it had at the snapshot minus the difference
    between the current angle of the segment joining the touches and its
    angle at the snapshot. *)
Theorem twist_sets_yaw (s0 : AR.State) (m : Object3D.t) (a0 b0 a b : Touch)
  (evs : list AR.Event) :
  AR.currentModel s0 = Some m ->
  forallb Spec.withinGesture evs = true ->
  let s1 := AR.run atan2 cos sin asin (AR.touchstart atan2 [a0; b0] s0) evs in
  let s2 := AR.touchmove atan2 [a; b] s1 in
  option_map (fun o => Euler.y (Object3D.rotation o)) (AR.currentModel s2)
  = Some (Euler.y (Object3D.rotation m)
          - (Spec.touchAngle atan2 a b - Spec.touchAngle atan2 a0 b0))%float.
Proof.
  intros Hm Hall s1 s2.
  destruct (gesture_state s0 m a0 b0 evs Hm Hall) as [Hsnap [m1 Hm1]].
  fold s1 in Hsnap, Hm1. unfold Spec.snapshot in Hsnap.
  injection Hsnap as Htwo _ _ Hangle Hrot.
  unfold s2. rewrite (touchmove_two s1 m1 a b Hm1 Htwo). simpl.
  rewrite Hangle, Hrot. reflexivity.
Qed.


(** Within a two-finger gesture a move frame sets the three scale
    components to the clamped product, and the clamped product lies between
    0.1 and 5 unless the product is NaN. *)
Lemma pinch_scale_clamped (s0 : AR.State) (m : Object3D.t)
  (a0 b0 a b : Touch) (evs : list AR.Event) :
  AR.currentModel s0 = Some m ->
  forallb Spec.withinGesture evs = true ->
  let s1 := AR.run atan2 cos sin asin (AR.touchstart atan2 [a0; b0] s0) evs in
  let s2 := AR.touchmove atan2 [a; b] s1 in
  let c := Spec.pinchScale (Vector3.x (Object3D.scale m))
             (Spec.touchDistance a0 b0) (Spec.touchDistance a b) in
  option_map Object3D.scale (AR.currentModel s2) = Some (Vector3.mk c c c)
  /\ ((Vector3.x (Object3D.scale m)
       * (Spec.touchDistance a b / Spec.touchDistance a0 b0))%float <> nan ->
      Spec.le 0.1 c /\ Spec.le c 5).
Proof.
  intros Hm Hall s1 s2 c. split.
  - destruct (gesture_state s0 m a0 b0 evs Hm Hall) as [Hsnap [m1 Hm1]].
    fold s1 in Hsnap, Hm1. unfold Spec.snapshot in Hsnap.
    injection Hsnap as Htwo Hdist Hscale _ _.
    unfold s2. rewrite (touchmove_two s1 m1 a b Hm1 Htwo). simpl.
    rewrite Hdist, Hscale, max_min_clamp. reflexivity.
  - apply clamp_in_band.
Qed.

End GestureProperties.

(** ** The reticle *)

Lemma fromArray_position (this : Vector3.t) (mat : Matrix4.t)
  (pose : list float) :
  Vector3.setFromMatrixPosition this (Matrix4.fromArray mat pose)
  = Spec.posePosition pose.
Proof. reflexivity. Qed.

Lemma setFromMatrixPosition_eq (this : Vector3.t) (mat : Matrix4.t) :
  Vector3.setFromMatrixPosition this mat = Spec.matrixPosition mat.
Proof. reflexivity. Qed.

Lemma AR_dragLogic_reticle (f : XRFrame) (s : AR.State) :
  AR.reticle (AR.stateOf (AR.dragLogic f s)) = AR.reticle s.
Proof.
  unfold AR.dragLogic.
  repeat match goal with
         | |- context [match ?x with _ => _ end] => destruct x
         end; reflexivity.
Qed.

(** The reticle after a presenting frame whose first hit has a pose, in the
    deployment with pinch and twist. *)
Lemma AR_render_reticle (s : AR.State) (f : XRFrame) (hit : XRHitTestResult)
  (rest : list XRHitTestResult) (pose : list float) (src : XRHitTestSource) :
  AR.hitTestSource s = Some src ->
  getHitTestResults f = hit :: rest ->
  getPose hit = Some pose ->
  AR.reticle (AR.stateOf (AR.render (Some f) true s))
  = mkReticle (Matrix4.fromArray (matrix (AR.reticle s)) pose)
      match AR.currentModel s with
      | None => true
      | Some m =>
          (0.6 <? Vector3.distanceTo (Spec.posePosition pose)
                    (Object3D.position m))%float
      end.
Proof.
  intros Hsrc Hhits Hpose. unfold AR.render.
  assert (Hr : AR.reticleLogic f (AR.requestSources s)
               = AR.Returned
                   (AR.set_reticle
                      (snd (AR.shouldShowReticle
                              (Matrix4.fromArray (matrix (AR.reticle s)) pose)
                              (AR.requestSources s)))
                      (mkReticle
                         (Matrix4.fromArray (matrix (AR.reticle s)) pose)
                         (fst (AR.shouldShowReticle
                                 (Matrix4.fromArray (matrix (AR.reticle s)) pose)
                                 (AR.requestSources s)))))).
  { unfold AR.reticleLogic, AR.requestSources, AR.shouldShowReticle.
    destruct (AR.hitTestSourceRequested s); simpl;
      rewrite Hsrc, Hhits, Hpose;
      destruct (AR.currentModel s) as [m|]; simpl; [|reflexivity| |reflexivity];
      match goal with |- context [if ?c then _ else _] => destruct c end;
      reflexivity. }
  rewrite Hr, AR_dragLogic_reticle. simpl. f_equal.
  unfold AR.shouldShowReticle, AR.requestSources.
  destruct (AR.hitTestSourceRequested s); simpl;
    destruct (AR.currentModel s); reflexivity.
Qed.

(** The same in the deployment with one-finger rotation. *)
Lemma ARPan_render_reticle (s : ARPan.State) (f : XRFrame)
  (hit : XRHitTestResult) (rest : list XRHitTestResult) (pose : list float)
  (src : XRHitTestSource) :
  ARPan.hitTestSource s = Some src ->
  getHitTestResults f = hit :: rest ->
  getPose hit = Some pose ->
  ARPan.reticle (ARPan.stateOf (ARPan.render (Some f) true s))
  = mkReticle (Matrix4.fromArray (matrix (ARPan.reticle s)) pose)
      match ARPan.currentModel s with
      | None => true
      | Some m =>
          (0.5 <? Vector3.distanceTo (Spec.posePosition pose)
                    (Object3D.position m))%float
      end.
Proof.
  intros Hsrc Hhits Hpose.
  unfold ARPan.render, ARPan.reticleLogic, ARPan.requestSources,
    ARPan.shouldShowReticle.
  destruct (ARPan.hitTestSourceRequested s); simpl;
    rewrite Hsrc, Hhits, Hpose;
    destruct (ARPan.currentModel s) as [m|]; simpl; [|reflexivity| |reflexivity];
    match goal with |- context [if ?c then _ else _] => destruct c eqn:E end;
    simpl; rewrite fromArray_position in E; rewrite E; reflexivity.
Qed.

(** C6.  On a presenting frame whose first hit-test result has a pose, the
    reticle's matrix is that pose.  With no model placed the reticle is
    visible; with a model placed it is visible exactly when the distance
    from the pose to the model's position is greater than the threshold
    (0.6 in the deployment with pinch, 0.5 in the other), so a distance
    equal to the threshold hides it. *)
Theorem reticle_visibility :
  (forall (s : AR.State) f hit rest pose src,
      AR.hitTestSource s = Some src ->
      getHitTestResults f = hit :: rest ->
      getPose hit = Some pose ->
      let r := AR.reticle (AR.stateOf (AR.render (Some f) true s)) in
      matrix r = Matrix4.fromArray (matrix (AR.reticle s)) pose
      /\ (AR.currentModel s = None -> visible r = true)
      /\ (forall m, AR.currentModel s = Some m ->
            let d := Vector3.distanceTo (Spec.posePosition pose)
                       (Object3D.position m) in
            (visible r = true <-> Spec.lt 0.6 d)
            /\ (d = 0.6%float -> visible r = false)))
  /\ (forall (s : ARPan.State) f hit rest pose src,
        ARPan.hitTestSource s = Some src ->
        getHitTestResults f = hit :: rest ->
        getPose hit = Some pose ->
        let r := ARPan.reticle (ARPan.stateOf (ARPan.render (Some f) true s)) in
        matrix r = Matrix4.fromArray (matrix (ARPan.reticle s)) pose
        /\ (ARPan.currentModel s = None -> visible r = true)
        /\ (forall m, ARPan.currentModel s = Some m ->
              let d := Vector3.distanceTo (Spec.posePosition pose)
                         (Object3D.position m) in
              (visible r = true <-> Spec.lt 0.5 d)
              /\ (d = 0.5%float -> visible r = false))).
Proof.
  split.
  - intros s f hit rest pose src Hsrc Hhits Hpose r.
    unfold r. rewrite (AR_render_reticle s f hit rest pose src Hsrc Hhits Hpose).
    simpl. split; [reflexivity|]. split.
    + intros ->. reflexivity.
    + intros m ->. split; [reflexivity|].
      intros ->. reflexivity.
  - intros s f hit rest pose src Hsrc Hhits Hpose r.
    unfold r.
    rewrite (ARPan_render_reticle s f hit rest pose src Hsrc Hhits Hpose).
    simpl. split; [reflexivity|]. split.
    + intros ->. reflexivity.
    + intros m ->. split; [reflexivity|].
      intros ->. reflexivity.
Qed.

(** ** Selection and the single placed model *)

(** A callback that neither adds to the scene nor replaces the model keeps
    the scene in step with the model. *)
Lemma onePlaced_keep (sc sc' : list nat) (cm cm' : option Object3D.t) :
  sc' = sc ->
  option_map Object3D.id cm' = option_map Object3D.id cm ->
  Spec.onePlaced sc cm -> Spec.onePlaced sc' cm'.
Proof.
  intros -> Hid. unfold Spec.onePlaced.
  destruct cm as [m|], cm' as [m'|]; simpl in Hid; try discriminate; auto.
  injection Hid as ->. auto.
Qed.

Lemma onSelect_noop (s : AR.State) :
  AR.isDragging s = true \/ visible (AR.reticle s) = false
    \/ AR.loadedGLTF s = None ->
  AR.onSelect atan2 cos sin asin s = s.
Proof.
  unfold AR.onSelect. intros [-> | [-> | ->]].
  - reflexivity.
  - destruct (AR.isDragging s); reflexivity.
  - destruct (AR.isDragging s), (visible (AR.reticle s)); reflexivity.
Qed.

(** What a clone is: the name, position and scale of the source, and the
    angles read off the quaternion of the source. *)
Lemma clone_eq (this : Object3D.t) (id' : nat) :
  Object3D.clone atan2 cos sin asin this id'
  = Object3D.mk id' (Object3D.name this) (Object3D.isMesh this)
      (Object3D.position this)
      (EulerFrom.setFromQuaternion atan2 asin
         (Euler.mk 0 0 0 (Euler.order (Object3D.rotation this)))
         (Object3D.quaternion cos sin this)
         (Euler.order (Object3D.rotation this)))
      (Object3D.scale this).
Proof.
  destruct this as [i n im [px py pz] r [sx sy sz]]. unfold Object3D.clone.
  simpl. destruct (Object3D.quaternion cos sin _). reflexivity.
Qed.

(** The clone of a template that is not rotated has the angles (-0, 0, -0),
    as it has in JavaScript, where [Math.cos(0)] is 1, [Math.sin(0)] and
    [Math.asin(0)] are 0 and [Math.atan2(-0, 1)] is -0. *)
Lemma clone_unrotated (this : Object3D.t) (id' : nat) :
  cos 0%float = 1%float -> sin 0%float = 0%float ->
  asin 0%float = 0%float -> atan2 (-0)%float 1%float = (-0)%float ->
  Object3D.rotation this = Euler.new ->
  Object3D.rotation (Object3D.clone atan2 cos sin asin this id')
  = Euler.mk (-0) 0 (-0) "XYZ".
Proof.
  intros Hc Hs Ha Ht Hr. rewrite clone_eq. simpl.
  unfold Object3D.quaternion. rewrite Hr.
  unfold Quaternion.setFromEuler, EulerFrom.setFromQuaternion,
    EulerFrom.setFromRotationMatrix. simpl.
  change (0 / 2)%float with 0%float. rewrite Hc, Hs. simpl.
  vm_compute (MathUtils.clamp _ _ _). rewrite Ha.
  vm_compute (Math.abs _ <? _)%float. cbv iota.
  vm_compute (- _)%float. 
  repeat match goal with |- context [atan2 ?a ?b] =>
    let a' := eval vm_compute in a in let b' := eval vm_compute in b in
    progress change (atan2 a b) with (atan2 a' b') end.
  vm_compute in Ht. rewrite Ht. reflexivity.
Qed.

Lemma onSelect_unplaced (s : AR.State) (template : Object3D.t) :
  AR.isDragging s = false ->
  visible (AR.reticle s) = true ->
  AR.loadedGLTF s = Some template ->
  AR.currentModel s = None ->
  AR.currentModel (AR.onSelect atan2 cos sin asin s)
  = Some (Object3D.set_position
            (Object3D.clone atan2 cos sin asin template (AR.objectCount s))
            (Spec.matrixPosition (matrix (AR.reticle s))))
  /\ AR.scene (AR.onSelect atan2 cos sin asin s)
     = AR.scene s ++ [AR.objectCount s]
  /\ AR.objectCount (AR.onSelect atan2 cos sin asin s)
     = S (AR.objectCount s).
Proof.
  intros Hd Hv Hl Hm. unfold AR.onSelect. rewrite Hd, Hv, Hl, Hm.
  repeat split.
Qed.

Lemma onSelect_placed (s : AR.State) (template m : Object3D.t) :
  AR.isDragging s = false ->
  visible (AR.reticle s) = true ->
  AR.loadedGLTF s = Some template ->
  AR.currentModel s = Some m ->
  AR.currentModel (AR.onSelect atan2 cos sin asin s)
  = Some (Object3D.set_position m
            (Spec.matrixPosition (matrix (AR.reticle s))))
  /\ AR.scene (AR.onSelect atan2 cos sin asin s) = AR.scene s
  /\ AR.objectCount (AR.onSelect atan2 cos sin asin s) = AR.objectCount s.
Proof.
  intros Hd Hv Hl Hm. unfold AR.onSelect. rewrite Hd, Hv, Hl, Hm. simpl.
  auto.
Qed.

Lemma onSelect_onePlaced (s : AR.State) :
  Spec.onePlaced (AR.scene s) (AR.currentModel s) ->
  Spec.onePlaced (AR.scene (AR.onSelect atan2 cos sin asin s))
    (AR.currentModel (AR.onSelect atan2 cos sin asin s)).
Proof.
  intros H. unfold AR.onSelect.
  destruct (AR.isDragging s); [exact H|].
  destruct (visible (AR.reticle s)); [|exact H].
  destruct (AR.loadedGLTF s) as [template|]; [|exact H].
  destruct (AR.currentModel s) as [m|] eqn:Hm; simpl.
  - exact H.
  - unfold Spec.onePlaced in H. rewrite H. reflexivity.
Qed.

Section SelectProperties.

Lemma AR_touch_placed (touches : list Touch) (s : AR.State) :
  (AR.scene (AR.touchstart atan2 touches s) = AR.scene s
   /\ option_map Object3D.id (AR.currentModel (AR.touchstart atan2 touches s))
      = option_map Object3D.id (AR.currentModel s))
  /\ (AR.scene (AR.touchmove atan2 touches s) = AR.scene s
      /\ option_map Object3D.id
           (AR.currentModel (AR.touchmove atan2 touches s))
         = option_map Object3D.id (AR.currentModel s)).
Proof.
  unfold AR.touchstart, AR.touchmove. destruct s; simpl.
  repeat match goal with
         | |- context [match ?x with _ => _ end] => destruct x
         end; simpl; auto.
Qed.

Lemma AR_step_onePlaced (s : AR.State) (e : AR.Event) :
  Spec.onePlaced (AR.scene s) (AR.currentModel s) ->
  Spec.onePlaced (AR.scene (AR.step atan2 cos sin asin s e))
    (AR.currentModel (AR.step atan2 cos sin asin s e)).
Proof.
  intros H. destruct e; simpl; try exact H.
  - apply onSelect_onePlaced; exact H.
  - destruct (AR_touch_placed touches s) as [[Hs Hc] _].
    exact (onePlaced_keep _ _ _ _ Hs Hc H).
  - destruct (AR_touch_placed touches s) as [_ [Hs Hc]].
    exact (onePlaced_keep _ _ _ _ Hs Hc H).
  - unfold AR.onTimeout. destruct (AR.pendingTimeouts s); exact H.
  - destruct (AR_render_keeps frame isPresenting s) as (Hs & Hc & _).
    exact (onePlaced_keep _ _ _ _ Hs Hc H).
Qed.

Lemma AR_run_onePlaced (s : AR.State) (evs : list AR.Event) :
  Spec.onePlaced (AR.scene s) (AR.currentModel s) ->
  Spec.onePlaced (AR.scene (AR.run atan2 cos sin asin s evs))
    (AR.currentModel (AR.run atan2 cos sin asin s evs)).
Proof.
  revert s. induction evs as [|e evs IH]; intros s H; [exact H|].
  change (AR.run atan2 cos sin asin s (e :: evs))
    with (AR.run atan2 cos sin asin (AR.step atan2 cos sin asin s e) evs).
  apply IH, AR_step_onePlaced, H.
Qed.

(** C7.  A select does nothing while dragging, with the reticle hidden, or
    without a loaded template.  Otherwise, with no model yet, the model
    becomes one new clone of the template (what three.js's [clone] makes of
    it, see [clone_eq]) put at the reticle's position, and that clone is
    added to the scene; with a model placed, the same model moves to the
    reticle's position and nothing is added.  In every state the program
    reaches, the scene holds the current model and no other instance. *)
Theorem select_places_once (s : AR.State) :
  (AR.isDragging s = true \/ visible (AR.reticle s) = false
     \/ AR.loadedGLTF s = None ->
   AR.onSelect atan2 cos sin asin s = s)
  /\ (forall template,
        AR.isDragging s = false ->
        visible (AR.reticle s) = true ->
        AR.loadedGLTF s = Some template ->
        match AR.currentModel s with
        | None =>
            AR.currentModel (AR.onSelect atan2 cos sin asin s)
            = Some (Object3D.set_position
                      (Object3D.clone atan2 cos sin asin template
                         (AR.objectCount s))
                      (Spec.matrixPosition (matrix (AR.reticle s))))
            /\ AR.scene (AR.onSelect atan2 cos sin asin s)
               = AR.scene s ++ [AR.objectCount s]
            /\ AR.objectCount (AR.onSelect atan2 cos sin asin s)
               = S (AR.objectCount s)
        | Some m =>
            AR.currentModel (AR.onSelect atan2 cos sin asin s)
            = Some (Object3D.set_position m
                      (Spec.matrixPosition (matrix (AR.reticle s))))
            /\ AR.scene (AR.onSelect atan2 cos sin asin s) = AR.scene s
            /\ AR.objectCount (AR.onSelect atan2 cos sin asin s)
               = AR.objectCount s
        end)
  /\ (forall evs,
        let s' := AR.run atan2 cos sin asin AR.init evs in
        Spec.onePlaced (AR.scene s') (AR.currentModel s')
        /\ List.length (AR.scene s') <= 1).
Proof.
  split; [apply onSelect_noop|]. split.
  - intros template Hd Hv Hl.
    destruct (AR.currentModel s) as [m|] eqn:Hm.
    + apply (onSelect_placed s template m); assumption.
    + apply (onSelect_unplaced s template); assumption.
  - intros evs s'.
    assert (H : Spec.onePlaced (AR.scene s') (AR.currentModel s'))
      by (apply AR_run_onePlaced; reflexivity).
    split; [exact H|].
    unfold Spec.onePlaced in H.
    destruct (AR.currentModel s'); rewrite H; simpl; lia.
Qed.

End SelectProperties.

(** ** The same in the deployment with one-finger rotation *)

Lemma ARPan_onSelect_onePlaced (s : ARPan.State) :
  Spec.onePlaced (ARPan.scene s) (ARPan.currentModel s) ->
  Spec.onePlaced (ARPan.scene (ARPan.onSelect atan2 cos sin asin s))
    (ARPan.currentModel (ARPan.onSelect atan2 cos sin asin s)).
Proof.
  intros H. unfold ARPan.onSelect.
  destruct (ARPan.isDragging s); [exact H|].
  destruct (visible (ARPan.reticle s)); [|exact H].
  destruct (ARPan.loadedGLTF s) as [template|]; [|exact H].
  destruct (ARPan.currentModel s) as [m|] eqn:Hm; simpl.
  - exact H.
  - unfold Spec.onePlaced in H. rewrite H. reflexivity.
Qed.

Lemma ARPan_callbacks_placed (touches : list Touch) (frame : option XRFrame)
  (p : bool) (s : ARPan.State) :
  let keeps s' :=
    ARPan.scene s' = ARPan.scene s
    /\ option_map Object3D.id (ARPan.currentModel s')
       = option_map Object3D.id (ARPan.currentModel s) in
  keeps (ARPan.stateOf (ARPan.touchstart touches s))
  /\ keeps (ARPan.stateOf (ARPan.touchmove touches s))
  /\ keeps (ARPan.onTimeout s)
  /\ keeps (ARPan.stateOf (ARPan.render frame p s)).
Proof.
  cbv zeta.
  unfold ARPan.touchstart, ARPan.touchmove, ARPan.onTimeout, ARPan.render,
    ARPan.reticleLogic, ARPan.requestSources, ARPan.shouldShowReticle.
  destruct s; simpl.
  repeat split;
    repeat match goal with
           | |- context [match ?x with _ => _ end] =>
               lazymatch x with
               | context [match _ with _ => _ end] => fail
               | _ => destruct x
               end
           end; simpl; auto.
Qed.

Lemma ARPan_step_onePlaced (s : ARPan.State) (e : ARPan.Event) :
  Spec.onePlaced (ARPan.scene s) (ARPan.currentModel s) ->
  Spec.onePlaced (ARPan.scene (ARPan.step atan2 cos sin asin s e))
    (ARPan.currentModel (ARPan.step atan2 cos sin asin s e)).
Proof.
  intros H.
  destruct e; simpl; try exact H;
    try (apply ARPan_onSelect_onePlaced; exact H).
  - destruct (ARPan_callbacks_placed touches None false s)
      as ((Hs & Hc) & _).
    exact (onePlaced_keep _ _ _ _ Hs Hc H).
  - destruct (ARPan_callbacks_placed touches None false s)
      as (_ & (Hs & Hc) & _).
    exact (onePlaced_keep _ _ _ _ Hs Hc H).
  - destruct (ARPan_callbacks_placed [] None false s)
      as (_ & _ & (Hs & Hc) & _).
    exact (onePlaced_keep _ _ _ _ Hs Hc H).
  - destruct (ARPan_callbacks_placed [] frame isPresenting s)
      as (_ & _ & _ & (Hs & Hc)).
    exact (onePlaced_keep _ _ _ _ Hs Hc H).
Qed.

(** In the deployment with one-finger rotation too, the scene holds the
    current model and no other instance, in every state the program
    reaches. *)
Lemma ARPan_run_onePlaced (evs : list ARPan.Event) :
  Spec.onePlaced (ARPan.scene (ARPan.run atan2 cos sin asin ARPan.init evs))
    (ARPan.currentModel (ARPan.run atan2 cos sin asin ARPan.init evs)).
Proof.
  assert (G : forall s, Spec.onePlaced (ARPan.scene s) (ARPan.currentModel s) ->
                Spec.onePlaced (ARPan.scene
                    (ARPan.run atan2 cos sin asin s evs))
                  (ARPan.currentModel (ARPan.run atan2 cos sin asin s evs))).
  { induction evs as [|e evs IH]; intros s H; [exact H|].
    change (ARPan.run atan2 cos sin asin s (e :: evs)) with
      (ARPan.run atan2 cos sin asin (ARPan.step atan2 cos sin asin s e) evs).
    apply IH, ARPan_step_onePlaced, H. }
  apply G. reflexivity.
Qed.

(** ** The cool-down after a gesture *)

Section CoolDown.

(** After a one-finger drag is released, a select is ignored for as long as
    the timer has not fired. *)
Lemma one_finger_release_select_ignored (s : AR.State) (m : Object3D.t)
  (a : Touch) :
  AR.currentModel s = Some m ->
  let s1 := AR.touchend (AR.touchstart atan2 [a] s) in
  AR.pendingTimeouts s1 = S (AR.pendingTimeouts s)
  /\ AR.onSelect atan2 cos sin asin s1 = s1.
Proof.
  intros Hm s1. unfold s1, AR.touchstart. rewrite Hm.
  split; reflexivity.
Qed.

(** After a two-finger gesture is released, a select is not ignored: with
    the reticle visible and the template loaded it moves the model to the
    reticle although the timer has not fired. *)
Lemma two_finger_release_select_moves (s : AR.State) (m template : Object3D.t)
  (a b : Touch) :
  AR.currentModel s = Some m ->
  visible (AR.reticle s) = true ->
  AR.loadedGLTF s = Some template ->
  let s1 := AR.touchend (AR.touchstart atan2 [a; b] s) in
  AR.pendingTimeouts s1 = S (AR.pendingTimeouts s)
  /\ AR.isDragging s1 = false
  /\ AR.isTwoFinger s1 = true
  /\ AR.currentModel (AR.onSelect atan2 cos sin asin s1)
     = Some (Object3D.set_position m
               (Spec.matrixPosition (matrix (AR.reticle s)))).
Proof.
  intros Hm Hv Hl s1. unfold s1. rewrite (touchstart_two s m a b Hm).
  repeat split.
  unfold AR.onSelect. simpl. rewrite Hv, Hl, Hm. reflexivity.
Qed.

(** C8 does not hold of the code.  The template is loaded and a model
    placed one metre ahead; the reticle shows two metres to the right.  Two
    fingers go down, move and are lifted.  Both timers are still pending and
    the two-finger flag is still up, yet the select that follows moves the
    model to the reticle: [onSelect] looks at [isDragging] alone, which the
    second finger has put down. *)
Theorem two_finger_release_select_reanchors :
  let s := AR.run atan2 cos sin asin AR.init
             (Examples.placing ++ Examples.twoFingerGesture) in
  AR.pendingTimeouts s = 2
  /\ AR.isTwoFinger s = true
  /\ visible (AR.reticle s) = true
  /\ option_map Object3D.position (AR.currentModel s)
     = Some (Vector3.mk 0 0 (-1))
  /\ option_map Object3D.position
    (AR.currentModel (AR.step atan2 cos sin asin s AR.Select))
     = Some (Vector3.mk 2 0 (-1)).
Proof. repeat split. Qed.

(** C4 does not hold of the code.  A model is placed; two touch points at
    the same place start a gesture, and a move frame finds them at the same
    place again: the distance at the snapshot and the current distance are
    both 0, their quotient is NaN, and NaN is written to the three scale
    components; NaN is not between 0.1 and 5.  ([pinch_scale_clamped] has
    the frames on which the band is kept.) *)
Theorem coincident_pinch_scale_nan :
  let s := AR.run atan2 cos sin asin AR.init
             (Examples.placing ++ Examples.coincidentPinch) in
  option_map Object3D.scale (AR.currentModel s)
  = Some (Vector3.mk nan nan nan)
  /\ ~ Spec.le 0.1 nan
  /\ ~ Spec.le nan 5.
Proof. split; [reflexivity|]. split; discriminate. Qed.

End CoolDown.

End Sessions.

(** ** The theorems at concrete inputs *)

Lemma rejection_restores_last_known_good_witness :
  Room.currentModel Examples.draggedOut = Some Examples.draggedOutModel
  /\ Spec.exitsRoomLimits Room.roomLimits
       (Examples.cubeBox Examples.draggedOutModel)
  /\ Room.currentModel (Room.onChange Examples.cubeBox Examples.draggedOut)
     = Some Examples.product
  /\ Spec.lastKnownGood (Room.onChange Examples.cubeBox Examples.draggedOut)
     = Spec.lastKnownGood Examples.draggedOut.
Proof.
  assert (Hm : Room.currentModel Examples.draggedOut
               = Some Examples.draggedOutModel) by reflexivity.
  assert (Hout : Spec.exitsRoomLimits Room.roomLimits
                   (Examples.cubeBox Examples.draggedOutModel))
    by (right; left; reflexivity).
  split; [exact Hm|]. split; [exact Hout|].
  exact (rejection_restores_last_known_good Examples.cubeBox
           Examples.draggedOut Examples.draggedOutModel Hm (or_introl Hout)).
Defined.

Lemma last_known_good_invariant_witness :
  forallb (fun e => negb (Spec.isProductLoaded e)) Examples.drags = true
  /\ (forall e t,
        Spec.proposal (Room.run Examples.cubeBox Examples.loaded Examples.drags)
          e = Some t ->
        (Spec.Passes Examples.cubeBox
           (Room.run Examples.cubeBox Examples.loaded Examples.drags) t ->
         Spec.lastKnownGood
           (Room.step Examples.cubeBox
              (Room.run Examples.cubeBox Examples.loaded Examples.drags) e)
         = t)
        /\ (~ Spec.Passes Examples.cubeBox
                (Room.run Examples.cubeBox Examples.loaded Examples.drags) t ->
            Spec.lastKnownGood
              (Room.step Examples.cubeBox
                 (Room.run Examples.cubeBox Examples.loaded Examples.drags) e)
            = Spec.lastKnownGood
                (Room.run Examples.cubeBox Examples.loaded Examples.drags))).
Proof.
  split; [reflexivity|].
  exact (proj1 (proj2 (proj2
           (last_known_good_invariant Examples.cubeBox Examples.product
              Room.init Examples.drags eq_refl)))).
Defined.

Lemma validator_rejects_iff_witness :
  Room.currentModel Examples.draggedOut = Some Examples.draggedOutModel
  /\ (Spec.rejected Room.roomLimits (Room.almirahBox Examples.draggedOut)
        (Examples.cubeBox Examples.draggedOutModel) ->
      Room.onChange Examples.cubeBox Examples.draggedOut
      = Spec.reverted Examples.cubeBox Examples.draggedOut
          Examples.draggedOutModel).
Proof.
  split; [reflexivity|].
  exact (proj1 (proj2
           (validator_rejects_iff Examples.cubeBox Examples.draggedOut
              Examples.draggedOutModel eq_refl))).
Defined.

Lemma no_almirah_room_limits_only_witness :
  (forall room, In (Room.RoomLoaded room) Examples.bareSession ->
     Spec.NoAlmirah room)
  /\ Room.almirahBox
       (Room.run Examples.cubeBox Room.init Examples.bareSession) = None.
Proof.
  assert (H : forall room, In (Room.RoomLoaded room) Examples.bareSession ->
                Spec.NoAlmirah room).
  { intros room [E|[E|[E|[]]]]; try discriminate E.
    injection E as <-. intros o Hin _ Hc.
    apply includes_iff in Hc.
    destruct Hin as [<-|[<-|[<-|[]]]]; discriminate Hc. }
  split; [exact H|].
  exact (proj1 (no_almirah_room_limits_only Examples.cubeBox
                  Examples.bareSession H)).
Defined.

Lemma twist_sets_yaw_witness :
  AR.currentModel Examples.placed = Some Examples.placedModel
  /\ forallb Spec.withinGesture Examples.duringGesture = true
  /\ option_map (fun o => Euler.y (Object3D.rotation o))
       (AR.currentModel
          (AR.touchmove Examples.quotient [mkTouch 100 250; mkTouch 200 350]
             (AR.run Examples.quotient Examples.cosine Examples.sine
                 Examples.arcsine
                (AR.touchstart Examples.quotient
                   [mkTouch 100 300; mkTouch 200 300] Examples.placed)
                Examples.duringGesture)))
     = Some (0 - (Spec.touchAngle Examples.quotient
                    (mkTouch 100 250) (mkTouch 200 350)
                  - Spec.touchAngle Examples.quotient
                      (mkTouch 100 300) (mkTouch 200 300)))%float.
Proof.
  split; [reflexivity|]. split; [reflexivity|].
  exact (twist_sets_yaw Examples.quotient Examples.cosine Examples.sine
      Examples.arcsine Examples.placed Examples.placedModel
           (mkTouch 100 300) (mkTouch 200 300)
           (mkTouch 100 250) (mkTouch 200 350)
           Examples.duringGesture eq_refl eq_refl).
Defined.


(** C5 as the claim has it, for every two-finger move frame, fails.  A
    model is placed; a finger taps, and before the timer of its 'touchend'
    fires two fingers go down and the snapshot is taken: yaw 0 and the angle
    of the segment.  The timer fires and puts the two-finger flag down.  The
    move frame that follows, with the two fingers turned, is ignored: the
    yaw stays 0, where the claim's formula gives -1. *)
Lemma twist_ignored_after_timer :
  let s := MoreExamples.timerFired in
  let s2 := AR.touchmove Examples.quotient
              [mkTouch 100 250; mkTouch 200 350] s in
  let claimed :=
    (AR.initialModelRotation s
     - (Spec.touchAngle Examples.quotient (mkTouch 100 250) (mkTouch 200 350)
        - AR.initialAngle s))%float in
  (AR.isTwoFinger s = false
   /\ AR.initialModelRotation s = 0%float
   /\ AR.initialAngle s
      = Spec.touchAngle Examples.quotient (mkTouch 100 300) (mkTouch 200 300))
  /\ option_map (fun o => Euler.y (Object3D.rotation o)) (AR.currentModel s2)
     = Some 0%float
  /\ claimed = (-1)%float
  /\ option_map (fun o => Euler.y (Object3D.rotation o)) (AR.currentModel s2)
     <> Some claimed.
Proof.
  split; [repeat split|]. split; [reflexivity|]. split; [reflexivity|].
  intros E.
  apply (f_equal (fun o => match o with
                           | Some y => PrimFloat.ltb y 0
                           | None => false
                           end)) in E.
  vm_compute in E. discriminate E.
Qed.


Lemma reticle_visibility_witness :
  (AR.hitTestSource Examples.placed = Some ViewerSource
   /\ AR.currentModel Examples.placed = Some Examples.placedModel
   /\ Vector3.distanceTo (Spec.posePosition (Examples.poseAt 0.6 0 (-1)))
        (Object3D.position Examples.placedModel) = 0.6%float
   /\ visible
        (AR.reticle
           (AR.stateOf
              (AR.render (Some (Examples.frameAt 0.6 0 (-1))) true
                 Examples.placed))) = false)
  /\ (ARPan.hitTestSource Examples.panPlaced = Some ViewerSource
      /\ ARPan.currentModel Examples.panPlaced = Some Examples.placedModel
      /\ Spec.lt 0.5
           (Vector3.distanceTo (Spec.posePosition (Examples.poseAt 0.6 0 (-1)))
              (Object3D.position Examples.placedModel))
      /\ visible
           (ARPan.reticle
              (ARPan.stateOf
                 (ARPan.render (Some (Examples.frameAt 0.6 0 (-1))) true
                    Examples.panPlaced))) = true).
Proof.
  split.
  - split; [reflexivity|]. split; [reflexivity|]. split; [reflexivity|].
    exact (proj2 (proj2 (proj2
             (proj1 reticle_visibility Examples.placed
                (Examples.frameAt 0.6 0 (-1))
                (mkHit (Some (Examples.poseAt 0.6 0 (-1)))) []
                (Examples.poseAt 0.6 0 (-1)) ViewerSource
                eq_refl eq_refl eq_refl))
             Examples.placedModel eq_refl) eq_refl).
  - split; [reflexivity|]. split; [reflexivity|]. split; [reflexivity|].
    exact (proj2 (proj1 (proj2 (proj2
             (proj2 reticle_visibility Examples.panPlaced
                (Examples.frameAt 0.6 0 (-1))
                (mkHit (Some (Examples.poseAt 0.6 0 (-1)))) []
                (Examples.poseAt 0.6 0 (-1)) ViewerSource
                eq_refl eq_refl eq_refl))
             Examples.placedModel eq_refl)) eq_refl).
Defined.

Lemma select_places_once_witness :
  AR.isDragging Examples.aiming = false
  /\ visible (AR.reticle Examples.aiming) = true
  /\ AR.loadedGLTF Examples.aiming = Some Examples.pot
  /\ AR.currentModel (AR.onSelect Examples.quotient Examples.cosine
      Examples.sine Examples.arcsine Examples.aiming)
    = Some Examples.placedModel
  /\ AR.scene (AR.onSelect Examples.quotient Examples.cosine Examples.sine
      Examples.arcsine Examples.aiming) = AR.scene Examples.aiming ++ [8]
  /\ AR.objectCount (AR.onSelect Examples.quotient Examples.cosine
      Examples.sine Examples.arcsine Examples.aiming) = 9.
Proof.
  split; [reflexivity|]. split; [reflexivity|]. split; [reflexivity|].
  exact (proj1 (proj2 (select_places_once Examples.quotient Examples.cosine
          Examples.sine Examples.arcsine Examples.aiming))
           Examples.pot eq_refl eq_refl eq_refl).
Defined.

(** * Further properties of the configurator *)

Section RoomRuns.

Variable setFromObject : Object3D.t -> Box3.t.

Lemma onChange_inStep (s : Room.State) :
  Runs.inStep (Room.onChange setFromObject s).
Proof.
  destruct (Room.currentModel s) as [m|] eqn:Hm.
  - destruct (rejected_dec (Room.almirahBox s) (setFromObject m)) as [R|A].
    + rewrite (onChange_rejected setFromObject s m Hm R). reflexivity.
    + rewrite (onChange_accepted setFromObject s m Hm A). reflexivity.
  - rewrite (onChange_no_model setFromObject s Hm).
    unfold Runs.inStep. rewrite Hm. exact I.
Qed.

Lemma step_inStep (s : Room.State) (e : Room.Event) :
  Runs.inStep s -> Runs.inStep (Room.step setFromObject s e).
Proof.
  intros H. destruct e; simpl.
  - destruct (loadCustomRoom_keeps setFromObject room s) as [Hm Hl].
    unfold Runs.inStep. rewrite Hm, Hl. exact H.
  - unfold Runs.inStep, Room.loadProduct_onLoad, Spec.lastKnownGood. simpl.
    rewrite Vector3_copy_eq, Euler_copy_eq. reflexivity.
  - exact H.
  - apply onChange_inStep.
  - apply onChange_inStep.
Qed.

Lemma run_inStep (s : Room.State) (evs : list Room.Event) :
  Runs.inStep s -> Runs.inStep (Room.run setFromObject s evs).
Proof.
  revert s. induction evs as [|e evs IH]; intros s H; [exact H|].
  change (Room.run setFromObject s (e :: evs))
    with (Room.run setFromObject (Room.step setFromObject s e) evs).
  apply IH, step_inStep, H.
Qed.

(** X1.  Between events the model carries the snapshot: in every state the
    configurator reaches, a loaded model has the position and the rotation
    last saved as valid. *)
Theorem room_model_follows_snapshot (evs : list Room.Event) :
  Runs.inStep (Room.run setFromObject Room.init evs).
Proof. apply run_inStep. exact I. Qed.

(** A 'change' that carries no edit leaves a model that is in step, and the
    snapshot, as they are. *)
Lemma notify_inStep (s : Room.State) :
  Runs.inStep s ->
  Room.currentModel (Room.onChange setFromObject s) = Room.currentModel s
  /\ Spec.lastKnownGood (Room.onChange setFromObject s) = Spec.lastKnownGood s.
Proof.
  unfold Runs.inStep. intros H.
  destruct (Room.currentModel s) as [m|] eqn:Hm.
  - destruct (rejected_dec (Room.almirahBox s) (setFromObject m)) as [R|A].
    + rewrite (onChange_rejected setFromObject s m Hm R).
      unfold Spec.lastKnownGood in H. injection H as Hp Hr.
      unfold Spec.reverted. simpl. rewrite <- Hp, <- Hr.
      destruct m; split; reflexivity.
    + rewrite (onChange_accepted setFromObject s m Hm A).
      split; [reflexivity | exact H].
  - rewrite (onChange_no_model setFromObject s Hm). rewrite Hm. auto.
Qed.

(** X2.  In every state the configurator reaches, a 'change' that carries
    no edit (a hover, a mode switch) moves neither the model nor the
    snapshot, whether the validator accepts the pose at rest or not. *)
Theorem bare_change_moves_nothing (evs : list Room.Event) :
  let s := Room.run setFromObject Room.init evs in
  Room.currentModel (Room.step setFromObject s Room.GizmoNotify)
  = Room.currentModel s
  /\ Spec.lastKnownGood (Room.step setFromObject s Room.GizmoNotify)
     = Spec.lastKnownGood s.
Proof.
  intros s. apply notify_inStep. apply run_inStep. exact I.
Qed.

(** X3.  Submitting the same drag twice gives the state that submitting it
    once gives: an accepted pose is accepted again, and a rejected pose is
    rejected again and snaps back to the same snapshot. *)
Theorem gizmo_drag_idempotent (s : Room.State) (p : Vector3.t) (r : Euler.t) :
  Room.step setFromObject
    (Room.step setFromObject s (Room.GizmoDrag p r)) (Room.GizmoDrag p r)
  = Room.step setFromObject s (Room.GizmoDrag p r).
Proof.
  destruct (Room.currentModel s) as [m|] eqn:Hm.
  - assert (Hp : Spec.proposal s (Room.GizmoDrag p r) = Some (p, r))
      by (unfold Spec.proposal; rewrite Hm; reflexivity).
    destruct (rejected_dec (Room.almirahBox s)
                (setFromObject (Spec.withTransform m (p, r)))) as [R|A].
    + rewrite (step_rejected setFromObject s _ m (p, r) Hm Hp R).
      erewrite step_rejected;
        [ | reflexivity | reflexivity | exact R ].
      reflexivity.
    + rewrite (step_accepted setFromObject s _ m (p, r) Hm Hp A).
      erewrite step_accepted;
        [ | reflexivity | reflexivity | exact A ].
      reflexivity.
  - simpl. unfold Room.gizmoWrite. rewrite Hm.
    rewrite (onChange_no_model setFromObject s Hm). rewrite Hm.
    apply onChange_no_model. exact Hm.
Qed.

End RoomRuns.

(** ** What loading the room keeps *)

Section RoomLoading.

Variable setFromObject : Object3D.t -> Box3.t.

(** A reference that each matching element overwrites ends as the last
    matching element. *)
Lemma fold_last_match {S A : Type} (visit : S -> A -> S) (get : S -> option A)
  (test : A -> bool) (l : list A) (s : S) :
  (forall s a, get (visit s a) = if test a then Some a else get s) ->
  get (fold_left visit l s)
  = match rev (filter test l) with
    | [] => get s
    | a :: _ => Some a
    end.
Proof.
  intros Hv. induction l as [|a l IH] using rev_ind; [reflexivity|].
  rewrite fold_left_app, filter_app, rev_app_distr. simpl.
  rewrite Hv. destruct (test a); simpl; [reflexivity | exact IH].
Qed.

Lemma visitRoomChild_wall (s : Room.State) (child : Object3D.t) :
  Room.wallMeshReference (Room.visitRoomChild setFromObject s child)
  = if Object3D.isMesh child && includes (Object3D.name child) "Wall"
    then Some child else Room.wallMeshReference s.
Proof.
  unfold Room.visitRoomChild.
  destruct (Object3D.isMesh child); [|reflexivity].
  destruct (includes (Object3D.name child) "Wall");
    destruct (includes (Object3D.name child) "Floor");
    destruct (includes (Object3D.name child) "Almirah"); reflexivity.
Qed.

Lemma visitRoomChild_floor (s : Room.State) (child : Object3D.t) :
  Room.floorMeshReference (Room.visitRoomChild setFromObject s child)
  = if Object3D.isMesh child && includes (Object3D.name child) "Floor"
    then Some child else Room.floorMeshReference s.
Proof.
  unfold Room.visitRoomChild.
  destruct (Object3D.isMesh child); [|reflexivity].
  destruct (includes (Object3D.name child) "Wall");
    destruct (includes (Object3D.name child) "Floor");
    destruct (includes (Object3D.name child) "Almirah"); reflexivity.
Qed.

Lemma fold_last_box (l : list Object3D.t) (s : Room.State) :
  Room.almirahBox (fold_left (Room.visitRoomChild setFromObject) l s)
  = match rev (filter (fun o => Object3D.isMesh o
                                && includes (Object3D.name o) "Almirah") l) with
    | [] => Room.almirahBox s
    | o :: _ => Some (setFromObject o)
    end.
Proof.
  induction l as [|a l IH] using rev_ind; [reflexivity|].
  rewrite fold_left_app, filter_app, rev_app_distr. simpl.
  rewrite visitRoomChild_almirahBox.
  destruct (Object3D.isMesh a && includes (Object3D.name a) "Almirah");
    simpl; [reflexivity | exact IH].
Qed.

(** X4.  Of the meshes of the room whose names contain 'Wall', 'Floor' or
    'Almirah', the last one the traversal meets is the one kept: it becomes
    the wall or floor reference, and its box alone is the obstacle.  Where
    the room has no such mesh, the variable keeps its value. *)
Theorem room_load_keeps_last_match (room : SceneGraph) (s : Room.State) :
  let s' := Room.loadCustomRoom_onLoad setFromObject room s in
  Room.wallMeshReference s'
  = match rev (Runs.meshesNamed "Wall" room) with
    | [] => Room.wallMeshReference s
    | o :: _ => Some o
    end
  /\ Room.floorMeshReference s'
     = match rev (Runs.meshesNamed "Floor" room) with
       | [] => Room.floorMeshReference s
       | o :: _ => Some o
       end
  /\ Room.almirahBox s'
     = match rev (Runs.meshesNamed "Almirah" room) with
       | [] => Room.almirahBox s
       | o :: _ => Some (setFromObject o)
       end.
Proof.
  intros s'. unfold s', Room.loadCustomRoom_onLoad, Runs.meshesNamed.
  split; [|split].
  - apply (fold_last_match (Room.visitRoomChild setFromObject)
             Room.wallMeshReference
             (fun o => Object3D.isMesh o && includes (Object3D.name o) "Wall")).
    intros; apply visitRoomChild_wall.
  - apply (fold_last_match (Room.visitRoomChild setFromObject)
             Room.floorMeshReference
             (fun o => Object3D.isMesh o && includes (Object3D.name o) "Floor")).
    intros; apply visitRoomChild_floor.
  - apply fold_last_box.
Qed.

End RoomLoading.

(** ** The limits of the room, and the centring of the product *)

Section FloatFacts.

Local Open Scope float_scope.

Lemma SFcompare_none (x y : spec_float) :
  SFcompare x y = None -> x = S754_nan \/ y = S754_nan.
Proof.
  destruct x as [sx|sx| |sx mx ex], y as [sy|sy| |sy my ey]; simpl;
    try discriminate; auto.
Qed.

Lemma Prim2SF_nan (a : float) : Prim2SF a = S754_nan -> a = nan.
Proof. intros H. apply Prim2SF_inj. rewrite H. reflexivity. Qed.

(** For numbers, "not less" is "greater or equal". *)
Lemma not_ltb_leb (a b : float) :
  a <> nan -> b <> nan -> ((a <? b) = false <-> (b <=? a) = true).
Proof.
  intros Ha Hb. pose proof (compare_bools a b) as C.
  assert (Hc : (a ?= b) <> FNotComparable).
  { rewrite FloatAxioms.compare_spec.
    destruct (SFcompare (Prim2SF a) (Prim2SF b)) as [[| |]|] eqn:E;
      simpl; try discriminate.
    destruct (SFcompare_none _ _ E) as [N|N]; apply Prim2SF_nan in N;
      contradiction. }
  destruct (a ?= b); try contradiction;
    destruct C as (C1 & C2 & C3 & C4); rewrite C1, C4;
    split; congruence.
Qed.

(** Subtracting zero changes nothing. *)
Lemma sub_zero (a : float) : a - 0 = a.
Proof.
  apply Prim2SF_inj. rewrite FloatAxioms.sub_spec.
  change (Prim2SF 0) with (S754_zero false).
  destruct (Prim2SF a) as [s|s| |s m e]; try reflexivity.
  destruct s; reflexivity.
Qed.

(** A number minus itself is zero, or NaN when it is infinite or NaN. *)
Lemma sub_diag (a : float) : a - a = 0 \/ a - a = nan.
Proof.
  destruct (Prim2SF a) as [s|s| |s m e] eqn:E.
  - left. apply Prim2SF_inj. rewrite FloatAxioms.sub_spec, E.
    destruct s; reflexivity.
  - right. apply Prim2SF_inj. rewrite FloatAxioms.sub_spec, E.
    destruct s; reflexivity.
  - right. apply Prim2SF_inj. rewrite FloatAxioms.sub_spec, E. reflexivity.
  - left. apply Prim2SF_inj. rewrite FloatAxioms.sub_spec, E.
    unfold SF64sub, SFsub. rewrite Z.sub_diag. reflexivity.
Qed.

End FloatFacts.

Lemma not_nan (a : float) : is_nan a = false -> a <> nan.
Proof. intros H E. rewrite E in H. discriminate H. Qed.

(** X5.  The room limits are inclusive: for a box whose horizontal
    coordinates are numbers, the listener's room test passes exactly when
    the box lies between -3.25 and 3.25 on x and between -3.92 and 2.8 on z,
    faces on the limits included. *)
Theorem room_limits_inclusive (b : Box3.t) :
  Vector3.x (Box3.min b) <> nan -> Vector3.x (Box3.max b) <> nan ->
  Vector3.z (Box3.min b) <> nan -> Vector3.z (Box3.max b) <> nan ->
  (Room.isOutside b = false
   <-> Spec.le (-3.25) (Vector3.x (Box3.min b))
       /\ Spec.le (Vector3.x (Box3.max b)) 3.25
       /\ Spec.le (-3.92) (Vector3.z (Box3.min b))
       /\ Spec.le (Vector3.z (Box3.max b)) 2.8).
Proof.
  intros N1 N2 N3 N4. unfold Room.isOutside, Spec.le.
  rewrite !orb_false_iff.
  change (Room.minX Room.roomLimits) with (-3.25)%float.
  change (Room.maxX Room.roomLimits) with 3.25%float.
  change (Room.minZ Room.roomLimits) with (-3.92)%float.
  change (Room.maxZ Room.roomLimits) with 2.8%float.
  rewrite (not_ltb_leb _ _ N1 (not_nan (-3.25)%float eq_refl)).
  rewrite (not_ltb_leb _ _ (not_nan 3.25%float eq_refl) N2).
  rewrite (not_ltb_leb _ _ N3 (not_nan (-3.92)%float eq_refl)).
  rewrite (not_ltb_leb _ _ (not_nan 2.8%float eq_refl) N4).
  tauto.
Qed.

Lemma room_limits_inclusive_witness :
  Vector3.x (Box3.min MoreExamples.roomBox) <> nan
  /\ Vector3.x (Box3.max MoreExamples.roomBox) <> nan
  /\ Vector3.z (Box3.min MoreExamples.roomBox) <> nan
  /\ Vector3.z (Box3.max MoreExamples.roomBox) <> nan
  /\ Room.isOutside MoreExamples.roomBox = false.
Proof.
  assert (N1 : Vector3.x (Box3.min MoreExamples.roomBox) <> nan)
    by (apply not_nan; reflexivity).
  assert (N2 : Vector3.x (Box3.max MoreExamples.roomBox) <> nan)
    by (apply not_nan; reflexivity).
  assert (N3 : Vector3.z (Box3.min MoreExamples.roomBox) <> nan)
    by (apply not_nan; reflexivity).
  assert (N4 : Vector3.z (Box3.max MoreExamples.roomBox) <> nan)
    by (apply not_nan; reflexivity).
  repeat (split; [assumption|]).
  apply (proj2 (room_limits_inclusive MoreExamples.roomBox N1 N2 N3 N4)).
  repeat split.
Defined.

Section Centring.

Variable setFromObject : Object3D.t -> Box3.t.

(** X6.  A product whose box is empty (an asset without geometry) is not
    moved horizontally by the centring: it keeps the x and z the asset came
    with and is put at y = 0, and that transform is the first snapshot. *)
Theorem product_without_geometry_keeps_place (gltfScene : Object3D.t)
  (s : Room.State) :
  Box3.isEmpty (setFromObject gltfScene) = true ->
  let s' := Room.loadProduct_onLoad setFromObject gltfScene s in
  let p := Vector3.mk (Vector3.x (Object3D.position gltfScene)) 0
             (Vector3.z (Object3D.position gltfScene)) in
  Room.currentModel s' = Some (Object3D.set_position gltfScene p)
  /\ Spec.lastKnownGood s' = (p, Object3D.rotation gltfScene).
Proof.
  intros He s' p.
  unfold s', Room.loadProduct_onLoad, Spec.lastKnownGood, Box3.getCenter.
  rewrite He. simpl. rewrite Euler_copy_eq.
  unfold Vector3.set_y, Vector3.sub, Vector3.set. simpl.
  rewrite !sub_zero. split; reflexivity.
Qed.

End Centring.

Lemma product_without_geometry_keeps_place_witness :
  Box3.isEmpty (MoreExamples.noGeometry MoreExamples.shiftedAsset) = true
  /\ Room.currentModel
       (Room.loadProduct_onLoad MoreExamples.noGeometry
          MoreExamples.shiftedAsset Room.init)
     = Some (Object3D.set_position MoreExamples.shiftedAsset
               (Vector3.mk 1.5 0 (-2))).
Proof.
  split; [reflexivity|].
  exact (proj1 (product_without_geometry_keeps_place MoreExamples.noGeometry
                  MoreExamples.shiftedAsset Room.init eq_refl)).
Defined.

(** * Further properties: gizmo modes and textures *)

Section PageProperties.

Variable setFromObject : Object3D.t -> Box3.t.

Lemma samePose_refl (b : Room.State) : Runs.samePose b b.
Proof. split; reflexivity. Qed.

Lemma samePose_trans (b1 b2 b3 : Room.State) :
  Runs.samePose b1 b2 -> Runs.samePose b2 b3 -> Runs.samePose b1 b3.
Proof. intros [A B] [C D]. split; congruence. Qed.

Lemma inStep_samePose (b b' : Room.State) :
  Runs.samePose b b' -> Runs.inStep b -> Runs.inStep b'.
Proof. intros [A B]. unfold Runs.inStep. rewrite A, B. auto. Qed.

(** A dispatched 'change' keeps a pose that is in step, and is one or no
    event of the listener. *)
Lemma dispatchChange_base (changed : bool) (s : RoomUI.State) :
  RoomUI.gizmo (RoomUI.dispatchChange setFromObject changed s) = RoomUI.gizmo s
  /\ RoomUI.materials (RoomUI.dispatchChange setFromObject changed s)
     = RoomUI.materials s
  /\ RoomUI.base (RoomUI.dispatchChange setFromObject changed s)
     = Room.run setFromObject (RoomUI.base s)
         (if changed then [Room.GizmoNotify] else []).
Proof. destruct changed; repeat split. Qed.

Lemma dispatchChange_pose (changed : bool) (s : RoomUI.State) :
  Runs.inStep (RoomUI.base s) ->
  Runs.samePose (RoomUI.base s)
    (RoomUI.base (RoomUI.dispatchChange setFromObject changed s)).
Proof.
  intros H. destruct changed; [|apply samePose_refl].
  simpl. apply notify_inStep. exact H.
Qed.

(** Runs of the listener's events compose. *)
Lemma room_run_app (b : Room.State) (es1 es2 : list Room.Event) :
  Room.run setFromObject (Room.run setFromObject b es1) es2
  = Room.run setFromObject b (es1 ++ es2).
Proof. symmetry. apply fold_left_app. Qed.

(** What an assignment to the controls does: the gizmo takes the new
    value, the materials stay, and the configurator sees at most one bare
    'change'. *)
Lemma assign_effect (g : RoomUI.Gizmo) (changed : bool) (s : RoomUI.State) :
  let s' := RoomUI.dispatchChange setFromObject changed (RoomUI.set_gizmo s g) in
  RoomUI.gizmo s' = g
  /\ RoomUI.materials s' = RoomUI.materials s
  /\ (exists es, RoomUI.base s' = Room.run setFromObject (RoomUI.base s) es)
  /\ (Runs.inStep (RoomUI.base s) ->
      Runs.samePose (RoomUI.base s) (RoomUI.base s')).
Proof.
  intros s'.
  destruct (dispatchChange_base changed (RoomUI.set_gizmo s g)) as (G & M & B).
  fold s' in G, M, B. repeat split.
  - exact G.
  - exact M.
  - eexists. exact B.
  - apply (dispatchChange_pose changed (RoomUI.set_gizmo s g)); assumption.
  - apply (dispatchChange_pose changed (RoomUI.set_gizmo s g)); assumption.
Qed.

(** The same for [setGizmoMode], with the axes it leaves shown. *)
Lemma setGizmoMode_effect (m : string) (s : RoomUI.State) :
  let s' := RoomUI.setGizmoMode setFromObject m s in
  let g := RoomUI.gizmo s in
  RoomUI.gizmo s'
  = (if String.eqb m "translate"
     then RoomUI.mkGizmo (RoomUI.object g) m true false true
     else if String.eqb m "rotate"
     then RoomUI.mkGizmo (RoomUI.object g) m false true false
     else RoomUI.mkGizmo (RoomUI.object g) m (RoomUI.showX g)
            (RoomUI.showY g) (RoomUI.showZ g))
  /\ RoomUI.materials s' = RoomUI.materials s
  /\ (exists es, RoomUI.base s' = Room.run setFromObject (RoomUI.base s) es)
  /\ (Runs.inStep (RoomUI.base s) ->
      Runs.samePose (RoomUI.base s) (RoomUI.base s')).
Proof.
  intros s' g. unfold s', RoomUI.setGizmoMode.
  set (s1 := RoomUI.assignMode setFromObject m s).
  destruct (assign_effect
              (RoomUI.mkGizmo (RoomUI.object g) m (RoomUI.showX g)
                 (RoomUI.showY g) (RoomUI.showZ g))
              (negb (String.eqb (RoomUI.mode g) m)) s)
    as (G1 & M1 & [es1 B1] & P1).
  change (RoomUI.dispatchChange setFromObject _ _) with s1 in G1, M1, B1, P1.
  assert (chain : forall (v1 v2 v3 : bool),
    let s4 := RoomUI.assignShowY setFromObject v3
                (RoomUI.assignShowZ setFromObject v2
                   (RoomUI.assignShowX setFromObject v1 s1)) in
    RoomUI.gizmo s4 = RoomUI.mkGizmo (RoomUI.object g) m v1 v3 v2
    /\ RoomUI.materials s4 = RoomUI.materials s
    /\ (exists es, RoomUI.base s4 = Room.run setFromObject (RoomUI.base s) es)
    /\ (Runs.inStep (RoomUI.base s) ->
        Runs.samePose (RoomUI.base s) (RoomUI.base s4))).
  { intros v1 v2 v3.
    set (s2 := RoomUI.assignShowX setFromObject v1 s1).
    set (s3 := RoomUI.assignShowZ setFromObject v2 s2).
    destruct (assign_effect
                (RoomUI.mkGizmo (RoomUI.object (RoomUI.gizmo s1))
                   (RoomUI.mode (RoomUI.gizmo s1)) v1
                   (RoomUI.showY (RoomUI.gizmo s1))
                   (RoomUI.showZ (RoomUI.gizmo s1)))
                (negb (Bool.eqb (RoomUI.showX (RoomUI.gizmo s1)) v1)) s1)
      as (G2 & M2 & [es2 B2] & P2).
    change (RoomUI.dispatchChange setFromObject _ _) with s2 in G2, M2, B2, P2.
    destruct (assign_effect
                (RoomUI.mkGizmo (RoomUI.object (RoomUI.gizmo s2))
                   (RoomUI.mode (RoomUI.gizmo s2))
                   (RoomUI.showX (RoomUI.gizmo s2))
                   (RoomUI.showY (RoomUI.gizmo s2)) v2)
                (negb (Bool.eqb (RoomUI.showZ (RoomUI.gizmo s2)) v2)) s2)
      as (G3 & M3 & [es3 B3] & P3).
    change (RoomUI.dispatchChange setFromObject _ _) with s3 in G3, M3, B3, P3.
    destruct (assign_effect
                (RoomUI.mkGizmo (RoomUI.object (RoomUI.gizmo s3))
                   (RoomUI.mode (RoomUI.gizmo s3))
                   (RoomUI.showX (RoomUI.gizmo s3)) v3
                   (RoomUI.showZ (RoomUI.gizmo s3)))
                (negb (Bool.eqb (RoomUI.showY (RoomUI.gizmo s3)) v3)) s3)
      as (G4 & M4 & [es4 B4] & P4).
    intros s4.
    change (RoomUI.dispatchChange setFromObject _ _) with s4 in G4, M4, B4, P4.
    split; [|split; [|split]].
    - rewrite G4, G3, G2, G1. reflexivity.
    - congruence.
    - eexists. rewrite B4, B3, B2, B1, !room_run_app. reflexivity.
    - intros H.
      pose proof (P1 H) as Q1.
      pose proof (P2 (inStep_samePose _ _ Q1 H)) as Q2.
      pose proof (P3 (inStep_samePose _ _ Q2 (inStep_samePose _ _ Q1 H))) as Q3.
      pose proof (P4 (inStep_samePose _ _ Q3
                        (inStep_samePose _ _ Q2 (inStep_samePose _ _ Q1 H))))
        as Q4.
      eapply samePose_trans; [exact Q1|].
      eapply samePose_trans; [exact Q2|].
      eapply samePose_trans; [exact Q3|exact Q4]. }
  destruct (String.eqb m "translate"); [apply chain|].
  destruct (String.eqb m "rotate"); [apply chain|].
  split; [exact G1|]. split; [exact M1|]. split; [eauto|exact P1].
Qed.

Lemma ui_visit_base (s : RoomUI.State) (child : Object3D.t) :
  RoomUI.base (RoomUI.visitRoomChild setFromObject s child)
  = Room.visitRoomChild setFromObject (RoomUI.base s) child
  /\ RoomUI.gizmo (RoomUI.visitRoomChild setFromObject s child)
     = RoomUI.gizmo s.
Proof. split; reflexivity. Qed.

Lemma ui_load_base (l : list Object3D.t) (s : RoomUI.State) :
  RoomUI.base (fold_left (RoomUI.visitRoomChild setFromObject) l s)
  = fold_left (Room.visitRoomChild setFromObject) l (RoomUI.base s)
  /\ RoomUI.gizmo (fold_left (RoomUI.visitRoomChild setFromObject) l s)
     = RoomUI.gizmo s.
Proof.
  revert s. induction l as [|c l IH]; intros s; [split; reflexivity|].
  simpl. destruct (IH (RoomUI.visitRoomChild setFromObject s c)) as [-> ->].
  split; reflexivity.
Qed.

Lemma retexture_base (id : nat) (t : RoomUI.Texture) (s : RoomUI.State) :
  RoomUI.base (RoomUI.retexture id t s) = RoomUI.base s
  /\ RoomUI.gizmo (RoomUI.retexture id t s) = RoomUI.gizmo s.
Proof.
  unfold RoomUI.retexture.
  destruct (RoomUI.materialOf id (RoomUI.materials s)); split; reflexivity.
Qed.

Lemma applyTexture_base (index : Z) (s : RoomUI.State) :
  (RoomUI.base (RoomUI.applyWallTexture index s) = RoomUI.base s
   /\ RoomUI.gizmo (RoomUI.applyWallTexture index s) = RoomUI.gizmo s)
  /\ (RoomUI.base (RoomUI.applyFloorTexture index s) = RoomUI.base s
      /\ RoomUI.gizmo (RoomUI.applyFloorTexture index s) = RoomUI.gizmo s).
Proof.
  unfold RoomUI.applyWallTexture, RoomUI.applyFloorTexture. split.
  - destruct (Room.wallMeshReference (RoomUI.base s));
      [|split; reflexivity].
    destruct (RoomUI.textureAt RoomUI.WALL_TEXTURES index);
      [apply retexture_base | split; reflexivity].
  - destruct (Room.floorMeshReference (RoomUI.base s));
      [|split; reflexivity].
    destruct (RoomUI.textureAt RoomUI.FLOOR_TEXTURES index);
      [apply retexture_base | split; reflexivity].
Qed.

(** The gizmo after the product has loaded. *)
Lemma loadProduct_effect (gltfScene : Object3D.t) (s : RoomUI.State) :
  let s' := RoomUI.loadProduct_onLoad setFromObject gltfScene s in
  RoomUI.gizmo s'
  = RoomUI.mkGizmo (Some (Object3D.id gltfScene)) "translate" true false true
  /\ RoomUI.materials s' = RoomUI.materials s
  /\ (exists es, RoomUI.base s' = Room.run setFromObject (RoomUI.base s) es).
Proof.
  intros s'. unfold s', RoomUI.loadProduct_onLoad.
  set (s1 := RoomUI.set_base s
               (Room.loadProduct_onLoad setFromObject gltfScene (RoomUI.base s))).
  set (s2 := RoomUI.assignObject setFromObject
               (Some (Object3D.id gltfScene)) s1).
  destruct (setGizmoMode_effect "translate" s2) as (G & M & [es B] & _).
  assert (H2 : RoomUI.gizmo s2
               = RoomUI.mkGizmo (Some (Object3D.id gltfScene))
                   (RoomUI.mode (RoomUI.gizmo s))
                   (RoomUI.showX (RoomUI.gizmo s))
                   (RoomUI.showY (RoomUI.gizmo s))
                   (RoomUI.showZ (RoomUI.gizmo s))
               /\ RoomUI.materials s2 = RoomUI.materials s
               /\ exists es, RoomUI.base s2
                    = Room.run setFromObject (RoomUI.base s)
                        (Room.ProductLoaded gltfScene :: es)).
  { unfold s2, RoomUI.assignObject.
    match goal with
    | |- context [RoomUI.dispatchChange _ ?c ?st] =>
        destruct (dispatchChange_base c st) as (G2 & M2 & B2);
        rewrite G2, M2, B2
    end.
    split; [reflexivity|]. split; [reflexivity|]. eexists. reflexivity. }
  destruct H2 as (G2 & M2 & [es2 B2]).
  split; [|split].
  - rewrite G, G2. reflexivity.
  - congruence.
  - eexists. rewrite B, B2, room_run_app. reflexivity.
Qed.

(** Every event of the page is, for the model, the snapshot and the
    obstacle, a run of events of the listener. *)
Lemma ui_step_base (s : RoomUI.State) (e : RoomUI.Event) :
  exists es,
    RoomUI.base (RoomUI.step setFromObject s e)
    = Room.run setFromObject (RoomUI.base s) es.
Proof.
  destruct e; simpl.
  - exists [Room.RoomLoaded room]. apply ui_load_base.
  - destruct (loadProduct_effect gltfScene s) as (_ & _ & H). exact H.
  - exists []. reflexivity.
  - exists [Room.GizmoDrag p r]. reflexivity.
  - exists [Room.GizmoNotify]. reflexivity.
  - exists []. apply applyTexture_base.
  - exists []. apply applyTexture_base.
  - destruct (setGizmoMode_effect m s) as (_ & _ & H & _). exact H.
Qed.

Lemma ui_run_base (s : RoomUI.State) (evs : list RoomUI.Event) :
  exists es,
    RoomUI.base (RoomUI.run setFromObject s evs)
    = Room.run setFromObject (RoomUI.base s) es.
Proof.
  revert s. induction evs as [|e evs IH]; intros s.
  - exists []. reflexivity.
  - change (RoomUI.run setFromObject s (e :: evs))
      with (RoomUI.run setFromObject (RoomUI.step setFromObject s e) evs).
    destruct (IH (RoomUI.step setFromObject s e)) as [es2 H2].
    destruct (ui_step_base s e) as [es1 H1].
    exists (es1 ++ es2). rewrite H2, H1. apply room_run_app.
Qed.

Lemma ui_run_inStep (evs : list RoomUI.Event) :
  Runs.inStep (RoomUI.base (RoomUI.run setFromObject RoomUI.init evs)).
Proof.
  destruct (ui_run_base RoomUI.init evs) as [es H].
  rewrite H. apply run_inStep. exact I.
Qed.

(** X7.  The whole page refines the listener's runs: whatever the loaders,
    the gizmo and the page's events do, the model, the snapshot and the
    obstacle of the state reached are those of some run of room loads,
    product loads, drags and bare changes; so the model carries the
    snapshot there too. *)
Theorem page_refines_listener (evs : list RoomUI.Event) :
  (exists es,
     RoomUI.base (RoomUI.run setFromObject RoomUI.init evs)
     = Room.run setFromObject Room.init es)
  /\ Runs.inStep (RoomUI.base (RoomUI.run setFromObject RoomUI.init evs)).
Proof.
  destruct (ui_run_base RoomUI.init evs) as [es H].
  split; [exists es; exact H|].
  rewrite H. apply run_inStep. exact I.
Qed.

End PageProperties.

Section PageInvariants.

Variable setFromObject : Object3D.t -> Box3.t.

Lemma page_event_pose (s : RoomUI.State) (e : RoomUI.Event) :
  Runs.isPageEvent e = true ->
  Runs.inStep (RoomUI.base s) ->
  Runs.samePose (RoomUI.base s)
    (RoomUI.base (RoomUI.step setFromObject s e)).
Proof.
  intros He H. destruct e; try discriminate He; simpl.
  - apply (dispatchChange_pose setFromObject true s H).
  - destruct (applyTexture_base index s) as [[-> _] _]. apply samePose_refl.
  - destruct (applyTexture_base index s) as [_ [-> _]]. apply samePose_refl.
  - destruct (setGizmoMode_effect setFromObject m s) as (_ & _ & _ & P).
    apply P, H.
Qed.

(** X8.  Hovering the gizmo, switching its mode and swapping a texture
    never move the product: in every state the page reaches, such an event
    leaves the model and the snapshot as they are, although each assignment
    to the controls makes the validator run. *)
Theorem page_events_keep_pose (evs : list RoomUI.Event) (e : RoomUI.Event) :
  Runs.isPageEvent e = true ->
  let s := RoomUI.run setFromObject RoomUI.init evs in
  Runs.samePose (RoomUI.base s)
    (RoomUI.base (RoomUI.step setFromObject s e)).
Proof.
  intros He s. apply page_event_pose; [exact He|].
  apply ui_run_inStep.
Qed.

Lemma drag_model_none (b : Room.State) (p : Vector3.t) (r : Euler.t) :
  Room.currentModel b = None ->
  Room.step setFromObject b (Room.GizmoDrag p r) = b.
Proof.
  intros H. simpl. unfold Room.gizmoWrite. rewrite H.
  apply onChange_no_model. exact H.
Qed.

Lemma axes_translate (o : option nat) :
  Runs.axesFollowMode (RoomUI.mkGizmo o "translate" true false true).
Proof.
  split; [|split].
  - intros _. repeat split.
  - discriminate.
  - left. repeat split.
Qed.

Lemma axes_rotate (o : option nat) :
  Runs.axesFollowMode (RoomUI.mkGizmo o "rotate" false true false).
Proof.
  split; [|split].
  - discriminate.
  - intros _. repeat split.
  - right. repeat split.
Qed.

Lemma ui_step_axes (s : RoomUI.State) (e : RoomUI.Event) :
  Runs.inStep (RoomUI.base s) ->
  (Room.currentModel (RoomUI.base s) <> None ->
   Runs.axesFollowMode (RoomUI.gizmo s)) ->
  Room.currentModel (RoomUI.base (RoomUI.step setFromObject s e)) <> None ->
  Runs.axesFollowMode (RoomUI.gizmo (RoomUI.step setFromObject s e)).
Proof.
  intros H K.
  destruct e; unfold RoomUI.step;
    cbn [RoomUI.base RoomUI.set_base RoomUI.gizmo RoomUI.set_gizmo
         RoomUI.dispatchChange].
  - destruct (ui_load_base setFromObject (traverse room) s) as [B G].
    unfold RoomUI.loadCustomRoom_onLoad. rewrite B, G.
    destruct (loadCustomRoom_keeps setFromObject room (RoomUI.base s))
      as [Hm _].
    unfold Room.loadCustomRoom_onLoad in Hm. rewrite Hm. exact K.
  - intros _.
    destruct (loadProduct_effect setFromObject gltfScene s) as (G & _).
    rewrite G. apply axes_translate.
  - exact K.
  - destruct (Room.currentModel (RoomUI.base s)) eqn:Hm.
    + intros _. apply K. discriminate.
    + rewrite (drag_model_none _ p r Hm). rewrite Hm. intros C.
      contradiction.
  - destruct (notify_inStep setFromObject (RoomUI.base s) H) as [-> _].
    exact K.
  - destruct (applyTexture_base index s) as [[-> ->] _]. exact K.
  - destruct (applyTexture_base index s) as [_ [-> ->]]. exact K.
  - destruct (setGizmoMode_effect setFromObject m s) as (G & _ & _ & P).
    destruct (P H) as [-> _]. rewrite G. intros C.
    destruct (String.eqb m "translate") eqn:Et.
    + apply String.eqb_eq in Et. subst m. apply axes_translate.
    + destruct (String.eqb m "rotate") eqn:Er.
      * apply String.eqb_eq in Er. subst m. apply axes_rotate.
      * apply String.eqb_neq in Et. apply String.eqb_neq in Er.
        destruct (K C) as (_ & _ & D).
        split; [|split]; simpl; [contradiction | contradiction | exact D].
Qed.

Lemma ui_run_axes (evs : list RoomUI.Event) :
  Room.currentModel
    (RoomUI.base (RoomUI.run setFromObject RoomUI.init evs)) <> None ->
  Runs.axesFollowMode (RoomUI.gizmo (RoomUI.run setFromObject RoomUI.init evs)).
Proof.
  induction evs as [|e evs IH] using rev_ind.
  - intros C. exfalso. apply C. reflexivity.
  - unfold RoomUI.run. rewrite fold_left_app. simpl.
    apply ui_step_axes; [|exact IH].
    apply ui_run_inStep.
Qed.

(** The mode and the axes of the gizmo after an event: those it had,
    unless the event asks for a mode; then the mode is the one asked, and
    the axes change for the two known modes alone. *)
Lemma ui_step_gizmo (s : RoomUI.State) (e : RoomUI.Event) :
  let g := RoomUI.gizmo s in
  let g' := RoomUI.gizmo (RoomUI.step setFromObject s e) in
  RoomUI.mode g'
  = match Runs.modeAsked e with Some m => m | None => RoomUI.mode g end
  /\ Runs.axes g'
     = match Runs.modeAsked e with
       | Some m =>
           if String.eqb m "translate" then (true, false, true)
           else if String.eqb m "rotate" then (false, true, false)
           else Runs.axes g
       | None => Runs.axes g
       end.
Proof.
  intros g g'. unfold g', g.
  destruct e; unfold RoomUI.step, Runs.modeAsked;
    cbn [RoomUI.base RoomUI.set_base RoomUI.gizmo RoomUI.set_gizmo
         RoomUI.dispatchChange].
  - destruct (ui_load_base setFromObject (traverse room) s) as [_ G].
    unfold RoomUI.loadCustomRoom_onLoad. rewrite G. split; reflexivity.
  - destruct (loadProduct_effect setFromObject gltfScene s) as (G & _).
    rewrite G. split; reflexivity.
  - split; reflexivity.
  - split; reflexivity.
  - split; reflexivity.
  - destruct (applyTexture_base index s) as [[_ ->] _]. split; reflexivity.
  - destruct (applyTexture_base index s) as [_ [_ ->]]. split; reflexivity.
  - destruct (setGizmoMode_effect setFromObject m s) as (G & _).
    rewrite G.
    destruct (String.eqb m "translate"); [split; reflexivity|].
    destruct (String.eqb m "rotate"); split; reflexivity.
Qed.

Lemma axesAfter_snoc (ms : list string) (m : string) :
  Runs.axesAfter (ms ++ [m])
  = if String.eqb m "translate" then (true, false, true)
    else if String.eqb m "rotate" then (false, true, false)
    else Runs.axesAfter ms.
Proof.
  unfold Runs.axesAfter. rewrite filter_app, rev_app_distr. simpl.
  unfold Runs.knownMode.
  destruct (String.eqb m "translate") eqn:Et; simpl.
  - rewrite Et. reflexivity.
  - destruct (String.eqb m "rotate"); simpl; [rewrite Et|]; reflexivity.
Qed.

(** X9.  The gizmo is in the mode asked last ('translate' at first, and
    again when the product loads), whatever that mode is.  Its axes are
    those of the last mode asked among 'translate' and 'rotate': x and z
    without y for the former, y alone for the latter, and all three as long
    as neither was asked; a mode other than these two is set and leaves the
    axes as they were.  So once a product is loaded the gizmo shows the
    horizontal axes alone or the vertical axis alone. *)
Theorem gizmo_axes_follow_mode (evs : list RoomUI.Event) :
  let s := RoomUI.run setFromObject RoomUI.init evs in
  RoomUI.mode (RoomUI.gizmo s) = last (Runs.modesAsked evs) "translate"%string
  /\ Runs.axes (RoomUI.gizmo s) = Runs.axesAfter (Runs.modesAsked evs)
  /\ (Room.currentModel (RoomUI.base s) <> None ->
      Runs.axesFollowMode (RoomUI.gizmo s)).
Proof.
  intros s. unfold s. split; [|split; [|apply ui_run_axes]].
  - induction evs as [|e evs IH] using rev_ind; [reflexivity|].
    unfold RoomUI.run. rewrite fold_left_app. simpl.
    destruct (ui_step_gizmo (RoomUI.run setFromObject RoomUI.init evs) e)
      as [M _].
    unfold RoomUI.run in M. rewrite M.
    unfold Runs.modesAsked. rewrite flat_map_app. simpl.
    fold (Runs.modesAsked evs). fold (RoomUI.run setFromObject RoomUI.init evs).
    destruct (Runs.modeAsked e) as [m|]; simpl.
    + rewrite last_last. reflexivity.
    + rewrite app_nil_r. exact IH.
  - induction evs as [|e evs IH] using rev_ind; [reflexivity|].
    unfold RoomUI.run. rewrite fold_left_app. simpl.
    destruct (ui_step_gizmo (RoomUI.run setFromObject RoomUI.init evs) e)
      as [_ A].
    unfold RoomUI.run in A. rewrite A.
    unfold Runs.modesAsked. rewrite flat_map_app. simpl.
    fold (Runs.modesAsked evs). fold (RoomUI.run setFromObject RoomUI.init evs).
    destruct (Runs.modeAsked e) as [m|]; simpl.
    + rewrite axesAfter_snoc, IH. reflexivity.
    + rewrite app_nil_r. exact IH.
Qed.

End PageInvariants.

Lemma page_events_keep_pose_witness :
  Runs.isPageEvent (RoomUI.SetGizmoMode "translate") = true
  /\ Runs.samePose
       (RoomUI.base
          (RoomUI.run Examples.cubeBox RoomUI.init MoreExamples.pageSession))
       (RoomUI.base
          (RoomUI.step Examples.cubeBox
             (RoomUI.run Examples.cubeBox RoomUI.init MoreExamples.pageSession)
             (RoomUI.SetGizmoMode "translate"))).
Proof.
  split; [reflexivity|].
  exact (page_events_keep_pose Examples.cubeBox MoreExamples.pageSession
           (RoomUI.SetGizmoMode "translate") eq_refl).
Defined.

Lemma gizmo_axes_follow_mode_witness :
  RoomUI.mode
    (RoomUI.gizmo
       (RoomUI.run Examples.cubeBox RoomUI.init MoreExamples.pageSession))
  = "scale"%string
  /\ Runs.axes
       (RoomUI.gizmo
          (RoomUI.run Examples.cubeBox RoomUI.init MoreExamples.pageSession))
     = (false, true, false).
Proof.
  destruct (gizmo_axes_follow_mode Examples.cubeBox MoreExamples.pageSession)
    as (M & A & _).
  split; [exact M | exact A].
Defined.

(** ** Textures *)

Lemma textureAt_none (textures : list RoomUI.Texture) (index : Z) :
  (index < 0)%Z \/ (Z.of_nat (List.length textures) <= index)%Z ->
  RoomUI.textureAt textures index = None.
Proof.
  intros H. unfold RoomUI.textureAt.
  destruct (Z.ltb_spec index 0) as [L|G]; [reflexivity|].
  apply nth_error_None. lia.
Qed.

Lemma textureAt_some (textures : list RoomUI.Texture) (index : Z) :
  (0 <= index < Z.of_nat (List.length textures))%Z ->
  exists t, RoomUI.textureAt textures index = Some t.
Proof.
  intros H. unfold RoomUI.textureAt.
  destruct (Z.ltb_spec index 0) as [L|G]; [lia|].
  destruct (nth_error textures (Z.to_nat index)) as [t|] eqn:E; [eauto|].
  apply nth_error_None in E. lia.
Qed.

(** X10.  A texture index that is negative or past the end of the list (3
    wall textures, 2 floor textures), and any index while the room has
    given no wall or floor mesh, makes the swap do nothing at all. *)
Theorem texture_swap_out_of_range (s : RoomUI.State) (index : Z) :
  ((index < 0)%Z \/ (3 <= index)%Z
     \/ Room.wallMeshReference (RoomUI.base s) = None ->
   RoomUI.applyWallTexture index s = s)
  /\ ((index < 0)%Z \/ (2 <= index)%Z
        \/ Room.floorMeshReference (RoomUI.base s) = None ->
      RoomUI.applyFloorTexture index s = s).
Proof.
  split; intros H.
  - unfold RoomUI.applyWallTexture.
    destruct (Room.wallMeshReference (RoomUI.base s)) as [w|]; [|reflexivity].
    rewrite textureAt_none; [reflexivity|].
    simpl. destruct H as [H|[H|H]]; [lia | lia | discriminate H].
  - unfold RoomUI.applyFloorTexture.
    destruct (Room.floorMeshReference (RoomUI.base s)) as [f|]; [|reflexivity].
    rewrite textureAt_none; [reflexivity|].
    simpl. destruct H as [H|[H|H]]; [lia | lia | discriminate H].
Qed.

Lemma texture_swap_out_of_range_witness :
  (3 <= 3)%Z
  /\ RoomUI.applyWallTexture 3
       (RoomUI.run Examples.cubeBox RoomUI.init MoreExamples.pageSession)
     = RoomUI.run Examples.cubeBox RoomUI.init MoreExamples.pageSession.
Proof.
  assert (H : (3 <= 3)%Z) by lia.
  split; [exact H|].
  exact (proj1 (texture_swap_out_of_range
                  (RoomUI.run Examples.cubeBox RoomUI.init
                     MoreExamples.pageSession) 3)
           (or_intror (or_introl H))).
Defined.

Section TextureInvariants.

Variable setFromObject : Object3D.t -> Box3.t.

Lemma materialOf_cons (i j : nat) (m : RoomUI.Material) (ms : RoomUI.Materials) :
  RoomUI.materialOf i ((j, m) :: ms)
  = if Nat.eqb j i then Some m else RoomUI.materialOf i ms.
Proof. reflexivity. Qed.

Lemma materialOf_grows (i j : nat) (m : RoomUI.Material) (ms : RoomUI.Materials) :
  RoomUI.materialOf i ms <> None ->
  RoomUI.materialOf i ((j, m) :: ms) <> None.
Proof.
  intros H. rewrite materialOf_cons. destruct (Nat.eqb j i);
    [discriminate | exact H].
Qed.

Lemma onChange_references (b : Room.State) :
  Room.wallMeshReference (Room.onChange setFromObject b)
  = Room.wallMeshReference b
  /\ Room.floorMeshReference (Room.onChange setFromObject b)
     = Room.floorMeshReference b.
Proof.
  unfold Room.onChange.
  destruct (Room.currentModel b); [|split; reflexivity]. simpl.
  match goal with |- context [if ?c then _ else _] => destruct c end;
    split; reflexivity.
Qed.

Lemma room_step_references (b : Room.State) (e : Room.Event) :
  (forall room, e <> Room.RoomLoaded room) ->
  Room.wallMeshReference (Room.step setFromObject b e)
  = Room.wallMeshReference b
  /\ Room.floorMeshReference (Room.step setFromObject b e)
     = Room.floorMeshReference b.
Proof.
  intros H. destruct e; simpl.
  - exfalso. apply (H room). reflexivity.
  - split; reflexivity.
  - split; reflexivity.
  - destruct (onChange_references (Room.gizmoWrite p r b)) as [-> ->].
    unfold Room.gizmoWrite. destruct (Room.currentModel b); split; reflexivity.
  - apply onChange_references.
Qed.

Lemma dispatch_references (c : bool) (s : RoomUI.State) :
  Runs.referencesTextured (RoomUI.base s) (RoomUI.materials s) ->
  Runs.referencesTextured
    (RoomUI.base (RoomUI.dispatchChange setFromObject c s))
    (RoomUI.materials (RoomUI.dispatchChange setFromObject c s)).
Proof.
  destruct c; [|auto]. simpl. unfold Runs.referencesTextured.
  destruct (onChange_references (RoomUI.base s)) as [-> ->]. auto.
Qed.

Lemma setGizmoMode_references (m : string) (s : RoomUI.State) :
  Runs.referencesTextured (RoomUI.base s) (RoomUI.materials s) ->
  Runs.referencesTextured
    (RoomUI.base (RoomUI.setGizmoMode setFromObject m s))
    (RoomUI.materials (RoomUI.setGizmoMode setFromObject m s)).
Proof.
  intros H. unfold RoomUI.setGizmoMode.
  assert (H1 : Runs.referencesTextured
                 (RoomUI.base (RoomUI.assignMode setFromObject m s))
                 (RoomUI.materials (RoomUI.assignMode setFromObject m s)))
    by (apply dispatch_references; exact H).
  destruct (String.eqb m "translate");
    [|destruct (String.eqb m "rotate"); [|exact H1]];
    do 3 (apply dispatch_references); exact H1.
Qed.

Lemma visit_references (s : RoomUI.State) (child : Object3D.t) :
  Runs.referencesTextured (RoomUI.base s) (RoomUI.materials s) ->
  Runs.referencesTextured
    (RoomUI.base (RoomUI.visitRoomChild setFromObject s child))
    (RoomUI.materials (RoomUI.visitRoomChild setFromObject s child)).
Proof.
  intros [Hw Hf]. unfold RoomUI.visitRoomChild. simpl.
  unfold Runs.referencesTextured.
  rewrite visitRoomChild_wall, visitRoomChild_floor.
  destruct (Object3D.isMesh child && includes (Object3D.name child) "Wall");
    destruct (Object3D.isMesh child && includes (Object3D.name child) "Floor");
    split; intros o E; try (injection E as <-);
    rewrite ?materialOf_cons, ?Nat.eqb_refl;
    try discriminate;
    repeat (apply materialOf_grows); auto.
Qed.

Lemma retexture_references (id : nat) (t : RoomUI.Texture) (s : RoomUI.State) :
  Runs.referencesTextured (RoomUI.base s) (RoomUI.materials s) ->
  Runs.referencesTextured (RoomUI.base (RoomUI.retexture id t s))
    (RoomUI.materials (RoomUI.retexture id t s)).
Proof.
  intros [Hw Hf]. unfold RoomUI.retexture.
  destruct (RoomUI.materialOf id (RoomUI.materials s)); [|split; assumption].
  split; intros o E; simpl; apply materialOf_grows; auto.
Qed.

Lemma ui_step_references (s : RoomUI.State) (e : RoomUI.Event) :
  Runs.referencesTextured (RoomUI.base s) (RoomUI.materials s) ->
  Runs.referencesTextured (RoomUI.base (RoomUI.step setFromObject s e))
    (RoomUI.materials (RoomUI.step setFromObject s e)).
Proof.
  intros H. destruct e; unfold RoomUI.step.
  - unfold RoomUI.loadCustomRoom_onLoad.
    generalize (traverse room) as l. intros l. revert s H.
    induction l as [|c l IH]; intros s H; [exact H|].
    simpl. apply IH, visit_references, H.
  - unfold RoomUI.loadProduct_onLoad.
    apply setGizmoMode_references. unfold RoomUI.assignObject.
    apply dispatch_references. exact H.
  - exact H.
  - simpl. unfold Runs.referencesTextured.
    destruct (room_step_references (RoomUI.base s) (Room.GizmoDrag p r))
      as [Ew Ef]; [discriminate|].
    simpl in Ew, Ef. rewrite Ew, Ef. exact H.
  - apply dispatch_references, H.
  - unfold RoomUI.applyWallTexture.
    destruct (Room.wallMeshReference (RoomUI.base s)); [|exact H].
    destruct (RoomUI.textureAt RoomUI.WALL_TEXTURES index); [|exact H].
    apply retexture_references, H.
  - unfold RoomUI.applyFloorTexture.
    destruct (Room.floorMeshReference (RoomUI.base s)); [|exact H].
    destruct (RoomUI.textureAt RoomUI.FLOOR_TEXTURES index); [|exact H].
    apply retexture_references, H.
  - apply setGizmoMode_references, H.
Qed.

Lemma ui_run_references (evs : list RoomUI.Event) :
  let s := RoomUI.run setFromObject RoomUI.init evs in
  Runs.referencesTextured (RoomUI.base s) (RoomUI.materials s).
Proof.
  intros s. unfold s. induction evs as [|e evs IH] using rev_ind.
  - split; intros o E; discriminate E.
  - unfold RoomUI.run. rewrite fold_left_app. simpl.
    apply ui_step_references, IH.
Qed.

End TextureInvariants.

Lemma retexture_effect (id : nat) (t : RoomUI.Texture) (s : RoomUI.State)
  (old : RoomUI.Material) :
  RoomUI.materialOf id (RoomUI.materials s) = Some old ->
  let s' := RoomUI.retexture id t s in
  RoomUI.materialOf id (RoomUI.materials s')
  = Some (RoomUI.mkMaterial (Some t) (S (RoomUI.version old)))
  /\ (forall j, j <> id ->
        RoomUI.materialOf j (RoomUI.materials s')
        = RoomUI.materialOf j (RoomUI.materials s))
  /\ RoomUI.base s' = RoomUI.base s
  /\ RoomUI.gizmo s' = RoomUI.gizmo s.
Proof.
  intros H s'. unfold s', RoomUI.retexture. rewrite H. simpl.
  rewrite Nat.eqb_refl. repeat split.
  intros j Hj. destruct (Nat.eqb_spec id j); [congruence | reflexivity].
Qed.

Section TextureSwap.

Variable setFromObject : Object3D.t -> Box3.t.

(** X11.  In every state the page reaches, a swap with an index within the
    list changes the material of the one referenced mesh: its map becomes
    the texture at that index and its version goes up by one.  The material
    of every other mesh, other walls included, the model, the snapshot and
    the gizmo stay as they are.  The same holds of the floor. *)
Theorem texture_swap_in_range (evs : list RoomUI.Event) (index : Z) :
  let s := RoomUI.run setFromObject RoomUI.init evs in
  (forall w, Room.wallMeshReference (RoomUI.base s) = Some w ->
     (0 <= index < 3)%Z ->
     exists old t,
       RoomUI.materialOf (Object3D.id w) (RoomUI.materials s) = Some old
       /\ nth_error RoomUI.WALL_TEXTURES (Z.to_nat index) = Some t
       /\ let s' := RoomUI.applyWallTexture index s in
          RoomUI.materialOf (Object3D.id w) (RoomUI.materials s')
          = Some (RoomUI.mkMaterial (Some t) (S (RoomUI.version old)))
          /\ (forall j, j <> Object3D.id w ->
                RoomUI.materialOf j (RoomUI.materials s')
                = RoomUI.materialOf j (RoomUI.materials s))
          /\ RoomUI.base s' = RoomUI.base s
          /\ RoomUI.gizmo s' = RoomUI.gizmo s)
  /\ (forall f, Room.floorMeshReference (RoomUI.base s) = Some f ->
        (0 <= index < 2)%Z ->
        exists old t,
          RoomUI.materialOf (Object3D.id f) (RoomUI.materials s) = Some old
          /\ nth_error RoomUI.FLOOR_TEXTURES (Z.to_nat index) = Some t
          /\ let s' := RoomUI.applyFloorTexture index s in
             RoomUI.materialOf (Object3D.id f) (RoomUI.materials s')
             = Some (RoomUI.mkMaterial (Some t) (S (RoomUI.version old)))
             /\ (forall j, j <> Object3D.id f ->
                   RoomUI.materialOf j (RoomUI.materials s')
                   = RoomUI.materialOf j (RoomUI.materials s))
             /\ RoomUI.base s' = RoomUI.base s
             /\ RoomUI.gizmo s' = RoomUI.gizmo s).
Proof.
  intros s. destruct (ui_run_references setFromObject evs) as [Hw Hf].
  fold s in Hw, Hf. split.
  - intros w Ew Hi.
    destruct (RoomUI.materialOf (Object3D.id w) (RoomUI.materials s))
      as [old|] eqn:Eo; [|exfalso; exact (Hw w Ew Eo)].
    destruct (textureAt_some RoomUI.WALL_TEXTURES index Hi) as [t Et].
    exists old, t. split; [reflexivity|]. split.
    + unfold RoomUI.textureAt in Et.
      destruct (Z.ltb_spec index 0); [lia | exact Et].
    + unfold RoomUI.applyWallTexture. rewrite Ew, Et.
      apply retexture_effect. exact Eo.
  - intros f Ef Hi.
    destruct (RoomUI.materialOf (Object3D.id f) (RoomUI.materials s))
      as [old|] eqn:Eo; [|exfalso; exact (Hf f Ef Eo)].
    destruct (textureAt_some RoomUI.FLOOR_TEXTURES index Hi) as [t Et].
    exists old, t. split; [reflexivity|]. split.
    + unfold RoomUI.textureAt in Et.
      destruct (Z.ltb_spec index 0); [lia | exact Et].
    + unfold RoomUI.applyFloorTexture. rewrite Ef, Et.
      apply retexture_effect. exact Eo.
Qed.

End TextureSwap.

Lemma texture_swap_in_range_witness :
  Room.wallMeshReference
    (RoomUI.base
       (RoomUI.run Examples.cubeBox RoomUI.init MoreExamples.pageSession))
  = Some MoreExamples.wallMesh
  /\ (0 <= 2 < 3)%Z
  /\ exists old t,
       RoomUI.materialOf 11
         (RoomUI.materials
            (RoomUI.run Examples.cubeBox RoomUI.init MoreExamples.pageSession))
       = Some old
       /\ nth_error RoomUI.WALL_TEXTURES (Z.to_nat 2) = Some t
       /\ RoomUI.materialOf 11
            (RoomUI.materials
               (RoomUI.applyWallTexture 2
                  (RoomUI.run Examples.cubeBox RoomUI.init
                     MoreExamples.pageSession)))
          = Some (RoomUI.mkMaterial (Some t) (S (RoomUI.version old))).
Proof.
  assert (Hw : Room.wallMeshReference
                 (RoomUI.base
                    (RoomUI.run Examples.cubeBox RoomUI.init
                       MoreExamples.pageSession))
               = Some MoreExamples.wallMesh) by (vm_compute; reflexivity).
  assert (Hi : (0 <= 2 < 3)%Z) by lia.
  split; [exact Hw|]. split; [exact Hi|].
  destruct (proj1 (texture_swap_in_range Examples.cubeBox
                     MoreExamples.pageSession 2)
              MoreExamples.wallMesh Hw Hi) as (old & t & Ho & Ht & Hs & _).
  exists old, t. split; [exact Ho|]. split; [exact Ht|]. exact Hs.
Defined.

(** * Further properties of the session with pinch and twist *)

Section FurtherSessions.

Variable atan2 : float -> float -> float.
Variables cos sin asin : float -> float.

Ltac split_cases :=
  repeat match goal with
         | |- context [match ?x with _ => _ end] =>
             lazymatch x with
             | context [match _ with _ => _ end] => fail
             | _ => destruct x
             end
         end.

Ltac split_cases_simpl :=
  repeat (match goal with
          | |- context [match ?x with _ => _ end] =>
              lazymatch x with
              | context [match _ with _ => _ end] => fail
              | _ => destruct x
              end
          end; simpl).

Section SessionProperties.

(** The two gesture flags after an event. *)
Lemma AR_step_flags (s : AR.State) (e : AR.Event) :
  (AR.isDragging (AR.step atan2 cos sin asin s e), AR.isTwoFinger
      (AR.step atan2 cos sin asin s e))
  = match e with
    | AR.TouchStart touches =>
        match AR.currentModel s, touches with
        | Some _, [_] => (true, false)
        | Some _, [_; _] => (false, true)
        | _, _ => (AR.isDragging s, AR.isTwoFinger s)
        end
    | AR.Timeout =>
        match AR.pendingTimeouts s with
        | O => (AR.isDragging s, AR.isTwoFinger s)
        | S _ => (false, false)
        end
    | _ => (AR.isDragging s, AR.isTwoFinger s)
    end.
Proof.
  destruct e; simpl;
    unfold AR.onSelect, AR.touchstart, AR.touchmove, AR.onTimeout, AR.render,
      AR.reticleLogic, AR.dragLogic, AR.requestSources, AR.shouldShowReticle;
    destruct s; simpl; split_cases; reflexivity.
Qed.

(** X12.  The two gesture flags are never up together: in every state the
    session reaches, [isDragging] and [isTwoFinger] are not both true. *)
Theorem gesture_flags_exclusive (evs : list AR.Event) :
  AR.isDragging (AR.run atan2 cos sin asin AR.init evs)
  && AR.isTwoFinger (AR.run atan2 cos sin asin AR.init evs) = false.
Proof.
  induction evs as [|e evs IH] using rev_ind;
    [reflexivity|].
  unfold AR.run. rewrite fold_left_app. simpl.
  fold (AR.run atan2 cos sin asin AR.init evs).
  pose proof (AR_step_flags (AR.run atan2 cos sin asin AR.init evs) e) as F.
  pose proof (f_equal fst F) as F1. pose proof (f_equal snd F) as F2.
  cbn [fst snd] in F1, F2. rewrite F1, F2. clear F F1 F2.
  destruct e; try exact IH.
  - destruct (AR.currentModel (AR.run atan2 cos sin asin AR.init evs));
      [|exact IH].
    destruct touches as [|t0 [|t1 [|t2 ts]]]; try exact IH; reflexivity.
  - destruct (AR.pendingTimeouts (AR.run atan2 cos sin asin AR.init evs));
      [exact IH | reflexivity].
Qed.

(** The latch after an event. *)
Lemma AR_step_requested (s : AR.State) (e : AR.Event) :
  AR.hitTestSourceRequested (AR.step atan2 cos sin asin s e)
  = match e with
    | AR.SessionEnd => false
    | AR.AnimationFrame (Some _) true => true
    | _ => AR.hitTestSourceRequested s
    end.
Proof.
  destruct e; simpl;
    unfold AR.onSelect, AR.touchstart, AR.touchmove, AR.onTimeout, AR.render,
      AR.reticleLogic, AR.dragLogic, AR.requestSources, AR.shouldShowReticle;
    destruct s; simpl; split_cases; reflexivity.
Qed.

Lemma requestCount_bound (s : AR.State) (evs : list AR.Event) :
  Runs.requestCount atan2 cos sin asin s evs
  <= (if AR.hitTestSourceRequested s then 0 else 1)
     + List.length (filter Runs.isSessionEnd evs).
Proof.
  revert s. induction evs as [|e evs IH]; intros s; simpl; [lia|].
  specialize (IH (AR.step atan2 cos sin asin s e)).
  rewrite AR_step_requested in IH.
  unfold Runs.requestsSources.
  destruct e; simpl in *; try lia;
    try (destruct (AR.hitTestSourceRequested s); simpl; lia).
  destruct frame as [f|], isPresenting,
    (AR.hitTestSourceRequested s); simpl in *; lia.
Qed.

(** X13.  The hit-test sources are requested at most once per session: over
    any run from the start, the number of frames that issue the request is
    at most one more than the number of session ends, however many frames
    pass before a grant arrives. *)
Theorem sources_requested_once_per_session (evs : list AR.Event) :
  Runs.requestCount atan2 cos sin asin AR.init evs
  <= 1 + List.length (filter Runs.isSessionEnd evs).
Proof. apply (requestCount_bound AR.init evs). Qed.

End SessionProperties.

Section Placement.

Ltac unfold_callbacks :=
  unfold AR.onSelect, AR.touchstart, AR.touchmove, AR.touchend, AR.onTimeout,
    AR.render, AR.reticleLogic, AR.dragLogic, AR.requestSources,
    AR.shouldShowReticle, AR.onSessionEnd, AR.onGLTFLoaded.

(** Without a template no event but its arrival places anything. *)
Lemma step_without_template (s : AR.State) (e : AR.Event) :
  Runs.isGLTFLoaded e = false ->
  AR.loadedGLTF s = None /\ AR.currentModel s = None /\ AR.scene s = [] ->
  AR.loadedGLTF (AR.step atan2 cos sin asin s e) = None
  /\ AR.currentModel (AR.step atan2 cos sin asin s e) = None
  /\ AR.scene (AR.step atan2 cos sin asin s e) = [].
Proof.
  intros He (H1 & H2 & H3). destruct s. simpl in H1, H2, H3. subst.
  destruct e; try discriminate He; simpl; unfold_callbacks; simpl;
    split_cases_simpl; auto.
Qed.

(** Without a viewer hit-test source the reticle stays hidden and nothing is
    placed. *)
Lemma step_without_source (s : AR.State) (e : AR.Event) :
  Runs.isGranted e = false ->
  AR.hitTestSource s = None /\ visible (AR.reticle s) = false
  /\ AR.currentModel s = None /\ AR.scene s = [] ->
  AR.hitTestSource (AR.step atan2 cos sin asin s e) = None
  /\ visible (AR.reticle (AR.step atan2 cos sin asin s e)) = false
  /\ AR.currentModel (AR.step atan2 cos sin asin s e) = None
  /\ AR.scene (AR.step atan2 cos sin asin s e) = [].
Proof.
  intros He (H1 & H2 & H3 & H4). destruct s as [? ? [mx vis] ? ? ? ? ? ? ? ? ? ? ? ? ?].
  simpl in H1, H2, H3, H4. subst.
  destruct e; try discriminate He; simpl; unfold_callbacks; simpl;
    split_cases_simpl; auto.
Qed.

Lemma run_without_template (evs : list AR.Event) (s : AR.State) :
  forallb (fun e => negb (Runs.isGLTFLoaded e)) evs = true ->
  AR.loadedGLTF s = None /\ AR.currentModel s = None /\ AR.scene s = [] ->
  AR.currentModel (AR.run atan2 cos sin asin s evs) = None
  /\ AR.scene (AR.run atan2 cos sin asin s evs) = [].
Proof.
  revert s. induction evs as [|e evs IH]; intros s Hall H.
  - simpl. tauto.
  - simpl in Hall. apply andb_prop in Hall. destruct Hall as [He Hall].
    apply negb_true_iff in He. simpl.
    apply IH; [exact Hall|]. apply step_without_template; assumption.
Qed.

Lemma run_without_source (evs : list AR.Event) (s : AR.State) :
  forallb (fun e => negb (Runs.isGranted e)) evs = true ->
  AR.hitTestSource s = None /\ visible (AR.reticle s) = false
  /\ AR.currentModel s = None /\ AR.scene s = [] ->
  AR.currentModel (AR.run atan2 cos sin asin s evs) = None
  /\ AR.scene (AR.run atan2 cos sin asin s evs) = [].
Proof.
  revert s. induction evs as [|e evs IH]; intros s Hall H.
  - simpl. tauto.
  - simpl in Hall. apply andb_prop in Hall. destruct Hall as [He Hall].
    apply negb_true_iff in He. simpl.
    apply IH; [exact Hall|]. apply step_without_source; assumption.
Qed.

(** X14.  Nothing is placed before both the template has loaded and the
    viewer hit-test source has been granted: a run from the start in which
    the template never arrives, or in which the source is never granted,
    ends with no current model and no model in the scene, whatever selects,
    touches and frames it contains. *)
Theorem nothing_placed_without_template_or_source (evs : list AR.Event) :
  forallb (fun e => negb (Runs.isGLTFLoaded e)) evs = true
  \/ forallb (fun e => negb (Runs.isGranted e)) evs = true ->
  AR.currentModel (AR.run atan2 cos sin asin AR.init evs) = None
  /\ AR.scene (AR.run atan2 cos sin asin AR.init evs) = [].
Proof.
  intros [H|H].
  - apply run_without_template; [exact H|]. repeat split.
  - apply run_without_source; [exact H|]. repeat split.
Qed.

End Placement.

(** ** The reticle after a placement *)

(** No point is farther than the threshold from itself, also when a
    coordinate is infinite or NaN. *)
Lemma distance_self (p : Vector3.t) :
  (0.6 <? Vector3.distanceTo p p)%float = false
  /\ (0.5 <? Vector3.distanceTo p p)%float = false.
Proof.
  destruct p as [x y z].
  unfold Vector3.distanceTo, Vector3.distanceToSquared, Math.sqrt. simpl.
  destruct (sub_diag x) as [-> | ->], (sub_diag y) as [-> | ->],
    (sub_diag z) as [-> | ->]; split; reflexivity.
Qed.

Lemma set_position_position (m : Object3D.t) (p : Vector3.t) :
  Object3D.position (Object3D.set_position m p) = p.
Proof. destruct m. reflexivity. Qed.

Lemma AR_render_session (frame : option XRFrame) (p : bool) (s : AR.State) :
  AR.hitTestSource (AR.stateOf (AR.render frame p s)) = AR.hitTestSource s
  /\ AR.loadedGLTF (AR.stateOf (AR.render frame p s)) = AR.loadedGLTF s
  /\ AR.isDragging (AR.stateOf (AR.render frame p s)) = AR.isDragging s
  /\ (AR.isDragging s = false ->
      AR.currentModel (AR.stateOf (AR.render frame p s)) = AR.currentModel s).
Proof.
  unfold AR.render, AR.reticleLogic, AR.dragLogic, AR.requestSources,
    AR.shouldShowReticle.
  destruct s as [? ? ? ? ? ? ? ? ? dragging twoFinger ? ? ? ? ?].
  destruct dragging, twoFinger; simpl; split_cases_simpl; repeat split;
    try reflexivity; intros H; try discriminate H; reflexivity.
Qed.

Lemma AR_onSelect_source (s : AR.State) :
  AR.hitTestSource (AR.onSelect atan2 cos sin asin s) = AR.hitTestSource s.
Proof. unfold AR.onSelect. destruct s. simpl. split_cases; reflexivity. Qed.

Lemma AR_onSelect_position (s : AR.State) (template : Object3D.t) :
  AR.isDragging s = false ->
  visible (AR.reticle s) = true ->
  AR.loadedGLTF s = Some template ->
  exists m, AR.currentModel (AR.onSelect atan2 cos sin asin s) = Some m
            /\ Object3D.position m
               = Spec.matrixPosition (matrix (AR.reticle s)).
Proof.
  intros Hd Hv Hl. destruct (AR.currentModel s) as [m|] eqn:Hm.
  - destruct (onSelect_placed atan2 cos sin asin s template m Hd Hv Hl Hm) as
    (E & _).
    eexists. split; [exact E|]. apply set_position_position.
  - destruct (onSelect_unplaced atan2 cos sin asin s template Hd Hv Hl Hm) as
    (E & _).
    eexists. split; [exact E|]. reflexivity.
Qed.

Section ReticleAfterSelect.

(** X15.  Placing hides the reticle: with the template loaded, the viewer
    source granted and no drag under way, a frame, a select and a second
    frame with the same hit pose leave the reticle hidden -- the model is
    then at the reticle or, when the select changed nothing, was already
    within the threshold. *)
Theorem reticle_hidden_after_select (s : AR.State) (f : XRFrame)
  (hit : XRHitTestResult) (rest : list XRHitTestResult) (pose : list float)
  (src : XRHitTestSource) (template : Object3D.t) :
  AR.hitTestSource s = Some src ->
  AR.loadedGLTF s = Some template ->
  AR.isDragging s = false ->
  getHitTestResults f = hit :: rest ->
  getPose hit = Some pose ->
  visible (AR.reticle
             (AR.run atan2 cos sin asin s
                [AR.AnimationFrame (Some f) true; AR.Select;
                 AR.AnimationFrame (Some f) true]))
  = false.
Proof.
  intros Hsrc Hl Hd Hhits Hpose.
  change (visible
            (AR.reticle
               (AR.stateOf
                  (AR.render (Some f) true
                     (AR.onSelect atan2 cos sin asin
                         (AR.stateOf (AR.render (Some f) true s))))))
          = false).
  pose proof (AR_render_reticle s f hit rest pose src Hsrc Hhits Hpose) as R1.
  destruct (AR_render_session (Some f) true s) as (K1 & K2 & K3 & K4).
  specialize (K4 Hd).
  set (s1 := AR.stateOf (AR.render (Some f) true s)) in *.
  assert (Hsrc2 : AR.hitTestSource (AR.onSelect atan2 cos sin asin s1)
      = Some src)
    by (rewrite AR_onSelect_source, K1; exact Hsrc).
  rewrite (AR_render_reticle
      (AR.onSelect atan2 cos sin asin s1) f hit rest pose src
             Hsrc2 Hhits Hpose).
  simpl. destruct (visible (AR.reticle s1)) eqn:Hv.
  - destruct (AR_onSelect_position s1 template) as (m & Em & Pm);
      [congruence | exact Hv | congruence |].
    rewrite Em, Pm, R1. simpl.
    change (Spec.matrixPosition
              (Matrix4.fromArray (matrix (AR.reticle s)) pose))
      with (Spec.posePosition pose).
    apply distance_self.
  - rewrite (onSelect_noop atan2 cos sin asin s1) by (right; left; exact Hv).
    rewrite K4. rewrite R1 in Hv. simpl in Hv. exact Hv.
Qed.

End ReticleAfterSelect.

(** ** What a gesture leaves alone *)

Section GestureFrames.

Ltac unfold_callbacks :=
  unfold AR.onSelect, AR.touchstart, AR.touchmove, AR.touchend, AR.onTimeout,
    AR.render, AR.reticleLogic, AR.dragLogic, AR.requestSources,
    AR.shouldShowReticle, AR.onSessionEnd, AR.onGLTFLoaded.

Lemma attitude_set_position (m : Object3D.t) (p : Vector3.t) :
  Runs.attitude (Object3D.set_position m p) = Runs.attitude m.
Proof. destruct m. reflexivity. Qed.

(** With [isTwoFinger] down, no event but a 'touchstart' raises it or
    changes the model's number, rotation or scale. *)
Lemma step_keeps_attitude (s : AR.State) (e : AR.Event) (m : Object3D.t) :
  Runs.isTouchStart e = false ->
  AR.isTwoFinger s = false ->
  AR.currentModel s = Some m ->
  AR.isTwoFinger (AR.step atan2 cos sin asin s e) = false
  /\ exists m', AR.currentModel (AR.step atan2 cos sin asin s e) = Some m'
                /\ Runs.attitude m' = Runs.attitude m.
Proof.
  intros He H2 Hm.
  destruct s as [? ? ? ? ? ? ? ? ? dragging twoFinger ? ? ? ? ?].
  simpl in H2, Hm. subst.
  destruct e; try discriminate He; destruct dragging; simpl;
    unfold_callbacks; simpl; split_cases_simpl;
    (split; [reflexivity|]); eexists; (split; [reflexivity|]);
    try reflexivity; apply attitude_set_position.
Qed.

Lemma run_keeps_attitude (evs : list AR.Event) (s : AR.State)
  (m : Object3D.t) :
  forallb (fun e => negb (Runs.isTouchStart e)) evs = true ->
  AR.isTwoFinger s = false ->
  AR.currentModel s = Some m ->
  exists m', AR.currentModel (AR.run atan2 cos sin asin s evs) = Some m'
             /\ Runs.attitude m' = Runs.attitude m.
Proof.
  revert s m. induction evs as [|e evs IH]; intros s m Hall H2 Hm.
  - exists m. split; [exact Hm | reflexivity].
  - simpl in Hall. apply andb_prop in Hall. destruct Hall as [He Hall].
    apply negb_true_iff in He.
    destruct (step_keeps_attitude s e m He H2 Hm) as (H2' & m1 & Hm1 & A1).
    destruct (IH (AR.step atan2 cos sin asin s e) m1 Hall H2' Hm1) as
      (m' & Hm' & A').
    exists m'. split; [exact Hm' | congruence].
Qed.

(** X16.  A one-finger gesture moves the model and nothing else: after a
    'touchstart' with one touch on a placed model, no run of moves, frames,
    selects, timers and session events changes the model's number, rotation
    or scale, until the next 'touchstart'. *)
Theorem one_finger_keeps_attitude (s : AR.State) (m : Object3D.t)
  (a : Touch) (evs : list AR.Event) :
  AR.currentModel s = Some m ->
  forallb (fun e => negb (Runs.isTouchStart e)) evs = true ->
  exists m',
    AR.currentModel (AR.run atan2 cos sin asin (AR.touchstart atan2 [a] s) evs)
      = Some m'
    /\ Runs.attitude m' = Runs.attitude m.
Proof.
  intros Hm Hall. apply run_keeps_attitude; [exact Hall| |];
    unfold AR.touchstart; rewrite Hm; destruct s; simpl in *; auto.
Qed.

(** With [isDragging] down, no event but a 'touchstart' raises it, and none
    but a select moves the model. *)
Lemma step_keeps_position (s : AR.State) (e : AR.Event) (m : Object3D.t) :
  Runs.isTouchStart e || Runs.isSelect e = false ->
  AR.isDragging s = false ->
  AR.currentModel s = Some m ->
  AR.isDragging (AR.step atan2 cos sin asin s e) = false
  /\ exists m', AR.currentModel (AR.step atan2 cos sin asin s e) = Some m'
                /\ Object3D.position m' = Object3D.position m.
Proof.
  intros He H2 Hm.
  destruct s as [? ? ? ? ? ? ? ? ? dragging twoFinger ? ? ? ? ?].
  simpl in H2, Hm. subst. destruct m.
  destruct e; try discriminate He; destruct twoFinger; simpl;
    unfold_callbacks; simpl; split_cases_simpl;
    (split; [reflexivity|]); eexists; (split; [reflexivity|]);
    reflexivity.
Qed.

Lemma run_keeps_position (evs : list AR.Event) (s : AR.State)
  (m : Object3D.t) :
  forallb (fun e => negb (Runs.isTouchStart e || Runs.isSelect e)) evs
  = true ->
  AR.isDragging s = false ->
  AR.currentModel s = Some m ->
  exists m', AR.currentModel (AR.run atan2 cos sin asin s evs) = Some m'
             /\ Object3D.position m' = Object3D.position m.
Proof.
  revert s m. induction evs as [|e evs IH]; intros s m Hall H2 Hm.
  - exists m. split; [exact Hm | reflexivity].
  - simpl in Hall. apply andb_prop in Hall. destruct Hall as [He Hall].
    apply negb_true_iff in He.
    destruct (step_keeps_position s e m He H2 Hm) as (H2' & m1 & Hm1 & A1).
    destruct (IH (AR.step atan2 cos sin asin s e) m1 Hall H2' Hm1) as
      (m' & Hm' & A').
    exists m'. split; [exact Hm' | congruence].
Qed.

(** X17.  A two-finger gesture never moves the model: after a 'touchstart'
    with two touches on a placed model, no run of moves, frames with
    transient hits, timers and session events changes the model's position,
    until the next 'touchstart' or select. *)
Theorem two_finger_keeps_position (s : AR.State) (m : Object3D.t)
  (a b : Touch) (evs : list AR.Event) :
  AR.currentModel s = Some m ->
  forallb (fun e => negb (Runs.isTouchStart e || Runs.isSelect e)) evs
  = true ->
  exists m',
    AR.currentModel (AR.run atan2 cos sin asin
        (AR.touchstart atan2 [a; b] s) evs)
    = Some m'
    /\ Object3D.position m' = Object3D.position m.
Proof.
  intros Hm Hall. apply run_keeps_position; [exact Hall| |];
    unfold AR.touchstart; rewrite Hm; destruct s; simpl in *; auto.
Qed.

(** With both flags down the model is left as it is. *)
Lemma step_idle (s : AR.State) (e : AR.Event) :
  Runs.isTouchStart e || Runs.isSelect e = false ->
  AR.isDragging s = false ->
  AR.isTwoFinger s = false ->
  AR.isDragging (AR.step atan2 cos sin asin s e) = false
  /\ AR.isTwoFinger (AR.step atan2 cos sin asin s e) = false
  /\ AR.currentModel (AR.step atan2 cos sin asin s e) = AR.currentModel s.
Proof.
  intros He H1 H2.
  destruct s as [? ? ? ? ? ? ? ? ? dragging twoFinger ? ? ? ? ?].
  simpl in H1, H2. subst.
  destruct e; try discriminate He; simpl;
    unfold_callbacks; simpl; split_cases_simpl; auto.
Qed.

Lemma run_idle (evs : list AR.Event) (s : AR.State) :
  forallb (fun e => negb (Runs.isTouchStart e || Runs.isSelect e)) evs
  = true ->
  AR.isDragging s = false ->
  AR.isTwoFinger s = false ->
  AR.currentModel (AR.run atan2 cos sin asin s evs) = AR.currentModel s.
Proof.
  revert s. induction evs as [|e evs IH]; intros s Hall H1 H2;
    [reflexivity|].
  simpl in Hall. apply andb_prop in Hall. destruct Hall as [He Hall].
  apply negb_true_iff in He.
  destruct (step_idle s e He H1 H2) as (H1' & H2' & Hm).
  simpl. rewrite (IH _ Hall H1' H2'). exact Hm.
Qed.

(** X18.  The timer of an earlier 'touchend' ends whatever gesture is under
    way when it fires: with a timer pending, once it fires the model stays
    exactly as it is through every later move and frame, until the next
    'touchstart' or select -- also when the fingers of a newer gesture are
    still down. *)
Theorem timer_ends_gesture (s : AR.State) (evs : list AR.Event) :
  AR.pendingTimeouts s <> 0 ->
  forallb (fun e => negb (Runs.isTouchStart e || Runs.isSelect e)) evs
  = true ->
  AR.currentModel (AR.run atan2 cos sin asin s (AR.Timeout :: evs))
    = AR.currentModel s.
Proof.
  intros Hp Hall. simpl. unfold AR.onTimeout.
  destruct (AR.pendingTimeouts s) as [|n] eqn:E; [contradiction|].
  rewrite run_idle; [|exact Hall| |]; destruct s; reflexivity.
Qed.

End GestureFrames.

(** * Further properties of the session with one-finger rotation *)

Ltac unfold_pan_callbacks :=
  unfold ARPan.onSelect, ARPan.touchstart, ARPan.touchmove, ARPan.touchend,
    ARPan.onTimeout, ARPan.render, ARPan.reticleLogic,
    ARPan.requestSources, ARPan.shouldShowReticle, ARPan.onSessionEnd,
    ARPan.onGLTFLoaded.

Lemma ARPan_render_session (frame : option XRFrame) (p : bool)
  (s : ARPan.State) :
  ARPan.hitTestSource (ARPan.stateOf (ARPan.render frame p s))
  = ARPan.hitTestSource s
  /\ ARPan.loadedGLTF (ARPan.stateOf (ARPan.render frame p s))
     = ARPan.loadedGLTF s
  /\ ARPan.isDragging (ARPan.stateOf (ARPan.render frame p s))
     = ARPan.isDragging s
  /\ ARPan.currentModel (ARPan.stateOf (ARPan.render frame p s))
     = ARPan.currentModel s.
Proof.
  unfold_pan_callbacks. destruct s. simpl.
  split_cases_simpl; repeat split; reflexivity.
Qed.

Lemma ARPan_onSelect_source (s : ARPan.State) :
  ARPan.hitTestSource (ARPan.onSelect atan2 cos sin asin s)
    = ARPan.hitTestSource s.
Proof.
  unfold ARPan.onSelect. destruct s. simpl. split_cases; reflexivity.
Qed.

Lemma ARPan_onSelect_position (s : ARPan.State) (template : Object3D.t) :
  ARPan.isDragging s = false ->
  visible (ARPan.reticle s) = true ->
  ARPan.loadedGLTF s = Some template ->
  exists m, ARPan.currentModel (ARPan.onSelect atan2 cos sin asin s) = Some m
            /\ Object3D.position m
               = Spec.matrixPosition (matrix (ARPan.reticle s)).
Proof.
  intros Hd Hv Hl. unfold ARPan.onSelect. rewrite Hd, Hv, Hl.
  destruct (ARPan.currentModel s) as [m|]; eexists; (split; [reflexivity|]).
  - destruct m. reflexivity.
  - destruct template. reflexivity.
Qed.

Lemma ARPan_onSelect_hidden (s : ARPan.State) :
  visible (ARPan.reticle s) = false -> ARPan.onSelect atan2 cos sin asin s = s.
Proof.
  intros H. unfold ARPan.onSelect. rewrite H.
  destruct (ARPan.isDragging s); reflexivity.
Qed.

(** X19.  In the deployment with one-finger rotation, too, placing hides the
    reticle: with the template loaded, the source granted and no touch under
    way, a frame, a select and a second frame with the same hit pose leave
    the reticle hidden. *)
Theorem pan_reticle_hidden_after_select (s : ARPan.State) (f : XRFrame)
  (hit : XRHitTestResult) (rest : list XRHitTestResult) (pose : list float)
  (src : XRHitTestSource) (template : Object3D.t) :
  ARPan.hitTestSource s = Some src ->
  ARPan.loadedGLTF s = Some template ->
  ARPan.isDragging s = false ->
  getHitTestResults f = hit :: rest ->
  getPose hit = Some pose ->
  visible (ARPan.reticle
             (ARPan.run atan2 cos sin asin s
                [ARPan.AnimationFrame (Some f) true; ARPan.Select;
                 ARPan.AnimationFrame (Some f) true]))
  = false.
Proof.
  intros Hsrc Hl Hd Hhits Hpose.
  change (visible
            (ARPan.reticle
               (ARPan.stateOf
                  (ARPan.render (Some f) true
                     (ARPan.onSelect atan2 cos sin asin
                        (ARPan.stateOf (ARPan.render (Some f) true s))))))
          = false).
  pose proof (ARPan_render_reticle s f hit rest pose src Hsrc Hhits Hpose)
    as R1.
  destruct (ARPan_render_session (Some f) true s) as (K1 & K2 & K3 & K4).
  set (s1 := ARPan.stateOf (ARPan.render (Some f) true s)) in *.
  assert (Hsrc2 : ARPan.hitTestSource (ARPan.onSelect atan2 cos sin asin s1)
      = Some src)
    by (rewrite ARPan_onSelect_source, K1; exact Hsrc).
  rewrite (ARPan_render_reticle
      (ARPan.onSelect atan2 cos sin asin s1) f hit rest pose src
             Hsrc2 Hhits Hpose).
  simpl. destruct (visible (ARPan.reticle s1)) eqn:Hv.
  - destruct (ARPan_onSelect_position s1 template) as (m & Em & Pm);
      [congruence | exact Hv | congruence |].
    rewrite Em, Pm, R1. simpl.
    change (Spec.matrixPosition
              (Matrix4.fromArray (matrix (ARPan.reticle s)) pose))
      with (Spec.posePosition pose).
    apply distance_self.
  - rewrite (ARPan_onSelect_hidden s1 Hv).
    rewrite K4. rewrite R1 in Hv. simpl in Hv. exact Hv.
Qed.

(** While [isDragging] is up, no event but the timer's lowers it, adds to
    the scene or changes where the model stands and how large it is. *)
Lemma pan_step_touching (s : ARPan.State) (e : ARPan.Event) :
  Runs.panIsTimeout e = false ->
  ARPan.isDragging s = true ->
  ARPan.isDragging (ARPan.step atan2 cos sin asin s e) = true
  /\ ARPan.scene (ARPan.step atan2 cos sin asin s e) = ARPan.scene s
  /\ option_map Runs.placement
    (ARPan.currentModel (ARPan.step atan2 cos sin asin s e))
     = option_map Runs.placement (ARPan.currentModel s).
Proof.
  intros He Hd. destruct s. simpl in Hd. subst.
  destruct e; try discriminate He; simpl; unfold_pan_callbacks; simpl;
    split_cases_simpl; repeat split; try reflexivity;
    match goal with m : Object3D.t |- _ => destruct m; reflexivity end.
Qed.

Lemma pan_run_touching (evs : list ARPan.Event) (s : ARPan.State) :
  forallb (fun e => negb (Runs.panIsTimeout e)) evs = true ->
  ARPan.isDragging s = true ->
  ARPan.isDragging (ARPan.run atan2 cos sin asin s evs) = true
  /\ ARPan.scene (ARPan.run atan2 cos sin asin s evs) = ARPan.scene s
  /\ option_map Runs.placement
    (ARPan.currentModel (ARPan.run atan2 cos sin asin s evs))
     = option_map Runs.placement (ARPan.currentModel s).
Proof.
  revert s. induction evs as [|e evs IH]; intros s Hall Hd; [auto|].
  simpl in Hall. apply andb_prop in Hall. destruct Hall as [He Hall].
  apply negb_true_iff in He.
  destruct (pan_step_touching s e He Hd) as (D & S1 & P1).
  destruct (IH (ARPan.step atan2 cos sin asin s e) Hall D) as (D' & S' & P').
  simpl. repeat split; congruence.
Qed.

(** X20.  A touch blocks placement until a timer fires: from any
    'touchstart' on, also one with no touch in its list, and through every
    run of events without a timer firing, [isDragging] stays up, selects
    are ignored, the scene gains nothing and the model keeps its position
    and scale; it can only turn. *)
Theorem pan_touch_blocks_select (s : ARPan.State) (touches : list Touch)
  (evs : list ARPan.Event) :
  forallb (fun e => negb (Runs.panIsTimeout e)) evs = true ->
  let s' := ARPan.run atan2 cos sin asin s (ARPan.TouchStart touches :: evs) in
  ARPan.isDragging s' = true
  /\ ARPan.onSelect atan2 cos sin asin s' = s'
  /\ ARPan.scene s' = ARPan.scene s
  /\ option_map Runs.placement (ARPan.currentModel s')
     = option_map Runs.placement (ARPan.currentModel s).
Proof.
  intros Hall s'. unfold s'. simpl.
  assert (D : ARPan.isDragging (ARPan.stateOf (ARPan.touchstart touches s))
              = true)
    by (unfold ARPan.touchstart; destruct touches; destruct s; reflexivity).
  destruct (pan_run_touching evs _ Hall D) as (D' & S' & P').
  split; [exact D'|]. split.
  - unfold ARPan.onSelect at 1.
    fold (ARPan.run atan2 cos sin asin
        (ARPan.stateOf (ARPan.touchstart touches s)) evs).
    rewrite D'. reflexivity.
  - rewrite S', P'. unfold ARPan.touchstart.
    destruct touches; destruct s; split; reflexivity.
Qed.

(** Every event keeps a placed model placed, with its number, scale and
    tilt. *)
Lemma pan_step_tilt (s : ARPan.State) (e : ARPan.Event) (m : Object3D.t) :
  ARPan.currentModel s = Some m ->
  exists m', ARPan.currentModel (ARPan.step atan2 cos sin asin s e) = Some m'
             /\ Runs.tilt m' = Runs.tilt m.
Proof.
  intros Hm. destruct s. simpl in Hm. subst. destruct m as [i n im p r sc].
  destruct r.
  destruct e; simpl; unfold_pan_callbacks; simpl; split_cases_simpl;
    eexists; split; reflexivity.
Qed.

(** X21.  The deployment with one-finger rotation never rescales or tilts a
    placed model, and never replaces it: after any run of events the model
    has its number and scale, and its rotation about the two horizontal
    axes; only its position and its turn about the vertical axis change. *)
Theorem pan_model_keeps_scale_and_tilt (evs : list ARPan.Event)
  (s : ARPan.State) (m : Object3D.t) :
  ARPan.currentModel s = Some m ->
  exists m', ARPan.currentModel (ARPan.run atan2 cos sin asin s evs) = Some m'
             /\ Runs.tilt m' = Runs.tilt m.
Proof.
  revert s m. induction evs as [|e evs IH]; intros s m Hm.
  - exists m. split; [exact Hm | reflexivity].
  - destruct (pan_step_tilt s e m Hm) as (m1 & Hm1 & T1).
    destruct (IH (ARPan.step atan2 cos sin asin s e) m1 Hm1) as (m' & Hm' & T').
    exists m'. split; [exact Hm' | congruence].
Qed.

End FurtherSessions.

(** ** The further properties at concrete sessions *)

Lemma nothing_placed_without_template_or_source_witness :
  (forallb (fun e => negb (Runs.isGLTFLoaded e)) MoreExamples.withoutTemplate
   = true
   \/ forallb (fun e => negb (Runs.isGranted e)) MoreExamples.withoutTemplate
      = true)
  /\ AR.currentModel
       (AR.run Examples.quotient Examples.cosine Examples.sine Examples.arcsine
           AR.init MoreExamples.withoutTemplate) = None
  /\ AR.scene (AR.run Examples.quotient Examples.cosine Examples.sine
      Examples.arcsine AR.init MoreExamples.withoutTemplate)
     = [].
Proof.
  split; [left; reflexivity|].
  exact (nothing_placed_without_template_or_source Examples.quotient
      Examples.cosine Examples.sine Examples.arcsine
           MoreExamples.withoutTemplate (or_introl eq_refl)).
Defined.

Lemma reticle_hidden_after_select_witness :
  AR.hitTestSource Examples.aiming = Some ViewerSource
  /\ AR.loadedGLTF Examples.aiming = Some Examples.pot
  /\ AR.isDragging Examples.aiming = false
  /\ visible
       (AR.reticle
          (AR.run Examples.quotient Examples.cosine Examples.sine
              Examples.arcsine Examples.aiming
             [AR.AnimationFrame (Some (Examples.frameAt 0 0 (-1))) true;
              AR.Select;
              AR.AnimationFrame (Some (Examples.frameAt 0 0 (-1))) true]))
     = false.
Proof.
  split; [reflexivity|]. split; [reflexivity|]. split; [reflexivity|].
  exact (reticle_hidden_after_select Examples.quotient Examples.cosine
      Examples.sine Examples.arcsine Examples.aiming
           (Examples.frameAt 0 0 (-1))
           (mkHit (Some (Examples.poseAt 0 0 (-1)))) []
           (Examples.poseAt 0 0 (-1)) ViewerSource Examples.pot
           eq_refl eq_refl eq_refl eq_refl eq_refl).
Defined.

Lemma one_finger_keeps_attitude_witness :
  AR.currentModel Examples.placed = Some Examples.placedModel
  /\ forallb (fun e => negb (Runs.isTouchStart e)) MoreExamples.afterOneFinger
     = true
  /\ exists m',
       AR.currentModel
         (AR.run Examples.quotient Examples.cosine Examples.sine
             Examples.arcsine
            (AR.touchstart Examples.quotient [mkTouch 100 300]
               Examples.placed)
            MoreExamples.afterOneFinger)
       = Some m'
       /\ Runs.attitude m' = Runs.attitude Examples.placedModel.
Proof.
  split; [reflexivity|]. split; [reflexivity|].
  exact (one_finger_keeps_attitude Examples.quotient Examples.cosine
      Examples.sine Examples.arcsine Examples.placed
           Examples.placedModel (mkTouch 100 300)
           MoreExamples.afterOneFinger eq_refl eq_refl).
Defined.

Lemma two_finger_keeps_position_witness :
  AR.currentModel Examples.placed = Some Examples.placedModel
  /\ forallb (fun e => negb (Runs.isTouchStart e || Runs.isSelect e))
       MoreExamples.afterTwoFingers
     = true
  /\ exists m',
       AR.currentModel
         (AR.run Examples.quotient Examples.cosine Examples.sine
             Examples.arcsine
            (AR.touchstart Examples.quotient
               [mkTouch 100 300; mkTouch 200 300] Examples.placed)
            MoreExamples.afterTwoFingers)
       = Some m'
       /\ Object3D.position m' = Object3D.position Examples.placedModel.
Proof.
  split; [reflexivity|]. split; [reflexivity|].
  exact (two_finger_keeps_position Examples.quotient Examples.cosine
      Examples.sine Examples.arcsine Examples.placed
           Examples.placedModel (mkTouch 100 300) (mkTouch 200 300)
           MoreExamples.afterTwoFingers eq_refl eq_refl).
Defined.

Lemma timer_ends_gesture_witness :
  AR.pendingTimeouts MoreExamples.staleTimer <> 0
  /\ forallb (fun e => negb (Runs.isTouchStart e || Runs.isSelect e))
       MoreExamples.afterTimer
     = true
  /\ AR.currentModel
       (AR.run Examples.quotient Examples.cosine Examples.sine Examples.arcsine
           MoreExamples.staleTimer
          (AR.Timeout :: MoreExamples.afterTimer))
     = AR.currentModel MoreExamples.staleTimer.
Proof.
  assert (H : AR.pendingTimeouts MoreExamples.staleTimer <> 0)
    by (intros E; vm_compute in E; discriminate E).
  split; [exact H|]. split; [reflexivity|].
  exact (timer_ends_gesture Examples.quotient Examples.cosine Examples.sine
      Examples.arcsine MoreExamples.staleTimer
           MoreExamples.afterTimer H eq_refl).
Defined.

Lemma pan_reticle_hidden_after_select_witness :
  ARPan.hitTestSource MoreExamples.panAiming = Some ViewerSource
  /\ ARPan.loadedGLTF MoreExamples.panAiming = Some Examples.pot
  /\ ARPan.isDragging MoreExamples.panAiming = false
  /\ visible
       (ARPan.reticle
          (ARPan.run Examples.quotient Examples.cosine Examples.sine
              Examples.arcsine MoreExamples.panAiming
             [ARPan.AnimationFrame (Some (Examples.frameAt 0 0 (-1))) true;
              ARPan.Select;
              ARPan.AnimationFrame (Some (Examples.frameAt 0 0 (-1))) true]))
     = false.
Proof.
  split; [reflexivity|]. split; [reflexivity|]. split; [reflexivity|].
  exact (pan_reticle_hidden_after_select Examples.quotient Examples.cosine
      Examples.sine
           Examples.arcsine MoreExamples.panAiming
           (Examples.frameAt 0 0 (-1))
           (mkHit (Some (Examples.poseAt 0 0 (-1)))) []
           (Examples.poseAt 0 0 (-1)) ViewerSource Examples.pot
           eq_refl eq_refl eq_refl eq_refl eq_refl).
Defined.

Lemma pan_touch_blocks_select_witness :
  forallb (fun e => negb (Runs.panIsTimeout e)) MoreExamples.panDuringTouch
  = true
  /\ let s' :=
       ARPan.run Examples.quotient Examples.cosine Examples.sine
         Examples.arcsine Examples.panPlaced
         (ARPan.TouchStart [mkTouch 100 300] :: MoreExamples.panDuringTouch) in
     ARPan.isDragging s' = true
     /\ ARPan.onSelect Examples.quotient Examples.cosine Examples.sine
       Examples.arcsine s' = s'
     /\ ARPan.scene s' = ARPan.scene Examples.panPlaced
     /\ option_map Runs.placement (ARPan.currentModel s')
        = option_map Runs.placement (ARPan.currentModel Examples.panPlaced).
Proof.
  split; [reflexivity|].
  exact (pan_touch_blocks_select Examples.quotient Examples.cosine Examples.sine
           Examples.arcsine Examples.panPlaced [mkTouch 100 300]
           MoreExamples.panDuringTouch eq_refl).
Defined.

Lemma pan_model_keeps_scale_and_tilt_witness :
  ARPan.currentModel Examples.panPlaced = Some Examples.placedModel
  /\ exists m',
       ARPan.currentModel
         (ARPan.run Examples.quotient Examples.cosine Examples.sine
             Examples.arcsine Examples.panPlaced MoreExamples.panSession)
           = Some m'
       /\ Runs.tilt m' = Runs.tilt Examples.placedModel.
Proof.
  split; [reflexivity|].
  exact (pan_model_keeps_scale_and_tilt Examples.quotient Examples.cosine
      Examples.sine
           Examples.arcsine MoreExamples.panSession
           Examples.panPlaced Examples.placedModel eq_refl).
Defined.
